(** * flash_usb.py: decision logic of the USB flashing helper

    A shallow embedding of [scripts/deploy_esp/flash_usb.py] and of the
    parts of the Python runtime it leans on, followed by the properties of
    the precondition checks, the profile and BIOS selection, the command
    builder and the child-process supervisor.

    The Python runtime is modelled after CPython 3.11 ([str], [int],
    [pathlib], [urllib.parse]).

    Conventions of the embedding:
    - a Python [str] is a [string]; its characters are the code points
      below 256;
    - a Python [int] is a [Z];
    - a function that talks to the outside world is a state transformer
      over [State] (pending standard input, the log of effects, what the
      child process will be seen to do) that reads a fixed [Env] (user id,
      file system, network, process table);
    - a [raise] is the [Raise] outcome; the state reached so far is kept,
      so the effects that precede a failure stay visible;
    - the loaded configuration is a [yaml.Document], which may lack any
      entry; a [Config] stands for the document that spells it, and the
      properties of a single function are stated for these;
    - a signal that ends the script is the [Killed] outcome. *)

From Stdlib Require Import String Ascii List ZArith Lia Bool DecimalString.
From Stdlib Require Import DecimalPos.
Import ListNotations.
Open Scope string_scope.
Open Scope Z_scope.

(** ** Python [str] operations used by the script *)
Module PyStr.

Definition ord (c : ascii) : N := N_of_ascii c.

Definition in_range (lo hi : N) (c : ascii) : bool :=
  (N.leb lo (ord c) && N.leb (ord c) hi)%bool.

(** [str.lower] on one character: A-Z, and the upper-case letters of the
    Latin-1 block (U+00C0..U+00DE but the multiplication sign U+00D7). *)
Definition lower_char (c : ascii) : ascii :=
  if (in_range 65 90 c
      || (in_range 192 222 c && negb (N.eqb (ord c) 215)))%bool
  then ascii_of_N (ord c + 32) else c.

Fixpoint lower (s : string) : string :=
  match s with
  | EmptyString => EmptyString
  | String c t => String (lower_char c) (lower t)
  end.

Definition startswith (p s : string) : bool := String.prefix p s.

Definition endswith (p s : string) : bool :=
  let n := String.length s in
  let m := String.length p in
  (Nat.leb m n && String.eqb (substring (n - m) m s) p)%bool.

(** [sub in s] *)
Fixpoint contains (sub s : string) : bool :=
  (String.prefix sub s
   || match s with
      | EmptyString => false
      | String _ t => contains sub t
      end)%bool.

(** [c in s] for a single character *)
Fixpoint has_char (c : ascii) (s : string) : bool :=
  match s with
  | EmptyString => false
  | String d t => (Ascii.eqb c d || has_char c t)%bool
  end.

(** [s.find(c)]: [None] stands for -1 *)
Fixpoint find (c : ascii) (s : string) : option nat :=
  match s with
  | EmptyString => None
  | String d t =>
      if Ascii.eqb c d then Some O
      else match find c t with Some i => Some (S i) | None => None end
  end.

(** [s.rfind(c)] *)
Fixpoint rfind (c : ascii) (s : string) : option nat :=
  match s with
  | EmptyString => None
  | String d t =>
      match rfind c t with
      | Some i => Some (S i)
      | None => if Ascii.eqb c d then Some O else None
      end
  end.

(** [s[i:]] and [s[:i]] for [0 <= i] *)
Fixpoint drop (n : nat) (s : string) : string :=
  match n, s with
  | O, _ => s
  | S n', String _ t => drop n' t
  | S _, EmptyString => EmptyString
  end.

Definition take (n : nat) (s : string) : string := substring 0 n s.

(** [s.split(sep)] for a one-character separator *)
Fixpoint split (sep : ascii) (s : string) : list string :=
  match s with
  | EmptyString => [EmptyString]
  | String c t =>
      if Ascii.eqb c sep then EmptyString :: split sep t
      else match split sep t with
           | h :: r => String c h :: r
           | [] => [String c EmptyString]
           end
  end.

(** [s.split(sep, 1)] when [sep in s]: the text before and after the
    first separator *)
Definition split1 (sep : ascii) (s : string) : string * string :=
  match find sep s with
  | Some i => (take i s, drop (S i) s)
  | None => (s, EmptyString)
  end.

(** [s.lstrip(c)] *)
Fixpoint lstrip (c : ascii) (s : string) : string :=
  match s with
  | String d t => if Ascii.eqb c d then lstrip c t else s
  | EmptyString => EmptyString
  end.

(** [s.lstrip(chars)], the set of characters given as a test *)
Fixpoint lstrip_if (p : ascii -> bool) (s : string) : string :=
  match s with
  | String d t => if p d then lstrip_if p t else s
  | EmptyString => EmptyString
  end.

(** [s.replace(c, "")] for every character [c] that passes the test *)
Fixpoint remove (p : ascii -> bool) (s : string) : string :=
  match s with
  | String d t => if p d then remove p t else String d (remove p t)
  | EmptyString => EmptyString
  end.

(** [sep.join(l)] *)
Definition join (sep : string) (l : list string) : string :=
  String.concat sep l.

Fixpoint forallb (p : ascii -> bool) (s : string) : bool :=
  match s with
  | EmptyString => true
  | String c t => (p c && forallb p t)%bool
  end.

Definition is_digit (c : ascii) : bool := in_range 48 57 c.

Definition is_alpha (c : ascii) : bool :=
  (in_range 65 90 c || in_range 97 122 c)%bool.

End PyStr.

(** ** [int(s)] in base 10

    The grammar of CPython's [PyLong_FromString]: optional white space, an
    optional sign, decimal digits in which single underscores may separate
    digits, optional white space.  Leading zeros are accepted.  The white
    space of the Latin-1 block (U+0085, U+00A0) counts, as the interpreter
    maps it to a blank before parsing. *)
Module PyInt.

Definition is_space (c : ascii) : bool :=
  let n := PyStr.ord c in
  (PyStr.in_range 9 13 c || N.eqb n 32 || N.eqb n 133 || N.eqb n 160)%bool.

Fixpoint skip_space (s : string) : string :=
  match s with
  | String c t => if is_space c then skip_space t else s
  | EmptyString => EmptyString
  end.

Definition digit_value (c : ascii) : Z := Z.of_N (PyStr.ord c) - 48.

(** Digits after the first one.  [prev_us] tells that the previous
    character was an underscore.  Returns the value and the unread rest,
    or [None] on a doubled or trailing underscore. *)
Fixpoint digits (acc : Z) (prev_us : bool) (s : string)
  : option (Z * string) :=
  match s with
  | String c t =>
      if PyStr.is_digit c then digits (10 * acc + digit_value c) false t
      else if Ascii.eqb c "_" then
             if prev_us then None else digits acc true t
      else if prev_us then None else Some (acc, s)
  | EmptyString => if prev_us then None else Some (acc, EmptyString)
  end.

Definition unsigned (s : string) : option (Z * string) :=
  match s with
  | String c t =>
      if PyStr.is_digit c then digits (digit_value c) false t else None
  | EmptyString => None
  end.

(** [int(s)]; [None] is [ValueError]. *)
Definition int (s : string) : option Z :=
  let s1 := skip_space s in
  let '(sign, s2) :=
    match s1 with
    | String "+" t => (1, t)
    | String "-" t => (-1, t)
    | _ => (1, s1)
    end in
  match unsigned s2 with
  | Some (v, rest) =>
      match skip_space rest with
      | EmptyString => Some (sign * v)
      | _ => None
      end
  | None => None
  end.

End PyInt.

(** ** [pathlib.Path] on a POSIX system

    A path is its root ([""], ["/"] or ["//"]) and its components.  Empty
    components and ["."] are dropped when a string is parsed; [".."] is
    kept. *)
Module pathlib.

Record Path := mkPath { root : string; parts : list string }.

(** [_PosixFlavour.splitroot] *)
Definition splitroot (part : string) : string * string :=
  match part with
  | String "/" _ =>
      let stripped := PyStr.lstrip "/" part in
      if Nat.eqb (String.length part - String.length stripped) 2
      then ("//", stripped) else ("/", stripped)
  | _ => ("", part)
  end.

Definition keep_part (x : string) : bool :=
  negb (String.eqb x "" || String.eqb x ".").

(** [Path(s)] *)
Definition of_str (s : string) : Path :=
  let '(r, rel) := splitroot s in
  mkPath r (filter keep_part (PyStr.split "/" rel)).

(** [self / key]: an absolute [key] replaces [self] *)
Definition truediv (self : Path) (key : string) : Path :=
  let k := of_str key in
  if String.eqb (root k) "" then mkPath (root self) (parts self ++ parts k)
  else k.

(** [str(path)] *)
Definition str (p : Path) : string :=
  match root p, parts p with
  | EmptyString, [] => "."
  | r, ps => r ++ PyStr.join "/" ps
  end.

End pathlib.

(** ** [urllib.parse], as in CPython 3.11

    [urlsplit] validates a bracketed host with the [ipaddress] module; that
    validation is the parameter [host_ok] of the functions below.  The
    normalisation check [_checknetloc] never fails on code points below
    256 and is left out. *)
Module urllib_parse.

Record ParseResult := mkParseResult {
  scheme : string;
  netloc : string;
  path : string;
  params : string;
  query : string;
  fragment : string
}.

Definition uses_netloc : list string :=
  [""; "ftp"; "http"; "gopher"; "nntp"; "telnet"; "imap"; "wais"; "file";
   "mms"; "https"; "shttp"; "snews"; "prospero"; "rtsp"; "rtspu"; "rsync";
   "svn"; "svn+ssh"; "sftp"; "nfs"; "git"; "git+ssh"; "ws"; "wss"].

Definition uses_params : list string :=
  [""; "ftp"; "hdl"; "prospero"; "http"; "imap"; "https"; "shttp"; "rtsp";
   "rtspu"; "sip"; "sips"; "mms"; "sftp"; "tel"].

Definition mem (s : string) (l : list string) : bool :=
  existsb (String.eqb s) l.

Definition scheme_chars (c : ascii) : bool :=
  (PyStr.is_alpha c || PyStr.is_digit c
   || Ascii.eqb c "+" || Ascii.eqb c "-" || Ascii.eqb c ".")%bool.

(** [_WHATWG_C0_CONTROL_OR_SPACE]: U+0000..U+0020 *)
Definition c0_control_or_space (c : ascii) : bool := PyStr.in_range 0 32 c.

(** [_UNSAFE_URL_BYTES_TO_REMOVE]: tab, carriage return, line feed *)
Definition unsafe_url_byte (c : ascii) : bool :=
  let n := PyStr.ord c in
  (N.eqb n 9 || N.eqb n 13 || N.eqb n 10)%bool.

Definition is_delim (c : ascii) : bool :=
  (Ascii.eqb c "/" || Ascii.eqb c "?" || Ascii.eqb c "#")%bool.

(** The text before the first of [/ ? #], and the text from it on. *)
Fixpoint until_delim (s : string) : string * string :=
  match s with
  | EmptyString => (EmptyString, EmptyString)
  | String c t =>
      if is_delim c then (EmptyString, s)
      else let '(a, b) := until_delim t in (String c a, b)
  end.

(** [_splitnetloc(url, 2)] *)
Definition _splitnetloc (url : string) : string * string :=
  until_delim (PyStr.drop 2 url).

(** [_check_bracketed_netloc]: [true] when it returns, [false] when it
    raises [ValueError]. *)
Definition _check_bracketed_netloc (host_ok : string -> bool)
    (netloc : string) : bool :=
  let hostname_and_port :=
    match PyStr.rfind "@" netloc with
    | Some i => PyStr.drop (S i) netloc
    | None => netloc
    end in
  match PyStr.find "[" hostname_and_port with
  | Some i =>
      let before_bracket := PyStr.take i hostname_and_port in
      let bracketed := PyStr.drop (S i) hostname_and_port in
      if negb (String.eqb before_bracket "") then false
      else
        let '(hostname, port) := PyStr.split1 "]" bracketed in
        if (negb (String.eqb port "") && negb (PyStr.startswith ":" port))%bool
        then false
        else host_ok hostname
  | None => host_ok (fst (PyStr.split1 ":" hostname_and_port))
  end.

(** [urlsplit(url)]; [None] is [ValueError]. *)
Definition urlsplit (host_ok : string -> bool) (url : string)
  : option (string * string * string * string * string) :=
  let url := PyStr.lstrip_if c0_control_or_space url in
  let url := PyStr.remove unsafe_url_byte url in
  let '(sch, url) :=
    match PyStr.find ":" url, url with
    | Some (S i'), String c0 _ =>
        let i := S i' in
        if (PyStr.is_alpha c0 && PyStr.forallb scheme_chars (PyStr.take i url))%bool
        then (PyStr.lower (PyStr.take i url), PyStr.drop (S i) url)
        else ("", url)
    | _, _ => ("", url)
    end in
  let '(nl, url) :=
    if String.eqb (PyStr.take 2 url) "//" then _splitnetloc url
    else ("", url) in
  let has_open := PyStr.has_char "[" nl in
  let has_close := PyStr.has_char "]" nl in
  if ((has_open && negb has_close) || (has_close && negb has_open))%bool
  then None
  else if (has_open && has_close && negb (_check_bracketed_netloc host_ok nl))%bool
  then None
  else
    let '(url, frag) :=
      if PyStr.has_char "#" url then PyStr.split1 "#" url else (url, "") in
    let '(url, q) :=
      if PyStr.has_char "?" url then PyStr.split1 "?" url else (url, "") in
    Some (sch, nl, url, q, frag).

Definition _splitparams (url : string) : string * string :=
  if PyStr.has_char "/" url then
    match PyStr.rfind "/" url with
    | Some j =>
        match PyStr.find ";" (PyStr.drop j url) with
        | Some k => (PyStr.take (j + k) url, PyStr.drop (S (j + k)) url)
        | None => (url, "")
        end
    | None => (url, "")
    end
  else
    match PyStr.find ";" url with
    | Some i => (PyStr.take i url, PyStr.drop (S i) url)
    | None =>
        (* [find] gave -1: [url[:-1]] and [url[0:]] *)
        (PyStr.take (String.length url - 1) url, url)
    end.

(** [urlparse(url)]; [None] is [ValueError]. *)
Definition urlparse (host_ok : string -> bool) (url : string)
  : option ParseResult :=
  match urlsplit host_ok url with
  | None => None
  | Some (sch, nl, p, q, frag) =>
      let '(p', prm) :=
        if (mem sch uses_params && PyStr.has_char ";" p)%bool
        then _splitparams p else (p, "") in
      Some (mkParseResult sch nl p' prm q frag)
  end.

Definition urlunsplit (sch nl url q frag : string) : string :=
  let url1 :=
    if (negb (String.eqb nl "")
        || (negb (String.eqb sch "") && mem sch uses_netloc
            && negb (String.eqb (PyStr.take 2 url) "//")))%bool
    then
      let u := if (negb (String.eqb url "")
                   && negb (String.eqb (PyStr.take 1 url) "/"))%bool
               then "/" ++ url else url in
      "//" ++ nl ++ u
    else url in
  let url2 := if String.eqb sch "" then url1 else sch ++ ":" ++ url1 in
  let url3 := if String.eqb q "" then url2 else url2 ++ "?" ++ q in
  if String.eqb frag "" then url3 else url3 ++ "#" ++ frag.

(** [ParseResult.geturl], that is [urlunparse(self)] *)
Definition geturl (r : ParseResult) : string :=
  let url := if String.eqb (params r) "" then path r
             else path r ++ ";" ++ params r in
  urlunsplit (scheme r) (netloc r) url (query r) (fragment r).

End urllib_parse.

(** ** [seo.error] *)
Module seo_error.

(** Modelled from the spec: the enumeration [seo.error.Codes] lives in a
    module of the repository that is not part of the script.  The script
    names five members; the spec (section 6) says they are distinct exit
    codes for missing prerequisite, bad argument, configuration error,
    runtime error and success. *)
Inductive Codes :=
| NO_ERROR
| MISSING_PREREQUISITE
| ARGUMENT_ERROR
| CONFIG_ERROR
| RUNTIME_ERROR.

End seo_error.
Export seo_error.

(** ** Data *)

(** A configuration that is well typed: the keys the script reads, each
    with a value of the type the script uses it at (section 3 of the spec
    lists the same keys and types).  What a configuration file can hold
    besides is the matter of [yaml.Document] below. *)
Record UsbImages := mkUsbImages {
  all_in_one : bool;
  build : bool;
  bios : bool;
  efi : bool;
  output_path : string
}.

Record Profile := mkProfile { name : string }.

Record Esp := mkEsp { dest_dir : string }.

Record Config := mkConfig {
  usb_images : UsbImages;
  profiles : list Profile;
  esp : Esp
}.

(** ** The loaded document

    [yaml.safe_load] returns whatever the text spells: a mapping, a list, a
    scalar, or [None] for an empty text, and [get_config] hands it on
    unchecked.  Apart from passing it to [logging.debug] as an argument, the
    script looks at the document in three ways only: it subscripts it with
    literal keys, it uses an entry as a condition, and it formats an entry
    into a string or gives it to [pathlib.Path].  A document is modelled by
    what these uses give. *)
Module yaml.

(** What [d[key]] gives, together with the one use the script makes of the
    entry. *)
Inductive Item (A : Type) :=
| Value (a : A)
| No_key          (* [KeyError]: [d] is a mapping without the key *)
| Wrong_type.     (* [TypeError]: [d] is no mapping ([None], a list, a
                     scalar), or the use does not take the entry *)
Arguments Value {A} a.
Arguments No_key {A}.
Arguments Wrong_type {A}.

(** [config['usb_images']].  The four flags are used as conditions only, so
    each is the truth value of its entry; [output_path] is given to
    [pathlib.Path], which raises [TypeError] unless it is a string. *)
Record UsbImages := mkUsbImages {
  all_in_one : Item bool;
  build : Item bool;
  bios : Item bool;
  efi : Item bool;
  output_path : Item string
}.

(** An element of [config['profiles']].  The name is only formatted into
    strings, so it is the text [str] gives for the entry. *)
Record Profile := mkProfile { name : Item string }.

(** [config['esp']]; [dest_dir] is given to [pathlib.Path]. *)
Record Esp := mkEsp { dest_dir : Item string }.

Record Document := mkDocument {
  usb_images : Item UsbImages;
  profiles : Item (list Profile);   (* [Wrong_type] also when the entry
                                       cannot be iterated *)
  esp : Item Esp
}.

(** What [yaml.safe_load] gives for an empty text: [None]. *)
Definition none : Document := mkDocument Wrong_type Wrong_type Wrong_type.

Definition value {A} (default : A) (item : Item A) : A :=
  match item with
  | Value a => a
  | _ => default
  end.

End yaml.

(** A configuration of the data model, as the document that spells it. *)
Definition typed (c : Config) : yaml.Document :=
  yaml.mkDocument
    (yaml.Value
       (yaml.mkUsbImages
          (yaml.Value (all_in_one (usb_images c)))
          (yaml.Value (build (usb_images c)))
          (yaml.Value (bios (usb_images c)))
          (yaml.Value (efi (usb_images c)))
          (yaml.Value (output_path (usb_images c)))))
    (yaml.Value (map (fun p => yaml.mkProfile (yaml.Value (name p))) (profiles c)))
    (yaml.Value (yaml.mkEsp (yaml.Value (dest_dir (esp c))))).

(** The typed view of a document: each entry the document has, at the type
    of the data model; [False], the empty string or the empty list where a
    subscript would raise. *)
Definition view (d : yaml.Document) : Config :=
  let usb := yaml.value
               (yaml.mkUsbImages yaml.No_key yaml.No_key yaml.No_key yaml.No_key
                  yaml.No_key)
               (yaml.usb_images d) in
  mkConfig
    (mkUsbImages
       (yaml.value false (yaml.all_in_one usb))
       (yaml.value false (yaml.build usb))
       (yaml.value false (yaml.bios usb))
       (yaml.value false (yaml.efi usb))
       (yaml.value "" (yaml.output_path usb)))
    (map (fun p => mkProfile (yaml.value "" (yaml.name p)))
       (yaml.value [] (yaml.profiles d)))
    (mkEsp (yaml.value ""
              (yaml.dest_dir (yaml.value (yaml.mkEsp yaml.No_key) (yaml.esp d))))).

Coercion typed : Config >-> yaml.Document.

(** The [argparse] namespace built by [parse_args]. *)
Record Args := mkArgs {
  dev_path : option string;
  image_url : option string;
  config_file : string;
  debug : bool
}.

(** What [urllib.request.urlopen(url, timeout=1)] can do. *)
Inductive UrlopenResult :=
| Opened
| HTTPError
| URLError
| socket_timeout
| Unknown_url_type      (* [ValueError], not caught by the script *)
| InvalidURL            (* [http.client.InvalidURL], not caught either *)
| Other_exception (class_name : string).
                        (* any exception that is no instance of the three
                           classes the script catches *)

(** What [pathlib.Path.read_text] can do. *)
Inductive ReadResult :=
| Text (raw : string)
| FileNotFoundError
| PermissionError
| Other_OSError         (* not caught by the script *)
| UnicodeDecodeError.   (* the file is not text; not caught either *)

(** Messages of [seo.error.AppException], one constructor for each message
    template of the script, with the values it interpolates. *)
Inductive Msg :=
| Must_be_run_as_root
| Device_path_not_specified
| Device_path_does_not_exist (dev_path : pathlib.Path)
| URL_format_incorrect (url : string)
| URL_not_pointing_to_img (url : string)
| URL_not_acceptable_file (url : string)
| Wrong_USB_image_URL (url : string) (e : UrlopenResult)
| Wrong_profile_number_literal (literal : string)  (* text of the ValueError *)
| Wrong_profile_number (profile_choice : Z)
| Build_parameter_false
| Wrong_bios_type (bios_type : string)
| Bios_type_not_recognized
| Installation_image_not_found (image_path : pathlib.Path)
| Workdir_does_not_exist (workdir : pathlib.Path) (cmd : string)
| Failed_to_load_config (e : ReadResult)
| Config_file_format_error.

Inductive exn :=
| AppException (code : Codes) (msg : Msg)
| RuntimeError (msg : string)
| KeyboardInterrupt
| EOFError
| ValueError
| TypeError
| KeyError
| IndexError
| OSError
| ProcessLookupError
| http_client_InvalidURL
| UnicodeError                        (* its subclass [UnicodeDecodeError] *)
| Exception (class_name : string).    (* any other class, by its name *)

Inductive LogLevel := DEBUG | INFO.

Inductive Signal := SIGTERM.

(** Effects, in the order the script causes them.  A log record keeps its
    format string, not its arguments. *)
Inductive Event :=
| Ev_log (level : LogLevel) (fmt : string)
| Ev_basicConfig (level : LogLevel)
| Ev_print (text : string)
| Ev_input (prompt : string)
| Ev_urlopen (url : string)
| Ev_Popen (cmd : string) (cwd : string)
| Ev_killpg (pgid : Z) (sig : Signal)
| Ev_wait (pid : Z).

(** One observation of the child by the supervisor's polling loop. *)
Inductive Tick :=
| Poll_None               (* [proc.poll()] finds the child running *)
| Poll_exit (rc : Z)      (* [proc.poll()] finds it gone, with this status *)
| SIGINT.                 (* [KeyboardInterrupt] is raised at this point *)

(** The world the script reads but does not change. *)
Record Env := mkEnv {
  getuid : Z;
  path_exists : string -> bool;           (* [Path.exists], by [str(path)] *)
  read_text : string -> ReadResult;
  safe_load : string -> option yaml.Document;
                                          (* [None] is [yaml.YAMLError] *)
  urlopen : string -> UrlopenResult;
  spawn : string -> string -> option Z;   (* pid, [None] is [OSError] *)
  getpgid : Z -> option Z;                (* [None] is [ProcessLookupError] *)
  getpgrp : Z;                            (* the process group of the script *)
  bracketed_host_ok : string -> bool      (* [ipaddress] takes the bracketed host *)
}.

Record State := mkState {
  stdin : list string;      (* the lines [input] will read *)
  events : list Event;      (* effects so far, oldest first *)
  child : list Tick         (* what the polling loop will observe *)
}.

(** ** The monad of the script *)

Inductive Outcome (A : Type) :=
| Ok (a : A)
| Raise (e : exn)
| Pending       (* the observations ran out while the child was running *)
| Killed (sig : Signal).
                (* the script itself was ended by a signal: no handler and
                   no [__exit__] runs after that *)
Arguments Ok {A} a.
Arguments Raise {A} e.
Arguments Pending {A}.
Arguments Killed {A} sig.

Definition M (A : Type) : Type := State -> Outcome A * State.

Definition ret {A} (a : A) : M A := fun st => (Ok a, st).

Definition raise {A} (e : exn) : M A := fun st => (Raise e, st).

Definition bind {A B} (m : M A) (k : A -> M B) : M B :=
  fun st =>
    match m st with
    | (Ok a, st') => k a st'
    | (Raise e, st') => (Raise e, st')
    | (Pending, st') => (Pending, st')
    | (Killed sig, st') => (Killed sig, st')
    end.

Declare Scope py_scope.
Delimit Scope py_scope with py.
Notation "x <- m ;; k" := (bind m (fun x => k))
  (at level 61, m at next level, right associativity) : py_scope.
Notation "m ;; k" := (bind m (fun _ => k))
  (at level 61, right associativity) : py_scope.
Open Scope py_scope.

Definition emit (e : Event) : M unit :=
  fun st => (Ok tt, mkState (stdin st) (events st ++ [e]) (child st)).

Definition log (level : LogLevel) (fmt : string) : M unit :=
  emit (Ev_log level fmt).

Definition print (text : string) : M unit := emit (Ev_print text).

(** [input(prompt)]: shows the prompt and takes the next line of standard
    input; [EOFError] when there is none. *)
Definition input (prompt : string) : M string :=
  emit (Ev_input prompt) ;;
  fun st =>
    match stdin st with
    | line :: rest => (Ok line, mkState rest (events st) (child st))
    | [] => (Raise EOFError, st)
    end.

Definition nl : string := String (ascii_of_nat 10) EmptyString.

(** [str(n)] for an [int] *)
Definition str_of_int (n : Z) : string :=
  DecimalString.NilZero.string_of_int (Z.to_int n).

(** [l[i]] with Python's negative indices; [None] is [IndexError]. *)
Definition getitem {A} (l : list A) (i : Z) : option A :=
  let n := Z.of_nat (List.length l) in
  if (0 <=? i) && (i <? n) then nth_error l (Z.to_nat i)
  else if (- n <=? i) && (i <? 0) then nth_error l (Z.to_nat (n + i))
  else None.

(** [d[key]], from what the document gives for it. *)
Definition subscript {A} (item : yaml.Item A) : M A :=
  match item with
  | yaml.Value a => ret a
  | yaml.No_key => raise KeyError
  | yaml.Wrong_type => raise TypeError
  end.

(** The script ends here, by the default action of the signal. *)
Definition killed {A} (sig : Signal) : M A := fun st => (Killed sig, st).

(** ** The script *)

(** [get_config] *)
Definition get_config (env : Env) (config_file_path : string)
  : M yaml.Document :=
  log DEBUG "Trying to read and parse provisioning configuration file ('%s')" ;;
  match read_text env (pathlib.str (pathlib.of_str config_file_path)) with
  | Text raw_config =>
      match safe_load env raw_config with
      | Some cfg => ret cfg
      | None => raise (AppException CONFIG_ERROR Config_file_format_error)
      end
  | FileNotFoundError =>
      raise (AppException ARGUMENT_ERROR (Failed_to_load_config FileNotFoundError))
  | PermissionError =>
      raise (AppException ARGUMENT_ERROR (Failed_to_load_config PermissionError))
  | Other_OSError => raise OSError
  | UnicodeDecodeError => raise UnicodeError
  end.

(** [check_preconditions] *)
Definition check_preconditions (env : Env) (args : Args) : M unit :=
  log DEBUG "Checking preconditions" ;;
  if negb (getuid env =? 0) then
    raise (AppException MISSING_PREREQUISITE Must_be_run_as_root)
  else
    match dev_path args with
    | None => raise (AppException MISSING_PREREQUISITE Device_path_not_specified)
    | Some d =>
        let dev_path := pathlib.of_str d in
        if negb (path_exists env (pathlib.str dev_path)) then
          raise (AppException MISSING_PREREQUISITE
                   (Device_path_does_not_exist dev_path))
        else
          match image_url args with
          | None | Some EmptyString => ret tt
          | Some image_url =>
              match urllib_parse.urlparse (bracketed_host_ok env) image_url with
              | None => raise ValueError
              | Some parsed =>
                  let url := urllib_parse.geturl parsed in
                  if negb (PyStr.startswith "http" (PyStr.lower url)) then
                    raise (AppException ARGUMENT_ERROR (URL_format_incorrect url))
                  else if negb (PyStr.endswith ".img" (PyStr.lower url)) then
                    raise (AppException ARGUMENT_ERROR (URL_not_pointing_to_img url))
                  else if forallb (fun bios_type => negb (PyStr.contains bios_type url))
                            ["-bios"; "-efi"] then
                    raise (AppException ARGUMENT_ERROR (URL_not_acceptable_file url))
                  else
                    emit (Ev_urlopen url) ;;
                    match urlopen env url with
                    | Opened => ret tt
                    | Unknown_url_type => raise ValueError
                    | InvalidURL => raise http_client_InvalidURL
                    | Other_exception class_name => raise (Exception class_name)
                    | e => raise (AppException ARGUMENT_ERROR
                                    (Wrong_USB_image_URL url e))
                    end
              end
          end
    end.

(** The [for idx, profile in enumerate(profiles)] loop of [choose_profile],
    from index [idx] on. *)
Fixpoint print_profiles (idx : Z) (profiles : list string) : M unit :=
  match profiles with
  | [] => ret tt
  | profile :: more =>
      print (str_of_int (idx + 1) ++ ". " ++ profile ++ nl) ;;
      print_profiles (idx + 1) more
  end.

(** [[profile['name'] for profile in profiles]] *)
Fixpoint names (profiles : list yaml.Profile) : M (list string) :=
  match profiles with
  | [] => ret []
  | profile :: more =>
      name <- subscript (yaml.name profile) ;;
      rest <- names more ;;
      ret (name :: rest)
  end.

(** [choose_profile] *)
Definition choose_profile (config : yaml.Document) : M string :=
  log DEBUG "Choosing OS profile based on configuration file ('%s')" ;;
  usb_config <- subscript (yaml.usb_images config) ;;
  entries <- subscript (yaml.profiles config) ;;
  profiles <- names entries ;;
  all_in_one <- subscript (yaml.all_in_one usb_config) ;;
  if negb all_in_one then
    log INFO ("All-in-one image generation set to false in config." ++ nl) ;;
    print_profiles 0 profiles ;;
    line <- input "Please choose which profile to flash: " ;;
    match PyInt.int line with
    | None =>
        raise (AppException ARGUMENT_ERROR (Wrong_profile_number_literal line))
    | Some profile_choice =>
        if (profile_choice <? 1)
           || (profile_choice >? Z.of_nat (List.length profiles)) then
          raise (AppException ARGUMENT_ERROR (Wrong_profile_number profile_choice))
        else
          match getitem profiles (profile_choice - 1) with
          | Some profile => ret profile
          | None => raise IndexError
          end
    end
  else
    log INFO "All-in-one image generation set to true in config. Using all-in-one image for specified bios." ;;
    ret "all".

(** [x in ("bios", "efi")] *)
Definition in_bios_efi (x : string) : bool :=
  String.eqb x "bios" || String.eqb x "efi".

(** [x and y] as a condition: [y] is evaluated only when [x] holds. *)
Definition and_ (x y : M bool) : M bool :=
  b <- x ;; if b then y else ret false.

(** [choose_bios] *)
Definition choose_bios (config : yaml.Document) : M string :=
  log DEBUG "Choosing BIOS based on configuration file ('%s')" ;;
  usb_config <- subscript (yaml.usb_images config) ;;
  build <- subscript (yaml.build usb_config) ;;
  if negb build then
    raise (AppException CONFIG_ERROR Build_parameter_false)
  else
    both <- and_ (subscript (yaml.bios usb_config))
                 (subscript (yaml.efi usb_config)) ;;
    if both then
      bios_type <- input "Which bios type image do you want write to USB? ('bios' or 'efi'): " ;;
      if negb (in_bios_efi bios_type) then
        raise (AppException ARGUMENT_ERROR (Wrong_bios_type bios_type))
      else ret bios_type
    else
      bios <- subscript (yaml.bios usb_config) ;;
      if bios then ret "bios"
      else
        efi <- subscript (yaml.efi usb_config) ;;
        if efi then ret "efi"
        else raise (AppException CONFIG_ERROR Bios_type_not_recognized).

(** [generate_command] *)
Definition generate_command (env : Env) (config : yaml.Document)
    (dev_path : pathlib.Path) (profile bios : string) : M (list string) :=
  usb_config <- subscript (yaml.usb_images config) ;;
  output_path <- subscript (yaml.output_path usb_config) ;;
  let workdir := pathlib.of_str output_path in
  let image_path := pathlib.truediv workdir (profile ++ "-" ++ bios ++ ".img") in
  if negb (path_exists env (pathlib.str image_path)) then
    raise (AppException RUNTIME_ERROR (Installation_image_not_found image_path))
  else
    ret [ "./flashusb.sh";
          "-d";
          pathlib.str dev_path;
          "-i";
          "../" ++ pathlib.str image_path;
          "-b";
          bios ].

(** The handle [subprocess.Popen] returns.  The script passes no
    [stdout=PIPE], so [stdout] is [None] on every handle it makes. *)
Record Proc := mkProc {
  pid : Z;
  stdout : option (list string)
}.

(** [subprocess.Popen(cmd, shell=True, cwd=workdir)].  The call asks for
    no new session and no process group, so the child starts in the process
    group of the script, [getpgrp env], and stays there unless it moves
    itself to another one. *)
Definition Popen (env : Env) (cmd cwd : string) : M Proc :=
  emit (Ev_Popen cmd cwd) ;;
  match spawn env cmd cwd with
  | Some p => ret (mkProc p None)
  | None => raise OSError
  end.

(** The [while proc.poll() is None] loop.  Gives the exit status that ends
    it, the observations left and the effects so far. *)
Fixpoint poll_loop (stdout : option (list string)) (ticks : list Tick)
    (evs : list Event) : Outcome Z * list Tick * list Event :=
  match ticks with
  | [] => (Pending, [], evs)
  | SIGINT :: t => (Raise KeyboardInterrupt, t, evs)
  | Poll_exit rc :: t => (Ok rc, t, evs)
  | Poll_None :: t =>
      match stdout with
      | None => poll_loop None t evs                       (* continue *)
      | Some [] => poll_loop (Some []) t evs               (* readline: '' *)
      | Some (line :: more) => poll_loop (Some more) t (evs ++ [Ev_print line])
      end
  end.

Definition wait_child (proc : Proc) : M Z :=
  fun st =>
    let '(r, ticks, evs) := poll_loop (stdout proc) (child st) (events st) in
    (r, mkState (stdin st) evs ticks).

(** [try: body except KeyboardInterrupt: handler] *)
Definition except_KeyboardInterrupt {A} (body handler : M A) : M A :=
  fun st =>
    match body st with
    | (Raise KeyboardInterrupt, st') => handler st'
    | r => r
    end.

(** [with ... as proc: body]: [Popen.__exit__] waits for the child, whether
    the body returned or raised.  A script that is still polling, or that a
    signal has ended, does not get there.  The log records that the wait is
    called.  It returns at once when [poll] has seen the child exit or the
    process table does not know the child; how long it lasts after the
    handler has signalled a child in another group is left open, and no
    property below depends on it. *)
Definition with_proc {A} (proc : Proc) (body : M A) : M A :=
  fun st =>
    match body st with
    | (Pending, st') => (Pending, st')
    | (Killed sig, st') => (Killed sig, st')
    | (r, st') => (r, mkState (stdin st') (events st' ++ [Ev_wait (pid proc)]) (child st'))
    end.

(** [os.killpg(os.getpgid(pid), sig)].  The signal goes to every process
    of the group, and so to the script itself when the group is its own.
    The script installs no handler for the signal, whose default action
    ends the process: the call does not return then. *)
Definition killpg_of (env : Env) (pid : Z) (sig : Signal) : M unit :=
  match getpgid env pid with
  | Some pgid =>
      emit (Ev_killpg pgid sig) ;;
      if pgid =? getpgrp env then killed sig else ret tt
  | None => raise ProcessLookupError
  end.

Inductive Cmd :=
| Cmd_list (l : list string)
| Cmd_str (s : string).

Definition Running_ESP_script_failed (workdir : pathlib.Path) : string :=
  "Running ESP script failed. Inspect output and logs in "
  ++ pathlib.str workdir ++ "/builder.log".

(** [run_flash_usb_script] *)
Definition run_flash_usb_script (env : Env) (config : yaml.Document) (cmd : Cmd)
  : M unit :=
  let cmd := match cmd with
             | Cmd_list l => PyStr.join " " l
             | Cmd_str s => s
             end in
  esp <- subscript (yaml.esp config) ;;
  dest_dir <- subscript (yaml.dest_dir esp) ;;
  let workdir := pathlib.of_str dest_dir in
  if negb (path_exists env (pathlib.str workdir)) then
    raise (AppException CONFIG_ERROR (Workdir_does_not_exist workdir cmd))
  else
    log DEBUG "Running command: %s" ;;
    proc <- Popen env cmd (pathlib.str workdir) ;;
    with_proc proc
      (except_KeyboardInterrupt
         (rc <- wait_child proc ;;
          if negb (rc =? 0) then
            raise (RuntimeError (Running_ESP_script_failed workdir))
          else ret tt)
         (killpg_of env (pid proc) SIGTERM ;;
          raise (RuntimeError "Interrupted by user"))).

(** [main] *)
Definition main (env : Env) (args : Args) : M Codes :=
  check_preconditions env args ;;
  emit (Ev_basicConfig (if debug args then DEBUG else INFO)) ;;
  cfg <- get_config env (config_file args) ;;
  match dev_path args with
  | None => raise TypeError
  | Some d =>
      let dev_path := pathlib.of_str d in
      cmd <- match image_url args with
             | None | Some EmptyString =>
                 profile <- choose_profile cfg ;;
                 bios <- choose_bios cfg ;;
                 generate_command env cfg dev_path profile bios
             | Some url =>
                 ret ["./flashusb.sh"; "-d"; pathlib.str dev_path; "-u"; url]
             end ;;
      run_flash_usb_script env cfg (Cmd_list cmd) ;;
      ret NO_ERROR
  end.

(** ** The error kinds of the spec, as the script raises them

    Each kind is one [raise] of the script: an [AppException] with its code
    and message template, or, in the supervisor, a [RuntimeError] with its
    text. *)

Definition BadUrlScheme {A} (r : Outcome A) : Prop :=
  exists url, r = Raise (AppException ARGUMENT_ERROR (URL_format_incorrect url)).

Definition BadUrlExtension {A} (r : Outcome A) : Prop :=
  exists url, r = Raise (AppException ARGUMENT_ERROR (URL_not_pointing_to_img url)).

Definition InvalidProfileChoice {A} (r : Outcome A) : Prop :=
  (exists literal,
     r = Raise (AppException ARGUMENT_ERROR (Wrong_profile_number_literal literal)))
  \/ (exists choice,
        r = Raise (AppException ARGUMENT_ERROR (Wrong_profile_number choice))).

Definition BuildDisabled {A} (r : Outcome A) : Prop :=
  r = Raise (AppException CONFIG_ERROR Build_parameter_false).

Definition NoBiosTypeConfigured {A} (r : Outcome A) : Prop :=
  r = Raise (AppException CONFIG_ERROR Bios_type_not_recognized).

Definition WorkdirNotFound {A} (r : Outcome A) : Prop :=
  exists workdir cmd,
    r = Raise (AppException CONFIG_ERROR (Workdir_does_not_exist workdir cmd)).

Definition ChildExecutionFailed {A} (r : Outcome A) : Prop :=
  exists workdir, r = Raise (RuntimeError (Running_ESP_script_failed workdir)).

Definition InterruptedByUser {A} (r : Outcome A) : Prop :=
  r = Raise (RuntimeError "Interrupted by user").

(** The URL notions of the spec, read off [urlparse]. *)
Definition scheme_is_http_or_https (env : Env) (image_url : string) : Prop :=
  exists parsed,
    urllib_parse.urlparse (bracketed_host_ok env) image_url = Some parsed
    /\ (urllib_parse.scheme parsed = "http"
        \/ urllib_parse.scheme parsed = "https").

Definition path_ends_in_img (env : Env) (image_url : string) : Prop :=
  exists parsed,
    urllib_parse.urlparse (bracketed_host_ok env) image_url = Some parsed
    /\ PyStr.endswith ".img" (urllib_parse.path parsed) = true.

(** The effects a run adds to the log, and what they leave alone. *)
Definition no_input (evs : list Event) : Prop :=
  forall prompt, ~ In (Ev_input prompt) evs.

(** The artifact [output_path/{profile}-{bios}.img]. *)
Definition image_path (config : Config) (profile bios : string) : pathlib.Path :=
  pathlib.truediv (pathlib.of_str (output_path (usb_images config)))
    (profile ++ "-" ++ bios ++ ".img").

(** The command line [run_flash_usb_script] hands to the shell. *)
Definition command_line (cmd : Cmd) : string :=
  match cmd with
  | Cmd_list l => PyStr.join " " l
  | Cmd_str s => s
  end.

(** The world [env] with another YAML loader. *)
Definition with_safe_load (env : Env) (f : string -> option yaml.Document)
  : Env :=
  mkEnv (getuid env) (path_exists env) (read_text env) f (urlopen env)
    (spawn env) (getpgid env) (getpgrp env) (bracketed_host_ok env).

(** What a run in direct-URL mode may do: no prompt, and no process but the
    flashing script with [-d] and the device, then [-u] and the URL. *)
Definition direct_url_effect (args : Args) (url : string) (e : Event) : Prop :=
  match e with
  | Ev_input _ => False
  | Ev_Popen cmd _ =>
      exists d,
        dev_path args = Some d
        /\ cmd = "./flashusb.sh -d " ++ pathlib.str (pathlib.of_str d)
                 ++ " -u " ++ url
  | _ => True
  end.

(** [frame P st st']: from [st] to [st'] nothing was read from standard
    input, and every effect added to the log satisfies [P]. *)
Definition frame (P : Event -> Prop) (st st' : State) : Prop :=
  stdin st' = stdin st
  /\ exists evs, events st' = (events st ++ evs)%list /\ Forall P evs.

Definition keeps {A} (P : Event -> Prop) (m : M A) : Prop :=
  forall st, frame P st (snd (m st)).

(** ** The entry point *)

(** How the process ends: [sys.exit] with a code, after the error message
    was logged and, in debug mode, the traceback printed; an exception
    nobody catches; a signal; or not at all. *)
Inductive Termination :=
| SystemExit (code : Codes) (reported : option Msg) (traceback : bool)
| Uncaught (e : exn)
| Signalled (sig : Signal)
| Never.

(** [run_main], from the namespace that [parse_args] returned on: the
    [try] around [sys.exit(main(args).value)] and its handler for
    [seo.error.AppException]. *)
Definition run_main (env : Env) (args : Args) (st : State)
  : Termination * State :=
  match main env args st with
  | (Ok code, st') => (SystemExit code None false, st')
  | (Raise (AppException code msg), st') =>
      (SystemExit code (Some msg) (debug args), st')
  | (Raise e, st') => (Uncaught e, st')
  | (Pending, st') => (Never, st')
  | (Killed sig, st') => (Signalled sig, st')
  end.

(** ** Further notions used in the statements *)

(** The URL passes every test of [check_preconditions], the probe
    included. *)
Definition url_accepted (env : Env) (image_url : string) : Prop :=
  exists parsed,
    urllib_parse.urlparse (bracketed_host_ok env) image_url = Some parsed
    /\ PyStr.startswith "http" (PyStr.lower (urllib_parse.geturl parsed)) = true
    /\ PyStr.endswith ".img" (PyStr.lower (urllib_parse.geturl parsed)) = true
    /\ (PyStr.contains "-bios" (urllib_parse.geturl parsed) = true
        \/ PyStr.contains "-efi" (urllib_parse.geturl parsed) = true)
    /\ urlopen env (urllib_parse.geturl parsed) = Opened.

(** The device path was given and exists. *)
Definition device_present (env : Env) (args : Args) : Prop :=
  exists d,
    dev_path args = Some d
    /\ path_exists env (pathlib.str (pathlib.of_str d)) = true.

(** [adds P st st']: every effect added to the log from [st] to [st']
    satisfies [P]; standard input may have been read. *)
Definition adds (P : Event -> Prop) (st st' : State) : Prop :=
  exists evs, events st' = (events st ++ evs)%list /\ Forall P evs.

Definition emits {A} (P : Event -> Prop) (m : M A) : Prop :=
  forall st, adds P st (snd (m st)).

(** What [m] can return and what it can raise. *)
Definition returns {A} (Q : A -> Prop) (m : M A) : Prop :=
  forall st a st', m st = (Ok a, st') -> Q a.

Definition raises {A} (Q : exn -> Prop) (m : M A) : Prop :=
  forall st e st', m st = (Raise e, st') -> Q e.

(** What an [AppException] that leaves [main] tells about the run.  The
    script raises every one of them itself; what else may leave [main]
    comes from the libraries and is left open. *)
Definition main_failure (env : Env) (args : Args) (e : exn) : Prop :=
  match e with
  | AppException NO_ERROR _ => False
  | AppException MISSING_PREREQUISITE msg =>
      (msg = Must_be_run_as_root /\ getuid env <> 0)
      \/ (msg = Device_path_not_specified /\ dev_path args = None)
      \/ (exists d,
            msg = Device_path_does_not_exist (pathlib.of_str d)
            /\ dev_path args = Some d
            /\ path_exists env (pathlib.str (pathlib.of_str d)) = false)
  | AppException ARGUMENT_ERROR msg =>
      (exists url, msg = URL_format_incorrect url)
      \/ (exists url, msg = URL_not_pointing_to_img url)
      \/ (exists url, msg = URL_not_acceptable_file url)
      \/ (exists url r, msg = Wrong_USB_image_URL url r)
      \/ (exists r, msg = Failed_to_load_config r)
      \/ (exists literal, msg = Wrong_profile_number_literal literal)
      \/ (exists choice, msg = Wrong_profile_number choice)
      \/ (exists bios_type, msg = Wrong_bios_type bios_type)
  | AppException CONFIG_ERROR msg =>
      msg = Config_file_format_error
      \/ msg = Build_parameter_false
      \/ msg = Bios_type_not_recognized
      \/ (exists workdir cmd,
            msg = Workdir_does_not_exist workdir cmd
            /\ path_exists env (pathlib.str workdir) = false)
  | AppException RUNTIME_ERROR msg =>
      exists image,
        msg = Installation_image_not_found image
        /\ path_exists env (pathlib.str image) = false
  | _ => True
  end.

(** An effect that spawns no process. *)
Definition not_Popen (ev : Event) : Prop :=
  forall cmd cwd, ev <> Ev_Popen cmd cwd.

(** The state after one more effect. *)
Definition logged (st : State) (evs : list Event) : State :=
  mkState (stdin st) (events st ++ evs) (child st).

(** ** Concrete worlds used by the examples *)

Definition cfg_edge : Config :=
  mkConfig (mkUsbImages false true true true "/tmp/out")
    [mkProfile "edge"; mkProfile "cloud"] (mkEsp "./esp").

Definition cfg_all_in_one : Config :=
  mkConfig (mkUsbImages true true false true "out") [mkProfile "edge"]
    (mkEsp "./esp").

Definition cfg_no_bios (build : bool) : Config :=
  mkConfig (mkUsbImages false build false false "out") [mkProfile "edge"]
    (mkEsp "./esp").

(** Root user; the device, the working directory and the edge-efi image
    exist; the network probe answers [probe]; the child, process 4242, is in
    the process group of the script, 4200. *)
Definition env_edge (probe : UrlopenResult) : Env :=
  mkEnv 0
    (fun p => String.eqb p "/dev/sdb" || String.eqb p "esp"
              || String.eqb p "/tmp/out/edge-efi.img")
    (fun _ => Text "")
    (fun _ => Some (typed cfg_edge))
    (fun _ => probe)
    (fun _ _ => Some 4242)
    (fun _ => Some 4200)
    4200
    (fun host => String.eqb host "::1").

(** The same world without the working directory. *)
Definition env_no_workdir : Env :=
  mkEnv 0 (fun p => String.eqb p "/dev/sdb") (fun _ => Text "")
    (fun _ => Some (typed cfg_edge)) (fun _ => Opened) (fun _ _ => Some 4242)
    (fun _ => Some 4200) 4200 (fun host => String.eqb host "::1").

(** The world of [env_edge] after the child has left the process table. *)
Definition env_child_gone : Env :=
  mkEnv 0
    (fun p => String.eqb p "/dev/sdb" || String.eqb p "esp"
              || String.eqb p "/tmp/out/edge-efi.img")
    (fun _ => Text "")
    (fun _ => Some (typed cfg_edge))
    (fun _ => Opened)
    (fun _ _ => Some 4242)
    (fun _ => None)
    4200
    (fun host => String.eqb host "::1").

(** The world of [env_edge] with an empty configuration file, for which
    [yaml.safe_load] gives [None]. *)
Definition env_empty_config : Env :=
  mkEnv 0
    (fun p => String.eqb p "/dev/sdb" || String.eqb p "esp"
              || String.eqb p "/tmp/out/edge-efi.img")
    (fun _ => Text "")
    (fun _ => Some yaml.none)
    (fun _ => Opened)
    (fun _ _ => Some 4242)
    (fun _ => Some 4200)
    4200
    (fun host => String.eqb host "::1").

Definition st_lines (lines : list string) (ticks : list Tick) : State :=
  mkState lines [] ticks.

Definition args_url (url : string) : Args :=
  mkArgs (Some "/dev/sdb") (Some url) "config.yml" false.

(** ** Well-typed documents

    On the document of a configuration of the data model every subscript
    succeeds, and the functions of the script are the programs below. *)

Lemma bind_ret_l {A B} (a : A) (k : A -> M B) : bind (ret a) k = k a.
Proof. reflexivity. Qed.

Lemma bind_emit {B} (ev : Event) (k : unit -> M B) (st : State) :
  bind (emit ev) k st = k tt (mkState (stdin st) (events st ++ [ev]) (child st)).
Proof. reflexivity. Qed.

Lemma view_typed (c : Config) : view (typed c) = c.
Proof.
  destruct c as [[a b bi e o] ps [d]]. unfold view, typed. cbn.
  f_equal. rewrite map_map. cbn.
  induction ps as [| [n] ps IH]; [reflexivity |].
  cbn [map]. rewrite IH. reflexivity.
Qed.

Lemma names_typed (l : list Profile) :
  names (map (fun p => yaml.mkProfile (yaml.Value (name p))) l)
  = ret (map name l).
Proof.
  induction l as [| p l IH]; [reflexivity |].
  cbn [map names subscript yaml.name]. rewrite IH, !bind_ret_l. reflexivity.
Qed.

Lemma choose_profile_typed (config : Config) :
  choose_profile config
  = (log DEBUG "Choosing OS profile based on configuration file ('%s')" ;;
     let usb_config := usb_images config in
     let profiles := map name (profiles config) in
     if negb (all_in_one usb_config) then
       log INFO ("All-in-one image generation set to false in config." ++ nl) ;;
       print_profiles 0 profiles ;;
       line <- input "Please choose which profile to flash: " ;;
       match PyInt.int line with
       | None =>
           raise (AppException ARGUMENT_ERROR (Wrong_profile_number_literal line))
       | Some profile_choice =>
           if (profile_choice <? 1)
              || (profile_choice >? Z.of_nat (List.length profiles)) then
             raise (AppException ARGUMENT_ERROR (Wrong_profile_number profile_choice))
           else
             match getitem profiles (profile_choice - 1) with
             | Some profile => ret profile
             | None => raise IndexError
             end
       end
     else
       log INFO "All-in-one image generation set to true in config. Using all-in-one image for specified bios." ;;
       ret "all").
Proof.
  unfold choose_profile.
  cbn [typed yaml.usb_images yaml.profiles yaml.all_in_one subscript].
  rewrite !bind_ret_l. cbv beta. rewrite names_typed, bind_ret_l. reflexivity.
Qed.

Lemma choose_bios_typed (config : Config) :
  choose_bios config
  = (log DEBUG "Choosing BIOS based on configuration file ('%s')" ;;
     let usb_config := usb_images config in
     if negb (build usb_config) then
       raise (AppException CONFIG_ERROR Build_parameter_false)
     else if bios usb_config && efi usb_config then
       bios_type <- input "Which bios type image do you want write to USB? ('bios' or 'efi'): " ;;
       if negb (in_bios_efi bios_type) then
         raise (AppException ARGUMENT_ERROR (Wrong_bios_type bios_type))
       else ret bios_type
     else if bios usb_config then ret "bios"
     else if efi usb_config then ret "efi"
     else raise (AppException CONFIG_ERROR Bios_type_not_recognized)).
Proof.
  unfold choose_bios, and_.
  cbn [typed yaml.usb_images yaml.build yaml.bios yaml.efi subscript].
  destruct (build (usb_images config)), (bios (usb_images config)),
    (efi (usb_images config)); reflexivity.
Qed.

Lemma generate_command_typed (env : Env) (config : Config)
    (dev_path : pathlib.Path) (profile bios : string) :
  generate_command env config dev_path profile bios
  = (let workdir := pathlib.of_str (output_path (usb_images config)) in
     let image_path := pathlib.truediv workdir (profile ++ "-" ++ bios ++ ".img") in
     if negb (path_exists env (pathlib.str image_path)) then
       raise (AppException RUNTIME_ERROR (Installation_image_not_found image_path))
     else
       ret [ "./flashusb.sh";
             "-d";
             pathlib.str dev_path;
             "-i";
             "../" ++ pathlib.str image_path;
             "-b";
             bios ]).
Proof. reflexivity. Qed.

Lemma run_flash_usb_script_typed (env : Env) (config : Config) (cmd : Cmd) :
  run_flash_usb_script env config cmd
  = (let cmd := match cmd with
                | Cmd_list l => PyStr.join " " l
                | Cmd_str s => s
                end in
     let workdir := pathlib.of_str (dest_dir (esp config)) in
     if negb (path_exists env (pathlib.str workdir)) then
       raise (AppException CONFIG_ERROR (Workdir_does_not_exist workdir cmd))
     else
       log DEBUG "Running command: %s" ;;
       proc <- Popen env cmd (pathlib.str workdir) ;;
       with_proc proc
         (except_KeyboardInterrupt
            (rc <- wait_child proc ;;
             if negb (rc =? 0) then
               raise (RuntimeError (Running_ESP_script_failed workdir))
             else ret tt)
            (killpg_of env (pid proc) SIGTERM ;;
             raise (RuntimeError "Interrupted by user")))).
Proof. reflexivity. Qed.

(** ** Basic facts about the monad and the log *)

Lemma print_profiles_run (l : list string) :
  forall idx st,
    exists evs,
      print_profiles idx l st
      = (Ok tt, mkState (stdin st) (events st ++ evs) (child st))
      /\ no_input evs.
Proof.
  induction l as [| p more IH]; intros idx st.
  - exists []. split.
    + cbn. rewrite app_nil_r. destruct st. reflexivity.
    + intros q H. inversion H.
  - cbn [print_profiles]. unfold bind, print, emit.
    destruct (IH (idx + 1)
                (mkState (stdin st)
                   (events st ++ [Ev_print (str_of_int (idx + 1) ++ ". " ++ p ++ nl)])
                   (child st))) as [evs [Hrun Hin]].
    exists (Ev_print (str_of_int (idx + 1) ++ ". " ++ p ++ nl) :: evs).
    rewrite Hrun. cbn. rewrite <- app_assoc. cbn.
    split; [reflexivity |].
    intros q [Hq | Hq]; [discriminate | exact (Hin q Hq)].
Qed.

Lemma getitem_in_range {A} (l : list A) (i : Z) :
  0 <= i < Z.of_nat (List.length l) ->
  exists x, getitem l i = Some x /\ nth_error l (Z.to_nat i) = Some x.
Proof.
  intros Hi. unfold getitem.
  replace (0 <=? i) with true by (symmetry; apply Z.leb_le; lia).
  replace (i <? Z.of_nat (List.length l)) with true
    by (symmetry; apply Z.ltb_lt; lia).
  cbn.
  destruct (nth_error l (Z.to_nat i)) as [x |] eqn:E.
  - exists x. split; reflexivity.
  - apply nth_error_None in E. lia.
Qed.

(** ** Profile selection *)

(** C6. With [usb_images.all_in_one] true, [choose_profile] returns the
    literal profile ["all"] whatever the profile list holds; it reads
    nothing from standard input and shows no prompt: the only effects are
    log records. *)
Theorem choose_profile_all_in_one (config : Config) (st : State) :
  all_in_one (usb_images config) = true ->
  exists evs,
    choose_profile config st
    = (Ok "all", mkState (stdin st) (events st ++ evs) (child st))
    /\ no_input evs
    /\ (forall e, In e evs -> exists level fmt, e = Ev_log level fmt).
Proof.
  intros Hall.
  exists [Ev_log DEBUG "Choosing OS profile based on configuration file ('%s')";
          Ev_log INFO "All-in-one image generation set to true in config. Using all-in-one image for specified bios."].
  rewrite choose_profile_typed; cbv zeta. unfold bind, log, emit, ret. cbn. rewrite Hall. cbn.
  rewrite <- app_assoc. cbn.
  split; [reflexivity | split].
  - intros p [H | [H | H]]; try discriminate; inversion H.
  - intros e [H | [H | H]]; subst; eauto. inversion H.
Qed.

Lemma choose_profile_all_in_one_witness :
  all_in_one (usb_images cfg_all_in_one) = true
  /\ exists evs,
       choose_profile cfg_all_in_one (st_lines ["7"] [])
       = (Ok "all", mkState ["7"] ([] ++ evs) [])
       /\ no_input evs
       /\ (forall e, In e evs -> exists level fmt, e = Ev_log level fmt).
Proof.
  split; [reflexivity |].
  apply (choose_profile_all_in_one cfg_all_in_one (st_lines ["7"] [])).
  reflexivity.
Defined.

(** What [choose_profile] does up to and including the prompt when
    all-in-one is off. *)
Lemma choose_profile_prompted (config : Config) (st : State)
    (line : string) (rest : list string) :
  all_in_one (usb_images config) = false ->
  stdin st = line :: rest ->
  exists st1,
    stdin st1 = rest /\
    choose_profile config st
    = match PyInt.int line with
      | None =>
          (Raise (AppException ARGUMENT_ERROR (Wrong_profile_number_literal line)),
           st1)
      | Some profile_choice =>
          if (profile_choice <? 1)
             || (profile_choice >? Z.of_nat (List.length (profiles config)))
          then (Raise (AppException ARGUMENT_ERROR
                         (Wrong_profile_number profile_choice)), st1)
          else match getitem (map name (profiles config)) (profile_choice - 1) with
               | Some profile => (Ok profile, st1)
               | None => (Raise IndexError, st1)
               end
      end.
Proof.
  intros Hall Hin.
  rewrite choose_profile_typed; cbv zeta. unfold bind, log, input, emit. cbn. rewrite Hall. cbn.
  match goal with
  | |- context [print_profiles 0 ?l ?s] =>
      destruct (print_profiles_run l 0 s) as [evs [Hrun _]]; rewrite Hrun
  end.
  cbn. rewrite Hin.
  eexists. split; [| rewrite length_map;
                     destruct (PyInt.int line) as [k |];
                     [destruct ((k <? 1) || (k >? _));
                      [reflexivity
                      | destruct (getitem _ _); reflexivity]
                     | reflexivity]].
  reflexivity.
Qed.

(** C7. With all-in-one off and [N] configured profiles, and a line of
    input to read: [choose_profile] fails with the invalid-profile-choice
    error exactly when the line is not an integer literal or its value is
    outside [1, N]; on a valid choice [k] it returns the [k]-th name of the
    ordered list, counted from 1; either way exactly that one line has been
    read. *)
Theorem choose_profile_choice (config : Config) (st : State)
    (line : string) (rest : list string) :
  all_in_one (usb_images config) = false ->
  stdin st = line :: rest ->
  let N := Z.of_nat (List.length (profiles config)) in
  let r := fst (choose_profile config st) in
  (InvalidProfileChoice r <->
     PyInt.int line = None
     \/ exists k, PyInt.int line = Some k /\ (k < 1 \/ N < k))
  /\ (forall k, PyInt.int line = Some k -> 1 <= k <= N ->
        exists profile,
          nth_error (map name (profiles config)) (Z.to_nat (k - 1)) = Some profile
          /\ r = Ok profile)
  /\ stdin (snd (choose_profile config st)) = rest.
Proof.
  intros Hall Hin N r.
  destruct (choose_profile_prompted config st line rest Hall Hin)
    as [st1 [Hrest Hrun]].
  assert (Hread : stdin (snd (choose_profile config st)) = rest).
  { rewrite Hrun.
    destruct (PyInt.int line) as [k |]; [| exact Hrest].
    destruct ((k <? 1) || (k >? _)); [exact Hrest |].
    destruct (getitem _ _); exact Hrest. }
  rewrite <- and_assoc. split; [| exact Hread]. clear Hread.
  subst r. rewrite Hrun. clear Hrun.
  destruct (PyInt.int line) as [k |] eqn:Hint.
  - destruct (Z.ltb_spec k 1) as [Hlo | Hlo].
    + cbn. split.
      * split; [intros _; right; exists k; split; [reflexivity | lia] |].
        intros _. right. exists k. reflexivity.
      * intros k' Hk' Hr. inversion Hk'; subst. lia.
    + destruct (Z.gtb_spec k (Z.of_nat (List.length (profiles config))))
        as [Hhi | Hhi].
      * cbn. split.
        -- split; [intros _; right; exists k; split; [reflexivity | fold N; lia] |].
           intros _. right. exists k. reflexivity.
        -- intros k' Hk' Hr. inversion Hk'; subst. unfold N in Hr. lia.
      * cbn.
        destruct (getitem_in_range (map name (profiles config)) (k - 1))
          as [p [Hget Hnth]]; [rewrite length_map; lia |].
        rewrite Hget. cbn. split.
        -- split.
           ++ intros [[l H] | [c H]]; discriminate.
           ++ intros [H | [k' [Hk' Hr]]]; [discriminate |].
              inversion Hk'; subst. unfold N in Hr. lia.
        -- intros k' Hk' _. inversion Hk'; subst. exists p. split; auto.
  - cbn. split.
    + split; [intros _; left; reflexivity |].
      intros _. left. exists line. reflexivity.
    + intros k Hk. discriminate.
Qed.

Lemma choose_profile_choice_witness :
  all_in_one (usb_images cfg_edge) = false
  /\ stdin (st_lines [" 2"; "efi"] []) = " 2" :: ["efi"]
  /\ PyInt.int " 2" = Some 2
  /\ fst (choose_profile cfg_edge (st_lines [" 2"; "efi"] [])) = Ok "cloud".
Proof.
  split; [reflexivity | split; [reflexivity | split; [reflexivity |]]].
  destruct (choose_profile_choice cfg_edge (st_lines [" 2"; "efi"] [])
              " 2" ["efi"] eq_refl eq_refl) as [_ [Hvalid _]].
  destruct (Hvalid 2 eq_refl ltac:(cbn; lia)) as [p [Hnth Hr]].
  cbn in Hnth. injection Hnth as <-. exact Hr.
Defined.

(** ** BIOS selection *)

(** C5, as stated, fails: with [usb_images.build] false the guard on the
    build flag fires first, and a configuration with both [bios] and [efi]
    false fails with the build-disabled error instead. *)
Lemma choose_bios_both_false_counterexample :
  bios (usb_images (cfg_no_bios false)) = false
  /\ efi (usb_images (cfg_no_bios false)) = false
  /\ BuildDisabled (fst (choose_bios (cfg_no_bios false) (st_lines [] [])))
  /\ ~ NoBiosTypeConfigured (fst (choose_bios (cfg_no_bios false) (st_lines [] []))).
Proof.
  repeat split. intros H. discriminate H.
Qed.

(** C5, amended. With [usb_images.build] true and both [usb_images.bios]
    and [usb_images.efi] false, [choose_bios] fails with the
    no-bios-type-configured error, whatever the profile list and the
    all-in-one flag are and whatever waits on standard input, which it
    leaves unread. *)
Theorem choose_bios_none_configured (config : Config) (st : State) :
  build (usb_images config) = true ->
  bios (usb_images config) = false ->
  efi (usb_images config) = false ->
  NoBiosTypeConfigured (fst (choose_bios config st))
  /\ stdin (snd (choose_bios config st)) = stdin st.
Proof.
  intros Hb Hbios Hefi.
  rewrite choose_bios_typed; cbv zeta. unfold NoBiosTypeConfigured, bind, log, emit, raise. cbn.
  rewrite Hb, Hbios, Hefi. cbn. split; reflexivity.
Qed.

Lemma choose_bios_none_configured_witness :
  build (usb_images (cfg_no_bios true)) = true
  /\ bios (usb_images (cfg_no_bios true)) = false
  /\ efi (usb_images (cfg_no_bios true)) = false
  /\ NoBiosTypeConfigured (fst (choose_bios (cfg_no_bios true) (st_lines ["efi"] [])))
  /\ stdin (snd (choose_bios (cfg_no_bios true) (st_lines ["efi"] []))) = ["efi"].
Proof.
  repeat (split; [reflexivity |]).
  apply (choose_bios_none_configured (cfg_no_bios true) (st_lines ["efi"] []));
    reflexivity.
Defined.

Lemma in_bios_efi_spec (x : string) :
  in_bios_efi x = true -> x = "bios" \/ x = "efi".
Proof.
  unfold in_bios_efi. intros H. apply orb_true_iff in H.
  destruct H as [H | H]; apply String.eqb_eq in H; auto.
Qed.

(** C10. Whenever [choose_bios] succeeds, for every configuration and every
    content of standard input, its value is ["bios"] or ["efi"]; and a
    command [generate_command] builds from that value carries it, and
    nothing else, as the argument of [-b]. *)
Theorem choose_bios_value (config : Config) (st st' : State) (b : string) :
  choose_bios config st = (Ok b, st') ->
  (b = "bios" \/ b = "efi")
  /\ forall env config' dev_path profile st1 st2 cmd,
       generate_command env config' dev_path profile b st1 = (Ok cmd, st2) ->
       exists image,
         cmd = ["./flashusb.sh"; "-d"; pathlib.str dev_path; "-i"; image; "-b"; b].
Proof.
  intros Hrun. split.
  - revert Hrun.
    rewrite choose_bios_typed; cbv zeta. unfold bind, log, input, emit, raise, ret. cbn.
    destruct (build (usb_images config)); cbn; [| discriminate].
    destruct (bios (usb_images config)), (efi (usb_images config)); cbn;
      try discriminate.
    + destruct (stdin st) as [| line rest]; [discriminate |].
      destruct (in_bios_efi line) eqn:E; cbn; [| discriminate].
      intros H. injection H as <- _. apply in_bios_efi_spec. exact E.
    + intros H. injection H as <- _. left. reflexivity.
    + intros H. injection H as <- _. right. reflexivity.
  - intros env config' dev profile st1 st2 cmd.
    unfold generate_command, subscript, bind, raise, ret.
    destruct (yaml.usb_images config') as [usb_config | |]; try discriminate.
    destruct (yaml.output_path usb_config) as [out | |]; try discriminate.
    destruct (path_exists env _); cbn; [| discriminate].
    intros H. injection H as <- _. eexists. reflexivity.
Qed.

Lemma choose_bios_value_witness :
  choose_bios cfg_edge (st_lines ["efi"] [])
  = (Ok "efi",
     mkState []
       [Ev_log DEBUG "Choosing BIOS based on configuration file ('%s')";
        Ev_input "Which bios type image do you want write to USB? ('bios' or 'efi'): "]
       [])
  /\ ("efi" = "bios" \/ "efi" = "efi").
Proof.
  split; [reflexivity |].
  exact (proj1 (choose_bios_value cfg_edge (st_lines ["efi"] []) _ "efi" eq_refl)).
Defined.

(** ** Command builder *)

(** C1 fails on its own example.  With [output_path=/tmp/out] and the file
    [/tmp/out/edge-efi.img] present, [generate_command] tests that file for
    existence, but the argument it puts after [-i] for profile [edge] and
    BIOS type [efi] is [..//tmp/out/edge-efi.img]: the tested path behind a
    ["../"] that only suits an output path relative to the parent of the
    working directory.  The command does not reference the artifact that
    was found. *)
Lemma generate_command_edge_efi_counterexample :
  pathlib.str (image_path cfg_edge "edge" "efi") = "/tmp/out/edge-efi.img"
  /\ path_exists (env_edge Opened) "/tmp/out/edge-efi.img" = true
  /\ exists cmd,
       fst (generate_command (env_edge Opened) cfg_edge
              (pathlib.of_str "/dev/sdb") "edge" "efi" (st_lines [] []))
       = Ok cmd
       /\ nth_error cmd 3 = Some "-i"
       /\ nth_error cmd 4 = Some "..//tmp/out/edge-efi.img"
       /\ nth_error cmd 4 <> Some "/tmp/out/edge-efi.img".
Proof.
  split; [reflexivity | split; [reflexivity |]].
  eexists. split; [reflexivity |].
  split; [reflexivity | split; [reflexivity |]].
  cbn. intros H. discriminate H.
Qed.

(** ** Supervisor *)

(** C8. If the working directory [esp.dest_dir] does not exist,
    [run_flash_usb_script] fails with the workdir-not-found error and the
    state it returns is the state it was given: no process was created, and
    nothing was logged, printed or read. *)
Theorem run_flash_usb_script_workdir_missing (env : Env) (config : Config)
    (cmd : Cmd) (st : State) :
  path_exists env (pathlib.str (pathlib.of_str (dest_dir (esp config)))) = false ->
  WorkdirNotFound (fst (run_flash_usb_script env config cmd st))
  /\ snd (run_flash_usb_script env config cmd st) = st.
Proof.
  intros Hex. rewrite run_flash_usb_script_typed; cbv zeta. rewrite Hex. cbn.
  split.
  - eexists. eexists. reflexivity.
  - reflexivity.
Qed.

Lemma run_flash_usb_script_workdir_missing_witness :
  path_exists env_no_workdir
    (pathlib.str (pathlib.of_str (dest_dir (esp cfg_edge)))) = false
  /\ WorkdirNotFound
       (fst (run_flash_usb_script env_no_workdir cfg_edge
               (Cmd_list ["./flashusb.sh"; "-d"; "/dev/sdb"])
               (st_lines [] [Poll_exit 0])))
  /\ snd (run_flash_usb_script env_no_workdir cfg_edge
            (Cmd_list ["./flashusb.sh"; "-d"; "/dev/sdb"])
            (st_lines [] [Poll_exit 0]))
     = st_lines [] [Poll_exit 0].
Proof.
  split; [reflexivity |].
  exact (run_flash_usb_script_workdir_missing env_no_workdir cfg_edge
           (Cmd_list ["./flashusb.sh"; "-d"; "/dev/sdb"])
           (st_lines [] [Poll_exit 0]) eq_refl).
Defined.

Lemma poll_loop_interrupted (stdout : option (list string)) (n : nat)
    (rest : list Tick) :
  forall evs,
    exists printed,
      poll_loop stdout (repeat Poll_None n ++ SIGINT :: rest) evs
      = (Raise KeyboardInterrupt, rest, (evs ++ printed)%list)
      /\ (stdout = None -> printed = []).
Proof.
  revert stdout. induction n as [| n IH]; intros stdout evs.
  - exists []. cbn. rewrite app_nil_r. split; reflexivity.
  - cbn. destruct stdout as [[| line more] |].
    + destruct (IH (Some []) evs) as [pr [H _]]. exists pr.
      split; [exact H | discriminate].
    + destruct (IH (Some more) (evs ++ [Ev_print line])%list) as [pr [H _]].
      exists (Ev_print line :: pr). rewrite H, <- app_assoc.
      split; [reflexivity | discriminate].
    + destruct (IH None evs) as [pr [H Hnil]]. exists pr.
      split; [exact H | exact Hnil].
Qed.

(** C9 fails.  [subprocess.Popen] is called without a new session or
    process group, so the child runs in the process group of the script.
    When the interrupt arrives in the polling loop, after any number of
    polls that found the child running, the handler sends [SIGTERM] with
    [os.killpg] to that group, the script included, and the script ends
    there, by the signal: it does not get to raise
    [RuntimeError("Interrupted by user")], and the handle is not closed.
    The effects of the run are the log record, the spawn and the signal.
    What holds of the claim is that the run is not reported as a
    child-execution failure. *)
Theorem run_flash_usb_script_interrupt_own_group (env : Env) (config : Config)
    (cmd : Cmd) (st : State) (p : Z) (n : nat) (rest : list Tick) :
  let workdir := pathlib.str (pathlib.of_str (dest_dir (esp config))) in
  path_exists env workdir = true ->
  spawn env (command_line cmd) workdir = Some p ->
  getpgid env p = Some (getpgrp env) ->
  child st = (repeat Poll_None n ++ SIGINT :: rest)%list ->
  run_flash_usb_script env config cmd st
  = (Killed SIGTERM,
     mkState (stdin st)
       (events st ++ [Ev_log DEBUG "Running command: %s";
                      Ev_Popen (command_line cmd) workdir;
                      Ev_killpg (getpgrp env) SIGTERM])
       rest)
  /\ ~ InterruptedByUser (fst (run_flash_usb_script env config cmd st))
  /\ ~ ChildExecutionFailed (fst (run_flash_usb_script env config cmd st)).
Proof.
  intros workdir Hex Hspawn Hpg Hchild. subst workdir.
  assert (Hrun :
    run_flash_usb_script env config cmd st
    = (Killed SIGTERM,
       mkState (stdin st)
         (events st ++ [Ev_log DEBUG "Running command: %s";
                        Ev_Popen (command_line cmd)
                          (pathlib.str (pathlib.of_str (dest_dir (esp config))));
                        Ev_killpg (getpgrp env) SIGTERM])
         rest)).
  { rewrite run_flash_usb_script_typed; cbv zeta.
    fold (command_line cmd). rewrite Hex.
    unfold bind, log, Popen, emit, with_proc, except_KeyboardInterrupt,
      wait_child, killpg_of, killed, raise, ret, bind.
    cbn. rewrite Hspawn. cbn. rewrite Hchild.
    destruct (poll_loop_interrupted None n rest
                ((events st ++ [Ev_log DEBUG "Running command: %s"])
                 ++ [Ev_Popen (command_line cmd)
                       (pathlib.str (pathlib.of_str (dest_dir (esp config))))])%list)
      as [pr [Hloop Hnil]].
    rewrite Hloop, (Hnil eq_refl), app_nil_r. cbn.
    rewrite Hpg. cbn. rewrite Z.eqb_refl. cbn.
    rewrite <- !app_assoc. reflexivity. }
  rewrite Hrun. cbn [fst].
  split; [reflexivity | split].
  - intros H. discriminate H.
  - intros [w H]. discriminate H.
Qed.

Lemma run_flash_usb_script_interrupt_own_group_witness :
  path_exists (env_edge Opened) "esp" = true
  /\ spawn (env_edge Opened) "./flashusb.sh -d /dev/sdb -u http://h/edge-efi.img"
       "esp" = Some 4242
  /\ getpgid (env_edge Opened) 4242 = Some (getpgrp (env_edge Opened))
  /\ run_flash_usb_script (env_edge Opened) cfg_edge
       (Cmd_list ["./flashusb.sh"; "-d"; "/dev/sdb"; "-u"; "http://h/edge-efi.img"])
       (st_lines [] [Poll_None; Poll_None; SIGINT; Poll_exit 0])
     = (Killed SIGTERM,
        mkState []
          [Ev_log DEBUG "Running command: %s";
           Ev_Popen "./flashusb.sh -d /dev/sdb -u http://h/edge-efi.img" "esp";
           Ev_killpg 4200 SIGTERM]
          [Poll_exit 0]).
Proof.
  split; [reflexivity | split; [reflexivity | split; [reflexivity |]]].
  exact (proj1 (run_flash_usb_script_interrupt_own_group (env_edge Opened) cfg_edge
                  (Cmd_list ["./flashusb.sh"; "-d"; "/dev/sdb"; "-u";
                             "http://h/edge-efi.img"])
                  (st_lines [] [Poll_None; Poll_None; SIGINT; Poll_exit 0])
                  4242 2%nat [Poll_exit 0] eq_refl eq_refl eq_refl eq_refl)).
Defined.

(** ** Precondition checks on the image URL *)

(** [check_preconditions] once the privilege and device checks have passed
    and a non-empty URL was given. *)
Lemma check_preconditions_url (env : Env) (args : Args) (st : State)
    (d u : string) :
  getuid env = 0 ->
  dev_path args = Some d ->
  path_exists env (pathlib.str (pathlib.of_str d)) = true ->
  image_url args = Some u ->
  u <> "" ->
  let st1 := mkState (stdin st)
               (events st ++ [Ev_log DEBUG "Checking preconditions"]) (child st) in
  check_preconditions env args st
  = match urllib_parse.urlparse (bracketed_host_ok env) u with
    | None => (Raise ValueError, st1)
    | Some parsed =>
        let url := urllib_parse.geturl parsed in
        if negb (PyStr.startswith "http" (PyStr.lower url)) then
          (Raise (AppException ARGUMENT_ERROR (URL_format_incorrect url)), st1)
        else if negb (PyStr.endswith ".img" (PyStr.lower url)) then
          (Raise (AppException ARGUMENT_ERROR (URL_not_pointing_to_img url)), st1)
        else if negb (PyStr.contains "-bios" url) && negb (PyStr.contains "-efi" url) then
          (Raise (AppException ARGUMENT_ERROR (URL_not_acceptable_file url)), st1)
        else
          let st2 := mkState (stdin st)
                       (events st1 ++ [Ev_urlopen url]) (child st) in
          match urlopen env url with
          | Opened => (Ok tt, st2)
          | Unknown_url_type => (Raise ValueError, st2)
          | InvalidURL => (Raise http_client_InvalidURL, st2)
          | Other_exception class_name => (Raise (Exception class_name), st2)
          | e => (Raise (AppException ARGUMENT_ERROR (Wrong_USB_image_URL url e)), st2)
          end
    end.
Proof.
  intros Huid Hdev Hex Hurl Hne st1.
  unfold check_preconditions. rewrite Huid, Hdev, Hurl.
  destruct u as [| c t]; [contradiction |].
  cbv beta iota delta [bind log emit raise ret].
  cbn [negb Z.eqb]. rewrite Hex. cbn [negb].
  destruct (urllib_parse.urlparse _ (String c t)) as [parsed |]; [| reflexivity].
  cbv zeta.
  set (url := urllib_parse.geturl parsed).
  destruct (PyStr.startswith "http" (PyStr.lower url)); [| reflexivity].
  destruct (PyStr.endswith ".img" (PyStr.lower url)); [| reflexivity].
  cbn [negb forallb].
  rewrite andb_true_r.
  destruct (negb (PyStr.contains "-bios" url) && negb (PyStr.contains "-efi" url));
    [reflexivity |].
  cbn [stdin events child].
  destruct (urlopen env url); reflexivity.
Qed.

(** C3, as stated, fails: the URL [httpx://example.com/edge-efi.img] has
    the scheme [httpx], neither [http] nor [https], yet the check lets it
    through to the probe, because the test is on the first four characters
    of the URL. *)
Lemma check_preconditions_scheme_counterexample :
  ~ scheme_is_http_or_https (env_edge URLError) "httpx://example.com/edge-efi.img"
  /\ fst (check_preconditions (env_edge URLError)
            (args_url "httpx://example.com/edge-efi.img") (st_lines [] []))
     = Raise (AppException ARGUMENT_ERROR
                (Wrong_USB_image_URL "httpx://example.com/edge-efi.img" URLError))
  /\ ~ BadUrlScheme
         (fst (check_preconditions (env_edge URLError)
                 (args_url "httpx://example.com/edge-efi.img") (st_lines [] []))).
Proof.
  split; [| split].
  - intros [parsed [Hp Hs]]. vm_compute in Hp. injection Hp as <-.
    cbn in Hs. destruct Hs as [Hs | Hs]; discriminate Hs.
  - reflexivity.
  - intros [url H]. vm_compute in H. discriminate H.
Qed.

Lemma str_app_assoc (a b c : string) : (a ++ b) ++ c = a ++ (b ++ c).
Proof. induction a as [| x a IH]; cbn; [reflexivity | rewrite IH; reflexivity]. Qed.

(** [urlunsplit] puts a non-empty scheme and a colon in front. *)
Lemma urlunsplit_scheme (sch nl url q frag : string) :
  String.eqb sch "" = false ->
  exists rest, urllib_parse.urlunsplit sch nl url q frag = sch ++ ":" ++ rest.
Proof.
  intros Hsch. unfold urllib_parse.urlunsplit. rewrite Hsch.
  match goal with
  | |- context [sch ++ ":" ++ ?u] => generalize u
  end.
  intros url1.
  destruct (String.eqb q ""), (String.eqb frag "");
    rewrite ?str_app_assoc; eexists; reflexivity.
Qed.

(** How [geturl] starts when the scheme is [http] or [https]. *)
Lemma geturl_http_prefix (parsed : urllib_parse.ParseResult) :
  urllib_parse.scheme parsed = "http" \/ urllib_parse.scheme parsed = "https" ->
  PyStr.startswith "http" (PyStr.lower (urllib_parse.geturl parsed)) = true.
Proof.
  intros Hs. unfold urllib_parse.geturl.
  destruct Hs as [-> | ->];
    match goal with
    | |- context [urllib_parse.urlunsplit ?sch ?nl ?u ?q ?f] =>
        destruct (urlunsplit_scheme sch nl u q f eq_refl) as [rest ->]
    end; reflexivity.
Qed.

(** C3, amended. Once the privilege and device checks have passed, the
    check of a supplied (non-empty) URL fails with the bad-scheme error if
    and only if the URL, as [urlparse] and [geturl] render it and in lower
    case, does not start with the four characters [http].  So a URL whose
    scheme is [http] or [https] never meets this error; a URL that merely
    starts with [http] does not meet it either. *)
Theorem check_preconditions_bad_scheme (env : Env) (args : Args) (st : State)
    (d u : string) :
  getuid env = 0 ->
  dev_path args = Some d ->
  path_exists env (pathlib.str (pathlib.of_str d)) = true ->
  image_url args = Some u ->
  u <> "" ->
  (BadUrlScheme (fst (check_preconditions env args st)) <->
     exists parsed,
       urllib_parse.urlparse (bracketed_host_ok env) u = Some parsed
       /\ PyStr.startswith "http" (PyStr.lower (urllib_parse.geturl parsed)) = false)
  /\ (scheme_is_http_or_https env u ->
      ~ BadUrlScheme (fst (check_preconditions env args st))).
Proof.
  intros Huid Hdev Hex Hurl Hne.
  assert (Hiff :
    BadUrlScheme (fst (check_preconditions env args st)) <->
    exists parsed,
      urllib_parse.urlparse (bracketed_host_ok env) u = Some parsed
      /\ PyStr.startswith "http" (PyStr.lower (urllib_parse.geturl parsed)) = false).
  { rewrite (check_preconditions_url env args st d u Huid Hdev Hex Hurl Hne).
    destruct (urllib_parse.urlparse _ u) as [parsed |].
    - cbv zeta.
      destruct (PyStr.startswith "http" (PyStr.lower (urllib_parse.geturl parsed)))
        eqn:Hs; cbn [negb].
      + split.
        * intros [url H].
          destruct (PyStr.endswith ".img" _); cbn [negb] in H;
            [| discriminate H].
          destruct (negb _ && negb _); [discriminate H |].
          destruct (urlopen env _); discriminate H.
        * intros [parsed' [Hp Hf]]. injection Hp as <-. congruence.
      + split.
        * intros _. exists parsed. split; [reflexivity | exact Hs].
        * intros _. eexists. reflexivity.
    - split.
      + intros [url H]. discriminate H.
      + intros [parsed [Hp _]]. discriminate Hp. }
  split; [exact Hiff |].
  intros [parsed [Hp Hs]] Hbad.
  apply Hiff in Hbad. destruct Hbad as [parsed' [Hp' Hf]].
  rewrite Hp in Hp'. injection Hp' as <-.
  rewrite (geturl_http_prefix parsed Hs) in Hf. discriminate Hf.
Qed.

Lemma check_preconditions_bad_scheme_witness :
  getuid (env_edge Opened) = 0
  /\ dev_path (args_url "ftp://x/y.img") = Some "/dev/sdb"
  /\ path_exists (env_edge Opened) (pathlib.str (pathlib.of_str "/dev/sdb")) = true
  /\ image_url (args_url "ftp://x/y.img") = Some "ftp://x/y.img"
  /\ BadUrlScheme
       (fst (check_preconditions (env_edge Opened) (args_url "ftp://x/y.img")
               (st_lines [] []))).
Proof.
  repeat (split; [reflexivity |]).
  apply (proj1 (check_preconditions_bad_scheme (env_edge Opened)
                  (args_url "ftp://x/y.img") (st_lines [] [])
                  "/dev/sdb" "ftp://x/y.img" eq_refl eq_refl eq_refl eq_refl
                  ltac:(discriminate))).
  eexists. split; reflexivity.
Defined.

(** C4, as stated, fails in both directions, because the test is on the end
    of the whole URL.  The path of [http://example.com/edge-efi.img?x=1]
    ends in [.img], and the check fails with the bad-extension error; the
    path of [http://example.com/flash?image=edge-efi.img] does not, and the
    check passes. *)
Lemma check_preconditions_extension_counterexample :
  (path_ends_in_img (env_edge Opened) "http://example.com/edge-efi.img?x=1"
   /\ BadUrlExtension
        (fst (check_preconditions (env_edge Opened)
                (args_url "http://example.com/edge-efi.img?x=1")
                (st_lines [] []))))
  /\ (~ path_ends_in_img (env_edge Opened)
          "http://example.com/flash?image=edge-efi.img"
      /\ fst (check_preconditions (env_edge Opened)
                (args_url "http://example.com/flash?image=edge-efi.img")
                (st_lines [] []))
         = Ok tt).
Proof.
  split; split.
  - eexists. split; reflexivity.
  - eexists. reflexivity.
  - intros [parsed [Hp He]]. vm_compute in Hp. injection Hp as <-.
    vm_compute in He. discriminate He.
  - reflexivity.
Qed.

(** C4, amended. For a supplied URL that passes the scheme check, the
    check fails with the bad-extension error if and only if the whole URL,
    as [geturl] renders it (query and fragment included) and in lower case,
    does not end in [.img]. *)
Theorem check_preconditions_bad_extension (env : Env) (args : Args)
    (st : State) (d u : string) (parsed : urllib_parse.ParseResult) :
  getuid env = 0 ->
  dev_path args = Some d ->
  path_exists env (pathlib.str (pathlib.of_str d)) = true ->
  image_url args = Some u ->
  u <> "" ->
  urllib_parse.urlparse (bracketed_host_ok env) u = Some parsed ->
  PyStr.startswith "http" (PyStr.lower (urllib_parse.geturl parsed)) = true ->
  (BadUrlExtension (fst (check_preconditions env args st)) <->
     PyStr.endswith ".img" (PyStr.lower (urllib_parse.geturl parsed)) = false).
Proof.
  intros Huid Hdev Hex Hurl Hne Hp Hs.
  rewrite (check_preconditions_url env args st d u Huid Hdev Hex Hurl Hne).
  rewrite Hp. cbv zeta. rewrite Hs. cbn [negb].
  destruct (PyStr.endswith ".img" (PyStr.lower (urllib_parse.geturl parsed)));
    cbn [negb].
  - split; [| discriminate].
    intros [url H].
    destruct (negb _ && negb _); [discriminate H |].
    destruct (urlopen env _); discriminate H.
  - split; [reflexivity |]. intros _. eexists. reflexivity.
Qed.

Lemma check_preconditions_bad_extension_witness :
  getuid (env_edge Opened) = 0
  /\ path_exists (env_edge Opened) (pathlib.str (pathlib.of_str "/dev/sdb")) = true
  /\ option_map urllib_parse.geturl
       (urllib_parse.urlparse (bracketed_host_ok (env_edge Opened))
          "https://example.com/edge-efi.iso")
     = Some "https://example.com/edge-efi.iso"
  /\ BadUrlExtension
       (fst (check_preconditions (env_edge Opened)
               (args_url "https://example.com/edge-efi.iso") (st_lines [] []))).
Proof.
  repeat (split; [reflexivity |]).
  apply (proj2 (check_preconditions_bad_extension (env_edge Opened)
                  (args_url "https://example.com/edge-efi.iso") (st_lines [] [])
                  "/dev/sdb" "https://example.com/edge-efi.iso" _
                  eq_refl eq_refl eq_refl eq_refl ltac:(discriminate)
                  eq_refl eq_refl)).
  reflexivity.
Defined.

(** ** Which effects a computation may add *)
Section Frames.

Variable P : Event -> Prop.

Lemma frame_refl st : frame P st st.
Proof.
  split; [reflexivity |]. exists []. rewrite app_nil_r. split; constructor.
Qed.

Lemma frame_trans st1 st2 st3 : frame P st1 st2 -> frame P st2 st3 -> frame P st1 st3.
Proof.
  intros [Hin1 [evs1 [He1 Hp1]]] [Hin2 [evs2 [He2 Hp2]]].
  split; [congruence |].
  exists (evs1 ++ evs2)%list. split.
  - rewrite He2, He1, app_assoc. reflexivity.
  - apply Forall_app. split; assumption.
Qed.

Lemma keeps_ret {A} (a : A) : keeps P (ret a).
Proof. intros st. apply frame_refl. Qed.

Lemma keeps_raise {A} (e : exn) : keeps P (@raise A e).
Proof. intros st. apply frame_refl. Qed.

Lemma keeps_killed {A} (sig : Signal) : keeps P (@killed A sig).
Proof. intros st. apply frame_refl. Qed.

Lemma keeps_subscript {A} (item : yaml.Item A) : keeps P (subscript item).
Proof. destruct item; intros st; apply frame_refl. Qed.

Lemma keeps_emit (e : Event) : P e -> keeps P (emit e).
Proof.
  intros He st. split; [reflexivity |].
  exists [e]. split; [reflexivity |]. constructor; [exact He | constructor].
Qed.

Lemma keeps_bind {A B} (m : M A) (k : A -> M B) :
  keeps P m -> (forall a, keeps P (k a)) -> keeps P (bind m k).
Proof.
  intros Hm Hk st. unfold bind. specialize (Hm st).
  destruct (m st) as [[a | e | | sig] st1]; cbn in *; try exact Hm.
  eapply frame_trans; [exact Hm | apply Hk].
Qed.

Lemma keeps_except {A} (body handler : M A) :
  keeps P body -> keeps P handler -> keeps P (except_KeyboardInterrupt body handler).
Proof.
  intros Hb Hh st. unfold except_KeyboardInterrupt. specialize (Hb st).
  destruct (body st) as [[a | e | | sig] st1]; cbn in *; try exact Hb.
  destruct e; cbn; try exact Hb.
  eapply frame_trans; [exact Hb | apply Hh].
Qed.

Lemma keeps_with_proc {A} (proc : Proc) (body : M A) :
  P (Ev_wait (pid proc)) -> keeps P body -> keeps P (with_proc proc body).
Proof.
  intros Hw Hb st. unfold with_proc. specialize (Hb st).
  destruct (body st) as [[a | e | | sig] st1]; cbn in *; try exact Hb.
  all: eapply frame_trans; [exact Hb |];
    apply (keeps_emit (Ev_wait (pid proc)) Hw st1).
Qed.

Lemma poll_loop_prints (ticks : list Tick) :
  (forall line, P (Ev_print line)) ->
  forall stdout evs,
    exists printed,
      snd (poll_loop stdout ticks evs) = (evs ++ printed)%list
      /\ Forall P printed.
Proof.
  intros Hp. induction ticks as [| t ticks IH]; intros stdout evs.
  - exists []. cbn. rewrite app_nil_r. split; constructor.
  - destruct t; cbn.
    + destruct stdout as [[| line more] |].
      * apply IH.
      * destruct (IH (Some more) (evs ++ [Ev_print line])%list)
          as [pr [H Hf]].
        exists (Ev_print line :: pr). rewrite H, <- app_assoc.
        split; [reflexivity |]. constructor; [apply Hp | exact Hf].
      * apply IH.
    + exists []. rewrite app_nil_r. split; constructor.
    + exists []. rewrite app_nil_r. split; constructor.
Qed.

Lemma keeps_wait_child (proc : Proc) :
  (forall line, P (Ev_print line)) -> keeps P (wait_child proc).
Proof.
  intros Hp st. unfold wait_child.
  destruct (poll_loop_prints (child st) Hp (stdout proc) (events st))
    as [pr [H Hf]].
  destruct (poll_loop (stdout proc) (child st) (events st)) as [[r t] evs].
  cbn in *. split; [reflexivity |]. exists pr. split; assumption.
Qed.

End Frames.

Lemma bind_ext {A B} (m : M A) (k1 k2 : A -> M B) (st : State) :
  (forall a st', k1 a st' = k2 a st') -> bind m k1 st = bind m k2 st.
Proof.
  intros H. unfold bind. destruct (m st) as [[a | e | | sig] st']; auto.
Qed.

Lemma keeps_bind_ret {A B} (P : Event -> Prop) (a : A) (k : A -> M B) :
  keeps P (k a) -> keeps P (bind (ret a) k).
Proof. intros Hk st. exact (Hk st). Qed.

(** [check_preconditions] adds log records and the network probe only. *)
Lemma keeps_check_preconditions (P : Event -> Prop) (env : Env) (args : Args) :
  (forall level fmt, P (Ev_log level fmt)) ->
  (forall url, P (Ev_urlopen url)) ->
  keeps P (check_preconditions env args).
Proof.
  intros Hlog Hopen. unfold check_preconditions, log.
  apply keeps_bind; [apply keeps_emit, Hlog | intros _].
  destruct (negb (getuid env =? 0)); [apply keeps_raise |].
  destruct (dev_path args) as [d |]; [| apply keeps_raise].
  cbv zeta.
  destruct (negb (path_exists env _)); [apply keeps_raise |].
  destruct (image_url args) as [[| c t] |]; try apply keeps_ret.
  destruct (urllib_parse.urlparse _ _) as [parsed |]; [| apply keeps_raise].
  cbv zeta.
  destruct (negb (PyStr.startswith _ _)); [apply keeps_raise |].
  destruct (negb (PyStr.endswith _ _)); [apply keeps_raise |].
  destruct (forallb _ _); [apply keeps_raise |].
  apply keeps_bind; [apply keeps_emit, Hopen | intros _].
  destruct (urlopen env _); first [apply keeps_ret | apply keeps_raise].
Qed.

(** [get_config] adds a log record only. *)
Lemma keeps_get_config (P : Event -> Prop) (env : Env) (file : string) :
  (forall level fmt, P (Ev_log level fmt)) ->
  keeps P (get_config env file).
Proof.
  intros Hlog. unfold get_config, log.
  apply keeps_bind; [apply keeps_emit, Hlog | intros _].
  destruct (read_text env _); try apply keeps_raise.
  destruct (safe_load env _); [apply keeps_ret | apply keeps_raise].
Qed.

(** [run_flash_usb_script] reads no input, and the one process it may
    spawn runs the command line it was given. *)
Lemma keeps_run_flash_usb_script (P : Event -> Prop) (env : Env)
    (config : yaml.Document) (cmd : Cmd) :
  (forall level fmt, P (Ev_log level fmt)) ->
  (forall text, P (Ev_print text)) ->
  (forall cwd, P (Ev_Popen (command_line cmd) cwd)) ->
  (forall pgid sig, P (Ev_killpg pgid sig)) ->
  (forall pid, P (Ev_wait pid)) ->
  keeps P (run_flash_usb_script env config cmd).
Proof.
  intros Hlog Hprint Hpopen Hkill Hwait.
  unfold run_flash_usb_script. fold (command_line cmd). cbv zeta.
  apply keeps_bind; [apply keeps_subscript | intros esp].
  apply keeps_bind; [apply keeps_subscript | intros dest_dir].
  destruct (negb (path_exists env _)); [apply keeps_raise |].
  unfold log, Popen, killpg_of.
  apply keeps_bind; [apply keeps_emit, Hlog | intros _].
  apply keeps_bind.
  - apply keeps_bind; [apply keeps_emit, Hpopen | intros _].
    destruct (spawn env _ _); [apply keeps_ret | apply keeps_raise].
  - intros proc. apply keeps_with_proc; [apply Hwait |].
    apply keeps_except.
    + apply keeps_bind; [apply keeps_wait_child, Hprint | intros rc].
      destruct (negb (rc =? 0)); [apply keeps_raise | apply keeps_ret].
    + apply keeps_bind; [| intros _; apply keeps_raise].
      destruct (getpgid env _) as [pgid |]; [| apply keeps_raise].
      apply keeps_bind; [apply keeps_emit, Hkill | intros _].
      destruct (pgid =? getpgrp env); [apply keeps_killed | apply keeps_ret].
Qed.

(** ** Direct-URL mode of [main] *)

Lemma run_flash_usb_script_esp (env : Env)
    (f g : string -> option yaml.Document) (c1 c2 : yaml.Document) (cmd : Cmd) :
  yaml.esp c1 = yaml.esp c2 ->
  run_flash_usb_script (with_safe_load env f) c1 cmd
  = run_flash_usb_script (with_safe_load env g) c2 cmd.
Proof.
  intros Hesp. unfold run_flash_usb_script. rewrite Hesp. reflexivity.
Qed.

Lemma run_flash_usb_script_spawns (env : Env) (config : Config) (cmd : Cmd)
    (st : State) :
  let workdir := pathlib.str (pathlib.of_str (dest_dir (esp config))) in
  path_exists env workdir = true ->
  In (Ev_Popen (command_line cmd) workdir)
     (events (snd (run_flash_usb_script env config cmd st))).
Proof.
  intros workdir Hex. subst workdir.
  rewrite run_flash_usb_script_typed; cbv zeta. fold (command_line cmd). rewrite Hex.
  unfold bind, log, Popen, emit, with_proc, except_KeyboardInterrupt,
    wait_child, killpg_of, raise, ret, bind.
  cbn.
  set (evs2 := ((events st ++ [Ev_log DEBUG "Running command: %s"])
                ++ [Ev_Popen (command_line cmd)
                      (pathlib.str (pathlib.of_str (dest_dir (esp config))))])%list).
  assert (Hin : In (Ev_Popen (command_line cmd)
                      (pathlib.str (pathlib.of_str (dest_dir (esp config))))) evs2).
  { subst evs2. apply in_or_app. right. left. reflexivity. }
  destruct (spawn env _ _) as [p |]; cbn; [| exact Hin].
  destruct (poll_loop_prints (fun _ => True) (child st) (fun _ => I) None evs2)
    as [pr [Hpr _]].
  destruct (poll_loop None (child st) evs2) as [[r t] evs3].
  cbn in Hpr. subst evs3.
  assert (Hin3 : In (Ev_Popen (command_line cmd)
                       (pathlib.str (pathlib.of_str (dest_dir (esp config)))))
                    (evs2 ++ pr)%list)
    by (apply in_or_app; left; exact Hin).
  destruct r as [rc | e | | sig]; cbn.
  - destruct (negb (rc =? 0)); cbn; apply in_or_app; left; exact Hin3.
  - destruct e; cbn; try (apply in_or_app; left; exact Hin3).
    destruct (getpgid env p) as [pgid |]; cbn;
      [destruct (pgid =? getpgrp env); cbn |];
      rewrite ?in_app_iff in *; tauto.
  - exact Hin3.
  - exact Hin3.
Qed.

(** C2. In every run of [main] with a (non-empty) image URL: nothing is
    read from standard input and no prompt is shown; the only process that
    can be spawned is the flashing script with [-d <device>] followed by
    [-u <url>]; the run is the same for all loaders that agree on the [esp]
    entry of the document, whatever they give for [usb_images] and
    [profiles], be it nothing at all; and when the preconditions hold, the
    configuration loads and the working directory exists, that command is
    indeed spawned. *)
Theorem main_direct_url (env : Env) (args : Args) (st : State) (url : string) :
  image_url args = Some url ->
  url <> "" ->
  frame (direct_url_effect args url) st (snd (main env args st))
  /\ (forall f g : string -> option yaml.Document,
        (forall raw, option_map yaml.esp (f raw) = option_map yaml.esp (g raw)) ->
        main (with_safe_load env f) args st = main (with_safe_load env g) args st)
  /\ (forall d raw (cfg : Config),
        dev_path args = Some d ->
        fst (check_preconditions env args st) = Ok tt ->
        read_text env (pathlib.str (pathlib.of_str (config_file args))) = Text raw ->
        safe_load env raw = Some (typed cfg) ->
        path_exists env (pathlib.str (pathlib.of_str (dest_dir (esp cfg)))) = true ->
        In (Ev_Popen ("./flashusb.sh -d " ++ pathlib.str (pathlib.of_str d)
                      ++ " -u " ++ url)
              (pathlib.str (pathlib.of_str (dest_dir (esp cfg)))))
           (events (snd (main env args st)))).
Proof.
  intros Hurl Hne.
  destruct url as [| c t]; [contradiction |].
  split; [| split].
  - (* effects *)
    revert st. change (keeps (direct_url_effect args (String c t)) (main env args)).
    unfold main. rewrite Hurl.
    apply keeps_bind;
      [apply keeps_check_preconditions; intros; exact I | intros _].
    apply keeps_bind; [apply keeps_emit; exact I | intros _].
    apply keeps_bind; [apply keeps_get_config; intros; exact I | intros cfg].
    destruct (dev_path args) as [d |] eqn:Hdev; [| apply keeps_raise].
    cbv zeta.
    apply keeps_bind_ret.
    apply keeps_bind; [| intros _; apply keeps_ret].
    apply keeps_run_flash_usb_script; intros; try exact I.
    exists d. split; [exact Hdev | reflexivity].
  - (* the loaded usb_images and profiles are not looked at *)
    intros f g Hfg. unfold main. rewrite Hurl.
    change (check_preconditions (with_safe_load env f) args)
      with (check_preconditions env args).
    change (check_preconditions (with_safe_load env g) args)
      with (check_preconditions env args).
    apply bind_ext. intros _ st1.
    apply bind_ext. intros _ st2.
    unfold get_config, bind, log, emit, ret, raise.
    cbn [read_text safe_load with_safe_load].
    destruct (read_text env _) as [raw | | | |]; try reflexivity.
    specialize (Hfg raw).
    destruct (f raw) as [c1 |], (g raw) as [c2 |]; cbn in Hfg;
      try discriminate Hfg; [| reflexivity].
    injection Hfg as Hesp.
    destruct (dev_path args) as [d |]; [| reflexivity].
    cbv zeta.
    rewrite (run_flash_usb_script_esp env f g c1 c2 _ Hesp). reflexivity.
  - (* the command is spawned *)
    intros d raw cfg Hdev Hpre Hread Hload Hex.
    unfold main. rewrite Hurl, Hdev.
    unfold bind at 1.
    destruct (check_preconditions env args st) as [r1 st1].
    cbn in Hpre. subst r1.
    unfold bind at 1. cbn [emit].
    unfold get_config. rewrite Hread, Hload.
    unfold bind at 1. unfold bind at 1. cbn [log emit ret].
    cbv zeta. unfold bind at 1. cbn [ret]. unfold bind at 1.
    match goal with
    | |- context [run_flash_usb_script env (typed cfg) ?cmd ?s] =>
        pose proof (run_flash_usb_script_spawns env cfg cmd s Hex) as Hin;
        destruct (run_flash_usb_script env (typed cfg) cmd s)
          as [[[] | e | | sig] s']
    end; exact Hin.
Qed.

Lemma main_direct_url_witness :
  image_url (args_url "http://example.com/edge-efi.img")
  = Some "http://example.com/edge-efi.img"
  /\ stdin (snd (main (env_edge Opened) (args_url "http://example.com/edge-efi.img")
                   (st_lines ["2"; "efi"] [Poll_exit 0])))
     = ["2"; "efi"]
  /\ In (Ev_Popen "./flashusb.sh -d /dev/sdb -u http://example.com/edge-efi.img" "esp")
        (events (snd (main (env_edge Opened)
                        (args_url "http://example.com/edge-efi.img")
                        (st_lines ["2"; "efi"] [Poll_exit 0])))).
Proof.
  split; [reflexivity |].
  destruct (main_direct_url (env_edge Opened)
              (args_url "http://example.com/edge-efi.img")
              (st_lines ["2"; "efi"] [Poll_exit 0])
              "http://example.com/edge-efi.img" eq_refl ltac:(discriminate))
    as [[Hstdin _] [_ Hspawn]].
  split; [exact Hstdin |].
  exact (Hspawn "/dev/sdb" "" cfg_edge eq_refl eq_refl eq_refl eq_refl eq_refl).
Defined.

(** * Further properties of the script *)

(** ** [check_preconditions]: the gate before the URL *)

Lemma check_preconditions_not_root (env : Env) (args : Args) (st : State) :
  getuid env <> 0 ->
  check_preconditions env args st
  = (Raise (AppException MISSING_PREREQUISITE Must_be_run_as_root),
     logged st [Ev_log DEBUG "Checking preconditions"]).
Proof.
  intros Huid. unfold check_preconditions, bind, log, emit, raise. cbn.
  destruct (Z.eqb_spec (getuid env) 0) as [E | E]; [contradiction | reflexivity].
Qed.

Lemma check_preconditions_no_device (env : Env) (args : Args) (st : State) :
  getuid env = 0 ->
  dev_path args = None ->
  check_preconditions env args st
  = (Raise (AppException MISSING_PREREQUISITE Device_path_not_specified),
     logged st [Ev_log DEBUG "Checking preconditions"]).
Proof.
  intros Huid Hdev. unfold check_preconditions, bind, log, emit, raise. cbn.
  rewrite Huid, Hdev. reflexivity.
Qed.

Lemma check_preconditions_device_missing (env : Env) (args : Args) (st : State)
    (d : string) :
  getuid env = 0 ->
  dev_path args = Some d ->
  path_exists env (pathlib.str (pathlib.of_str d)) = false ->
  check_preconditions env args st
  = (Raise (AppException MISSING_PREREQUISITE
              (Device_path_does_not_exist (pathlib.of_str d))),
     logged st [Ev_log DEBUG "Checking preconditions"]).
Proof.
  intros Huid Hdev Hex. unfold check_preconditions, bind, log, emit, raise. cbn.
  rewrite Huid, Hdev. cbn. rewrite Hex. reflexivity.
Qed.

Lemma check_preconditions_no_url (env : Env) (args : Args) (st : State)
    (d : string) :
  getuid env = 0 ->
  dev_path args = Some d ->
  path_exists env (pathlib.str (pathlib.of_str d)) = true ->
  image_url args = None \/ image_url args = Some "" ->
  check_preconditions env args st
  = (Ok tt, logged st [Ev_log DEBUG "Checking preconditions"]).
Proof.
  intros Huid Hdev Hex Hurl.
  unfold check_preconditions, bind, log, emit, raise, ret. cbn.
  rewrite Huid, Hdev. cbn. rewrite Hex. cbn.
  destruct Hurl as [-> | ->]; reflexivity.
Qed.

(** The four ways the checks before the URL can go. *)
Lemma check_preconditions_gate (env : Env) (args : Args) :
  getuid env <> 0
  \/ (getuid env = 0 /\ dev_path args = None)
  \/ (getuid env = 0
      /\ exists d, dev_path args = Some d
                   /\ path_exists env (pathlib.str (pathlib.of_str d)) = false)
  \/ (getuid env = 0 /\ device_present env args).
Proof.
  destruct (Z.eq_dec (getuid env) 0) as [Huid | Huid]; [| left; exact Huid].
  right. destruct (dev_path args) as [d |] eqn:Hdev;
    [| left; split; [exact Huid | reflexivity]].
  right. destruct (path_exists env (pathlib.str (pathlib.of_str d))) eqn:Hex.
  - right. split; [exact Huid |]. exists d. split; [exact Hdev | exact Hex].
  - left. split; [exact Huid |]. exists d. split; [reflexivity | exact Hex].
Qed.

(** An optional URL is absent, empty, or a non-empty text. *)
Lemma image_url_cases (args : Args) :
  (image_url args = None \/ image_url args = Some "")
  \/ exists u, image_url args = Some u /\ u <> "".
Proof.
  destruct (image_url args) as [[| c t] |].
  - left. right. reflexivity.
  - right. eexists. split; [reflexivity | discriminate].
  - left. left. reflexivity.
Qed.

(** X1. [check_preconditions] succeeds exactly when the user is root, the
    device path was given and exists, and the URL is absent, empty, or
    passes all four URL tests (prefix, suffix, BIOS marker, probe). *)
Theorem check_preconditions_ok_iff (env : Env) (args : Args) (st : State) :
  fst (check_preconditions env args st) = Ok tt <->
  getuid env = 0
  /\ device_present env args
  /\ (image_url args = None
      \/ image_url args = Some ""
      \/ exists u, image_url args = Some u /\ url_accepted env u).
Proof.
  destruct (check_preconditions_gate env args)
    as [Huid | [[Huid Hdev] | [[Huid [d [Hdev Hex]]] | [Huid Hpres]]]].
  - rewrite (check_preconditions_not_root env args st Huid). cbn.
    split; [discriminate | intros [H _]; contradiction].
  - rewrite (check_preconditions_no_device env args st Huid Hdev). cbn.
    split; [discriminate |].
    intros [_ [[d [H _]] _]]. congruence.
  - rewrite (check_preconditions_device_missing env args st d Huid Hdev Hex). cbn.
    split; [discriminate |].
    intros [_ [[d' [H H']] _]]. congruence.
  - destruct Hpres as [d [Hdev Hex]].
    destruct (image_url_cases args) as [Hno | [u [Hurl Hne]]].
    + rewrite (check_preconditions_no_url env args st d Huid Hdev Hex Hno). cbn.
      split; [| reflexivity]. intros _.
      split; [exact Huid | split; [exists d; split; assumption |]].
      destruct Hno as [H | H]; [left | right; left]; exact H.
    + rewrite (check_preconditions_url env args st d u Huid Hdev Hex Hurl Hne).
      assert (Hreduce :
        (exists u', image_url args = Some u' /\ url_accepted env u')
        <-> url_accepted env u).
      { split.
        - intros [u' [H1 H2]]. congruence.
        - intros H. exists u. split; assumption. }
      assert (Hrhs :
        (getuid env = 0 /\ device_present env args
         /\ (image_url args = None \/ image_url args = Some ""
             \/ exists u', image_url args = Some u' /\ url_accepted env u'))
        <-> url_accepted env u).
      { rewrite Hreduce. split.
        - intros [_ [_ [H | [H | H]]]]; [congruence | | exact H].
          rewrite Hurl in H. injection H as ->. contradiction.
        - intros H. split; [exact Huid | split; [exists d; split; assumption |]].
          right. right. exact H. }
      rewrite Hrhs. clear Hrhs Hreduce.
      unfold url_accepted.
      destruct (urllib_parse.urlparse _ u) as [parsed |]; cbn.
      * set (url := urllib_parse.geturl parsed).
        destruct (PyStr.startswith "http" (PyStr.lower url)) eqn:E1; cbn.
        2: { split; [discriminate |].
             intros [p [Hp [H _]]]. injection Hp as <-. fold url in H. congruence. }
        destruct (PyStr.endswith ".img" (PyStr.lower url)) eqn:E2; cbn.
        2: { split; [discriminate |].
             intros [p [Hp [_ [H _]]]]. injection Hp as <-. fold url in H. congruence. }
        destruct (PyStr.contains "-bios" url) eqn:E3,
                 (PyStr.contains "-efi" url) eqn:E4; cbn.
        4: { split; [discriminate |].
             intros [p [Hp [_ [_ [[H | H] _]]]]]; injection Hp as <-;
               fold url in H; congruence. }
        all: destruct (urlopen env url) eqn:E5; cbn;
          (split;
           [ try discriminate; intros _; exists parsed; fold url;
             repeat split; auto
           | try reflexivity;
             intros [p [Hp [_ [_ [_ H]]]]]; injection Hp as <-;
             fold url in H; congruence ]).
      * split; [discriminate |]. intros [p [Hp _]]. discriminate Hp.
Qed.

(** The syntactic tests on the rendered URL. *)
Lemma check_preconditions_url_cases (env : Env) (args : Args) (st : State)
    (d u : string) :
  getuid env = 0 ->
  dev_path args = Some d ->
  path_exists env (pathlib.str (pathlib.of_str d)) = true ->
  image_url args = Some u ->
  u <> "" ->
  let st1 := logged st [Ev_log DEBUG "Checking preconditions"] in
  (urllib_parse.urlparse (bracketed_host_ok env) u = None
   /\ check_preconditions env args st = (Raise ValueError, st1))
  \/ exists parsed,
       urllib_parse.urlparse (bracketed_host_ok env) u = Some parsed
       /\ let url := urllib_parse.geturl parsed in
          (PyStr.startswith "http" (PyStr.lower url) = false
           /\ check_preconditions env args st
              = (Raise (AppException ARGUMENT_ERROR (URL_format_incorrect url)), st1))
          \/ (PyStr.startswith "http" (PyStr.lower url) = true
              /\ PyStr.endswith ".img" (PyStr.lower url) = false
              /\ check_preconditions env args st
                 = (Raise (AppException ARGUMENT_ERROR (URL_not_pointing_to_img url)),
                    st1))
          \/ (PyStr.startswith "http" (PyStr.lower url) = true
              /\ PyStr.endswith ".img" (PyStr.lower url) = true
              /\ PyStr.contains "-bios" url = false
              /\ PyStr.contains "-efi" url = false
              /\ check_preconditions env args st
                 = (Raise (AppException ARGUMENT_ERROR (URL_not_acceptable_file url)),
                    st1))
          \/ (PyStr.startswith "http" (PyStr.lower url) = true
              /\ PyStr.endswith ".img" (PyStr.lower url) = true
              /\ (PyStr.contains "-bios" url = true \/ PyStr.contains "-efi" url = true)
              /\ check_preconditions env args st
                 = (match urlopen env url with
                    | Opened => Ok tt
                    | Unknown_url_type => Raise ValueError
                    | InvalidURL => Raise http_client_InvalidURL
                    | Other_exception class_name => Raise (Exception class_name)
                    | e => Raise (AppException ARGUMENT_ERROR
                                    (Wrong_USB_image_URL url e))
                    end,
                    logged st [Ev_log DEBUG "Checking preconditions";
                               Ev_urlopen url])).
Proof.
  intros Huid Hdev Hex Hurl Hne st1.
  rewrite (check_preconditions_url env args st d u Huid Hdev Hex Hurl Hne).
  destruct (urllib_parse.urlparse _ u) as [parsed |]; [right | left; split; reflexivity].
  exists parsed. split; [reflexivity |]. cbv zeta.
  set (url := urllib_parse.geturl parsed).
  destruct (PyStr.startswith "http" (PyStr.lower url)); cbn [negb];
    [| left; split; reflexivity].
  right.
  destruct (PyStr.endswith ".img" (PyStr.lower url)); cbn [negb];
    [| left; repeat split; reflexivity].
  right.
  destruct (PyStr.contains "-bios" url) eqn:E3, (PyStr.contains "-efi" url) eqn:E4;
    cbn [negb andb].
  4: { left. repeat split; reflexivity. }
  all: right; split; [reflexivity | split; [reflexivity | split; [auto |]]].
  all: unfold logged; cbn [stdin events child]; rewrite <- app_assoc;
    destruct (urlopen env url); reflexivity.
Qed.

(** X2. The code of a failure of [check_preconditions] tells the stage:
    [MISSING_PREREQUISITE] exactly for a privilege or device problem,
    [ARGUMENT_ERROR] exactly for a problem with a supplied URL once
    privilege and device were fine; no other code occurs. *)
Theorem check_preconditions_error_code (env : Env) (args : Args) (st : State)
    (code : Codes) (msg : Msg) :
  fst (check_preconditions env args st) = Raise (AppException code msg) ->
  (code = MISSING_PREREQUISITE
   /\ (getuid env <> 0
       \/ dev_path args = None
       \/ exists d, dev_path args = Some d
                    /\ path_exists env (pathlib.str (pathlib.of_str d)) = false))
  \/ (code = ARGUMENT_ERROR
      /\ getuid env = 0
      /\ device_present env args
      /\ exists u, image_url args = Some u /\ u <> "").
Proof.
  destruct (check_preconditions_gate env args)
    as [Huid | [[Huid Hdev] | [[Huid [d [Hdev Hex]]] | [Huid Hpres]]]].
  - rewrite (check_preconditions_not_root env args st Huid). cbn.
    intros H. injection H as <- _. left. auto.
  - rewrite (check_preconditions_no_device env args st Huid Hdev). cbn.
    intros H. injection H as <- _. left. auto.
  - rewrite (check_preconditions_device_missing env args st d Huid Hdev Hex). cbn.
    intros H. injection H as <- _. left. split; [reflexivity |].
    right. right. exists d. split; assumption.
  - pose proof Hpres as [d [Hdev Hex]].
    destruct (image_url_cases args) as [Hno | [u [Hurl Hne]]].
    + rewrite (check_preconditions_no_url env args st d Huid Hdev Hex Hno).
      discriminate.
    + intros Hfail. right.
      assert (code = ARGUMENT_ERROR) as ->.
      { destruct (check_preconditions_url_cases env args st d u
                    Huid Hdev Hex Hurl Hne)
          as [[_ Hr] | [parsed [_ [[_ Hr] | [[_ [_ Hr]] | [[_ [_ [_ [_ Hr]]]]
                                                       | [_ [_ [_ Hr]]]]]]]]];
          rewrite Hr in Hfail; cbn in Hfail; try discriminate Hfail;
          try (injection Hfail as <- _; reflexivity).
        destruct (urlopen env _); try discriminate Hfail;
          injection Hfail as <- _; reflexivity. }
      split; [reflexivity | split; [exact Huid | split; [exact Hpres |]]].
      exists u. split; assumption.
Qed.

Lemma check_preconditions_error_code_witness :
  fst (check_preconditions (env_edge Opened)
         (args_url "https://example.com/edge.img") (st_lines [] []))
  = Raise (AppException ARGUMENT_ERROR
             (URL_not_acceptable_file "https://example.com/edge.img"))
  /\ getuid (env_edge Opened) = 0.
Proof.
  split; [reflexivity |].
  destruct (check_preconditions_error_code (env_edge Opened)
              (args_url "https://example.com/edge.img") (st_lines [] [])
              ARGUMENT_ERROR
              (URL_not_acceptable_file "https://example.com/edge.img") eq_refl)
    as [[H _] | [_ [H _]]]; [discriminate H | exact H].
Defined.

(** X3. [check_preconditions] leaves standard input and the child alone,
    writes its log record, and probes the network at most once: only as
    root, with the device present, and for a URL that passed the prefix,
    suffix and marker tests; the address probed is the URL as [geturl]
    renders it. *)
Theorem check_preconditions_probe (env : Env) (args : Args) (st : State) :
  exists evs,
    snd (check_preconditions env args st)
    = logged st (Ev_log DEBUG "Checking preconditions" :: evs)
    /\ (evs = []
        \/ exists u parsed,
             evs = [Ev_urlopen (urllib_parse.geturl parsed)]
             /\ getuid env = 0
             /\ device_present env args
             /\ image_url args = Some u
             /\ urllib_parse.urlparse (bracketed_host_ok env) u = Some parsed
             /\ PyStr.startswith "http" (PyStr.lower (urllib_parse.geturl parsed)) = true
             /\ PyStr.endswith ".img" (PyStr.lower (urllib_parse.geturl parsed)) = true
             /\ (PyStr.contains "-bios" (urllib_parse.geturl parsed) = true
                 \/ PyStr.contains "-efi" (urllib_parse.geturl parsed) = true)).
Proof.
  destruct (check_preconditions_gate env args)
    as [Huid | [[Huid Hdev] | [[Huid [d [Hdev Hex]]] | [Huid Hpres]]]].
  - rewrite (check_preconditions_not_root env args st Huid).
    exists []. split; [reflexivity | left; reflexivity].
  - rewrite (check_preconditions_no_device env args st Huid Hdev).
    exists []. split; [reflexivity | left; reflexivity].
  - rewrite (check_preconditions_device_missing env args st d Huid Hdev Hex).
    exists []. split; [reflexivity | left; reflexivity].
  - pose proof Hpres as [d [Hdev Hex]].
    destruct (image_url_cases args) as [Hno | [u [Hurl Hne]]].
    + rewrite (check_preconditions_no_url env args st d Huid Hdev Hex Hno).
      exists []. split; [reflexivity | left; reflexivity].
    + destruct (check_preconditions_url_cases env args st d u
                  Huid Hdev Hex Hurl Hne)
        as [[_ Hr] | [parsed [Hp [[_ Hr] | [[_ [_ Hr]] | [[_ [_ [_ [_ Hr]]]]
                                                      | [Hs [He [Hc Hr]]]]]]]]];
        rewrite Hr; cbn [snd].
      1-4: exists []; split; [reflexivity | left; reflexivity].
      exists [Ev_urlopen (urllib_parse.geturl parsed)].
      split; [reflexivity |]. right. exists u, parsed.
      repeat (split; [first [reflexivity | assumption] |]). exact Hc.
Qed.

(** X4. For a supplied URL that passes the prefix and suffix tests, the
    check fails with the naming error if and only if the rendered URL
    contains neither [-bios] nor [-efi]; the marker is looked for in the
    whole URL and in the case given. *)
Theorem check_preconditions_bad_naming (env : Env) (args : Args) (st : State)
    (d u : string) (parsed : urllib_parse.ParseResult) :
  getuid env = 0 ->
  dev_path args = Some d ->
  path_exists env (pathlib.str (pathlib.of_str d)) = true ->
  image_url args = Some u ->
  u <> "" ->
  urllib_parse.urlparse (bracketed_host_ok env) u = Some parsed ->
  PyStr.startswith "http" (PyStr.lower (urllib_parse.geturl parsed)) = true ->
  PyStr.endswith ".img" (PyStr.lower (urllib_parse.geturl parsed)) = true ->
  (fst (check_preconditions env args st)
   = Raise (AppException ARGUMENT_ERROR
              (URL_not_acceptable_file (urllib_parse.geturl parsed)))
   <-> PyStr.contains "-bios" (urllib_parse.geturl parsed) = false
       /\ PyStr.contains "-efi" (urllib_parse.geturl parsed) = false).
Proof.
  intros Huid Hdev Hex Hurl Hne Hp Hs He.
  destruct (check_preconditions_url_cases env args st d u Huid Hdev Hex Hurl Hne)
    as [[Hn _] | [parsed' [Hp' Hcases]]]; [congruence |].
  rewrite Hp in Hp'. injection Hp' as <-. cbv zeta in Hcases.
  destruct Hcases as [[Hs' _] | [[_ [He' _]] | [[_ [_ [Hb [Hf Hr]]]]
                                               | [_ [_ [Hc Hr]]]]]];
    try congruence.
  - rewrite Hr. cbn. split; [auto | reflexivity].
  - rewrite Hr. cbn. split.
    + intros H. destruct (urlopen env _); discriminate H.
    + intros [Hb Hf]. destruct Hc; congruence.
Qed.

Lemma check_preconditions_bad_naming_witness :
  option_map urllib_parse.geturl
    (urllib_parse.urlparse (bracketed_host_ok (env_edge Opened))
       "http://example.com/edge-EFI.img")
  = Some "http://example.com/edge-EFI.img"
  /\ fst (check_preconditions (env_edge Opened)
            (args_url "http://example.com/edge-EFI.img") (st_lines [] []))
     = Raise (AppException ARGUMENT_ERROR
                (URL_not_acceptable_file "http://example.com/edge-EFI.img")).
Proof.
  split; [reflexivity |].
  apply (proj2 (check_preconditions_bad_naming (env_edge Opened)
                  (args_url "http://example.com/edge-EFI.img") (st_lines [] [])
                  "/dev/sdb" "http://example.com/edge-EFI.img" _
                  eq_refl eq_refl eq_refl eq_refl ltac:(discriminate)
                  eq_refl eq_refl eq_refl)).
  split; reflexivity.
Defined.

(** X5. [check_preconditions] fails with the wrong-image-URL error exactly
    when the user is root, the device is present, a supplied URL passes the
    prefix, suffix and marker tests, and the one probe ends in [HTTPError],
    [URLError] or a timeout; the error carries the probed URL and what the
    probe raised. *)
Theorem check_preconditions_unreachable (env : Env) (args : Args) (st : State)
    (url : string) (e : UrlopenResult) :
  fst (check_preconditions env args st)
  = Raise (AppException ARGUMENT_ERROR (Wrong_USB_image_URL url e))
  <->
  getuid env = 0
  /\ device_present env args
  /\ (exists u parsed,
        image_url args = Some u /\ u <> ""
        /\ urllib_parse.urlparse (bracketed_host_ok env) u = Some parsed
        /\ url = urllib_parse.geturl parsed
        /\ PyStr.startswith "http" (PyStr.lower url) = true
        /\ PyStr.endswith ".img" (PyStr.lower url) = true
        /\ (PyStr.contains "-bios" url = true \/ PyStr.contains "-efi" url = true))
  /\ urlopen env url = e
  /\ (e = HTTPError \/ e = URLError \/ e = socket_timeout).
Proof.
  destruct (check_preconditions_gate env args)
    as [Huid | [[Huid Hdev] | [[Huid [d [Hdev Hex]]] | [Huid Hpres]]]].
  - rewrite (check_preconditions_not_root env args st Huid). cbn.
    split; [discriminate | intros [H _]; contradiction].
  - rewrite (check_preconditions_no_device env args st Huid Hdev). cbn.
    split; [discriminate | intros [_ [[d [H _]] _]]; congruence].
  - rewrite (check_preconditions_device_missing env args st d Huid Hdev Hex). cbn.
    split; [discriminate | intros [_ [[d' [H H']] _]]; congruence].
  - pose proof Hpres as [d [Hdev Hex]].
    destruct (image_url_cases args) as [Hno | [u [Hurl Hne]]].
    + rewrite (check_preconditions_no_url env args st d Huid Hdev Hex Hno). cbn.
      split; [discriminate |].
      intros [_ [_ [[u [p [H [Hne _]]]] _]]].
      destruct Hno as [Hno | Hno]; rewrite Hno in H; [discriminate |].
      injection H as <-. contradiction.
    + destruct (check_preconditions_url_cases env args st d u
                  Huid Hdev Hex Hurl Hne)
        as [[Hn Hr] | [parsed [Hp Hcases]]].
      * rewrite Hr. cbn. split; [discriminate |].
        intros [_ [_ [[u' [p [H [_ [Hp' _]]]]] _]]]. congruence.
      * cbv zeta in Hcases.
        assert (Hsame : forall u' p',
                  image_url args = Some u' ->
                  urllib_parse.urlparse (bracketed_host_ok env) u' = Some p' ->
                  p' = parsed) by (intros u' p' H1 H2; congruence).
        destruct Hcases as [[Hs Hr] | [[Hs [He Hr]] | [[Hs [He [Hb [Hf Hr]]]]
                                                      | [Hs [He [Hc Hr]]]]]];
          rewrite Hr; cbn [fst].
        -- split; [discriminate |].
           intros [_ [_ [[u' [p [H [_ [Hp' [-> [Hs' _]]]]]]] _]]].
           rewrite (Hsame u' p H Hp') in Hs'. congruence.
        -- split; [discriminate |].
           intros [_ [_ [[u' [p [H [_ [Hp' [-> [_ [He' _]]]]]]]] _]]].
           rewrite (Hsame u' p H Hp') in He'. congruence.
        -- split; [discriminate |].
           intros [_ [_ [[u' [p [H [_ [Hp' [-> [_ [_ Hc]]]]]]]] _]]].
           rewrite (Hsame u' p H Hp') in Hc. destruct Hc; congruence.
        -- split.
           ++ intros H.
              assert (Hurl_e : url = urllib_parse.geturl parsed
                               /\ urlopen env (urllib_parse.geturl parsed) = e
                               /\ (e = HTTPError \/ e = URLError \/ e = socket_timeout)).
              { destruct (urlopen env (urllib_parse.geturl parsed)) eqn:Eo;
                  try discriminate H; injection H as <- <-; auto. }
              destruct Hurl_e as [-> [Ho He3]].
              split; [exact Huid | split; [exact Hpres | split; [| split; assumption]]].
              exists u, parsed. repeat (split; [first [reflexivity | assumption] |]).
              exact Hc.
           ++ intros [_ [_ [[u' [p [H [_ [Hp' [-> _]]]]]] [Ho He3]]]].
              rewrite (Hsame u' p H Hp') in *. rewrite Ho.
              destruct He3 as [-> | [-> | ->]]; reflexivity.
Qed.

(** ** [int] reads back what [str] prints *)

Lemma digits_step (c : ascii) (t : string) (acc : Z) :
  PyStr.is_digit c = true ->
  PyInt.digits acc false (String c t)
  = PyInt.digits (10 * acc + PyInt.digit_value c) false t.
Proof. intros H. cbn [PyInt.digits]. rewrite H. reflexivity. Qed.

Ltac digit_value_now :=
  match goal with
  | |- context [PyInt.digit_value ?c] =>
      let v := eval vm_compute in (PyInt.digit_value c) in
      change (PyInt.digit_value c) with v
  end.

Lemma digits_string_of_uint (d : Decimal.uint) :
  forall acc : positive,
    PyInt.digits (Zpos acc) false (NilEmpty.string_of_uint d)
    = Some (Zpos (Pos.of_uint_acc d acc), "").
Proof.
  induction d; intros acc; cbn [NilEmpty.string_of_uint Pos.of_uint_acc];
    [reflexivity | ..];
    rewrite digits_step by reflexivity;
    match goal with
    | |- PyInt.digits ?z false _ = Some (Zpos (Pos.of_uint_acc _ ?a), _) =>
        replace z with (Zpos a) by (digit_value_now; lia)
    end; apply IHd.
Qed.

Lemma digits_zero_string_of_uint (d : Decimal.uint) :
  PyInt.digits 0 false (NilEmpty.string_of_uint d)
  = Some (Z.of_N (Pos.of_uint d), "").
Proof.
  induction d; cbn [NilEmpty.string_of_uint Pos.of_uint];
    [reflexivity | ..];
    rewrite digits_step by reflexivity;
    [ exact IHd | .. ];
    match goal with
    | |- PyInt.digits ?z false _ = Some (Z.of_N (Npos (Pos.of_uint_acc _ ?a)), _) =>
        replace z with (Zpos a) by (digit_value_now; lia)
    end; apply digits_string_of_uint.
Qed.

(** The decimal text of a positive number: what [int] makes of it. *)
Lemma int_string_of_pos (p : positive) :
  let s := NilEmpty.string_of_uint (Pos.to_uint p) in
  PyInt.skip_space s = s
  /\ PyInt.unsigned s = Some (Zpos p, "")
  /\ exists c t, s = String c t /\ PyStr.is_digit c = true.
Proof.
  intros s. subst s.
  pose proof (DecimalPos.Unsigned.of_to p) as Hof.
  pose proof (digits_zero_string_of_uint (Pos.to_uint p)) as Hd.
  rewrite Hof in Hd. cbn [Z.of_N] in Hd.
  destruct (Pos.to_uint p) as [| d | d | d | d | d | d | d | d | d | d] eqn:E;
    [ exfalso; exact (DecimalPos.Unsigned.to_uint_nonnil p E) | .. ];
    cbn [NilEmpty.string_of_uint] in *;
    (split; [reflexivity | split; [| eexists; eexists; split; reflexivity]]);
    rewrite digits_step in Hd by reflexivity; exact Hd.
Qed.

Lemma int_str_of_int (n : Z) : PyInt.int (str_of_int n) = Some n.
Proof.
  unfold str_of_int. destruct n as [| p | p]; [reflexivity | |].
  - cbn [Z.to_int NilZero.string_of_int].
    destruct (int_string_of_pos p) as [Hsk [Hun [c [t [Hs Hc]]]]].
    cbv zeta in *. unfold NilZero.string_of_uint.
    destruct (Pos.to_uint p) eqn:E;
      [ exfalso; exact (DecimalPos.Unsigned.to_uint_nonnil p E) | .. ];
      unfold PyInt.int; rewrite Hsk;
      cbn [NilEmpty.string_of_uint] in *;
      rewrite Hun; reflexivity.
  - cbn [Z.to_int NilZero.string_of_int].
    destruct (int_string_of_pos p) as [Hsk [Hun [c [t [Hs Hc]]]]].
    cbv zeta in *. unfold NilZero.string_of_uint.
    destruct (Pos.to_uint p) eqn:E;
      [ exfalso; exact (DecimalPos.Unsigned.to_uint_nonnil p E) | .. ];
      unfold PyInt.int; cbn [PyInt.skip_space];
      change (PyInt.is_space "-") with false; cbv iota;
      rewrite Hun; reflexivity.
Qed.

(** ** [get_config] *)

(** X7. [get_config] adds its log record and nothing else.  It returns a
    configuration exactly when the file can be read and its text parses,
    and then it is the parsed document; a missing or unreadable file is an
    [ARGUMENT_ERROR], a text that does not parse a [CONFIG_ERROR]. *)
Theorem get_config_result (env : Env) (file : string) (st : State) :
  let read := read_text env (pathlib.str (pathlib.of_str file)) in
  snd (get_config env file st)
  = logged st [Ev_log DEBUG "Trying to read and parse provisioning configuration file ('%s')"]
  /\ (forall cfg,
        fst (get_config env file st) = Ok cfg <->
        exists raw, read = Text raw /\ safe_load env raw = Some cfg)
  /\ (forall code msg,
        fst (get_config env file st) = Raise (AppException code msg) <->
        (code = ARGUMENT_ERROR /\ msg = Failed_to_load_config read
         /\ (read = FileNotFoundError \/ read = PermissionError))
        \/ (code = CONFIG_ERROR /\ msg = Config_file_format_error
            /\ exists raw, read = Text raw /\ safe_load env raw = None)).
Proof.
  intros read. subst read.
  unfold get_config, bind, log, emit, raise, ret, logged. cbn [stdin events child].
  destruct (read_text env _) as [raw | | | |] eqn:Er; cbn.
  - destruct (safe_load env raw) as [c |] eqn:El; cbn.
    + split; [reflexivity | split].
      * intros cfg. split.
        -- intros H. injection H as <-. exists raw. auto.
        -- intros [raw' [H1 H2]]. injection H1 as <-. congruence.
      * intros code msg. split; [discriminate |].
        intros [[_ [_ [H | H]]] | [_ [_ [raw' [H1 H2]]]]]; try discriminate.
        injection H1 as <-. congruence.
    + split; [reflexivity | split].
      * intros cfg. split; [discriminate |].
        intros [raw' [H1 H2]]. injection H1 as <-. congruence.
      * intros code msg. split.
        -- intros H. injection H as <- <-. right.
           split; [reflexivity | split; [reflexivity |]]. exists raw. auto.
        -- intros [[_ [_ [H | H]]] | [-> [-> _]]]; try discriminate. reflexivity.
  - split; [reflexivity | split].
    + intros cfg. split; [discriminate | intros [raw [H _]]; discriminate].
    + intros code msg. split.
      * intros H. injection H as <- <-. left. auto.
      * intros [[-> [-> _]] | [_ [_ [raw [H _]]]]]; [reflexivity | discriminate].
  - split; [reflexivity | split].
    + intros cfg. split; [discriminate | intros [raw [H _]]; discriminate].
    + intros code msg. split.
      * intros H. injection H as <- <-. left. auto.
      * intros [[-> [-> _]] | [_ [_ [raw [H _]]]]]; [reflexivity | discriminate].
  - split; [reflexivity | split].
    + intros cfg. split; [discriminate | intros [raw [H _]]; discriminate].
    + intros code msg. split; [discriminate |].
      intros [[_ [_ [H | H]]] | [_ [_ [raw [H _]]]]]; discriminate.
  - split; [reflexivity | split].
    + intros cfg. split; [discriminate | intros [raw [H _]]; discriminate].
    + intros code msg. split; [discriminate |].
      intros [[_ [_ [H | H]]] | [_ [_ [raw [H _]]]]]; discriminate.
Qed.

(** ** [choose_profile], interactive *)

(** The menu: one line for each name, numbered in order from [idx + 1]. *)
Lemma print_profiles_menu (l : list string) :
  forall idx st,
    exists prints,
      print_profiles idx l st = (Ok tt, logged st prints)
      /\ List.length prints = List.length l
      /\ forall k p,
           nth_error l k = Some p ->
           nth_error prints k
           = Some (Ev_print (str_of_int (idx + Z.of_nat k + 1) ++ ". " ++ p ++ nl)).
Proof.
  induction l as [| p more IH]; intros idx st.
  - exists []. split; [| split].
    + unfold logged. cbn. rewrite app_nil_r. destruct st. reflexivity.
    + reflexivity.
    + intros k q H. destruct k; discriminate H.
  - cbn [print_profiles]. unfold bind, print, emit.
    destruct (IH (idx + 1)
                (mkState (stdin st)
                   (events st ++ [Ev_print (str_of_int (idx + 1) ++ ". " ++ p ++ nl)])
                   (child st))) as [prints [Hrun [Hlen Hnth]]].
    exists (Ev_print (str_of_int (idx + 1) ++ ". " ++ p ++ nl) :: prints).
    rewrite Hrun. unfold logged. cbn [stdin events child].
    rewrite <- app_assoc. split; [reflexivity | split].
    + cbn. rewrite Hlen. reflexivity.
    + intros k q H. destruct k as [| k]; cbn [nth_error] in H |- *.
      * injection H as <-. change (Z.of_nat 0) with 0. rewrite Z.add_0_r.
        reflexivity.
      * rewrite (Hnth k q H).
        replace (idx + Z.of_nat (S k) + 1) with (idx + 1 + Z.of_nat k + 1) by lia.
        reflexivity.
Qed.

(** Everything [choose_profile] does when all-in-one is off. *)
Lemma choose_profile_interactive (config : Config) (st : State) :
  all_in_one (usb_images config) = false ->
  exists prints,
    List.length prints = List.length (profiles config)
    /\ (forall k p,
          nth_error (map name (profiles config)) k = Some p ->
          nth_error prints k
          = Some (Ev_print (str_of_int (Z.of_nat k + 1) ++ ". " ++ p ++ nl)))
    /\ let evs :=
         ([Ev_log DEBUG "Choosing OS profile based on configuration file ('%s')";
           Ev_log INFO ("All-in-one image generation set to false in config." ++ nl)]
          ++ prints
          ++ [Ev_input "Please choose which profile to flash: "])%list in
       choose_profile config st
       = match stdin st with
         | [] => (Raise EOFError, logged st evs)
         | line :: rest =>
             (match PyInt.int line with
              | None =>
                  Raise (AppException ARGUMENT_ERROR
                           (Wrong_profile_number_literal line))
              | Some profile_choice =>
                  if (profile_choice <? 1)
                     || (profile_choice >? Z.of_nat (List.length (profiles config)))
                  then Raise (AppException ARGUMENT_ERROR
                                (Wrong_profile_number profile_choice))
                  else match getitem (map name (profiles config))
                               (profile_choice - 1) with
                       | Some profile => Ok profile
                       | None => Raise IndexError
                       end
              end,
              mkState rest (events st ++ evs) (child st))
         end.
Proof.
  intros Hall.
  rewrite choose_profile_typed; cbv zeta. unfold bind, log, input, emit. cbn. rewrite Hall. cbn.
  match goal with
  | |- context [print_profiles 0 ?l ?s] =>
      destruct (print_profiles_menu l 0 s) as [prints [Hrun [Hlen Hnth]]];
      rewrite Hrun
  end.
  exists prints. rewrite length_map in Hlen.
  split; [exact Hlen | split; [exact Hnth |]].
  unfold logged. cbn [stdin events child].
  rewrite <- !app_assoc. cbn [app].
  destruct (stdin st) as [| line rest]; [reflexivity |].
  rewrite length_map.
  destruct (PyInt.int line) as [k |]; [| reflexivity].
  destruct ((k <? 1) || (k >? _)); [reflexivity |].
  destruct (getitem _ _); reflexivity.
Qed.

(** X8. The menu and the answer agree.  With all-in-one off, the profile
    at position [k] of the configured list (counted from 0) is shown on the
    menu line numbered [k + 1], and answering the prompt with that number,
    as printed, selects exactly that profile. *)
Theorem choose_profile_menu_round_trip (config : Config) (st : State)
    (k : nat) (profile : string) :
  all_in_one (usb_images config) = false ->
  nth_error (map name (profiles config)) k = Some profile ->
  In (Ev_print (str_of_int (Z.of_nat k + 1) ++ ". " ++ profile ++ nl))
     (events (snd (choose_profile config st)))
  /\ (forall rest,
        stdin st = str_of_int (Z.of_nat k + 1) :: rest ->
        fst (choose_profile config st) = Ok profile).
Proof.
  intros Hall Hk.
  destruct (choose_profile_interactive config st Hall)
    as [prints [Hlen [Hnth Hrun]]].
  cbv zeta in Hrun. split.
  - assert (Hin : In (Ev_print (str_of_int (Z.of_nat k + 1) ++ ". " ++ profile ++ nl))
                     prints)
      by (eapply nth_error_In; apply Hnth; exact Hk).
    rewrite Hrun. destruct (stdin st); cbn [snd logged events];
      rewrite !in_app_iff; tauto.
  - intros rest Hin. rewrite Hrun, Hin, int_str_of_int. cbn [fst].
    assert (Hlt : (k < List.length (profiles config))%nat).
    { rewrite <- (length_map name). apply nth_error_Some. congruence. }
    replace (Z.of_nat k + 1 <? 1) with false by (symmetry; apply Z.ltb_ge; lia).
    replace (Z.of_nat k + 1 >? Z.of_nat (List.length (profiles config)))
      with false by (symmetry; rewrite Z.gtb_ltb; apply Z.ltb_ge; lia).
    cbn [orb].
    destruct (getitem_in_range (map name (profiles config)) (Z.of_nat k + 1 - 1))
      as [p [Hget Hnth']]; [rewrite length_map; lia |].
    rewrite Hget.
    replace (Z.to_nat (Z.of_nat k + 1 - 1)) with k in Hnth' by lia.
    congruence.
Qed.

Lemma choose_profile_menu_round_trip_witness :
  nth_error (map name (profiles cfg_edge)) 1 = Some "cloud"
  /\ In (Ev_print ("2. cloud" ++ nl))
        (events (snd (choose_profile cfg_edge (st_lines ["2"; "efi"] []))))
  /\ fst (choose_profile cfg_edge (st_lines ["2"; "efi"] [])) = Ok "cloud".
Proof.
  split; [reflexivity |].
  destruct (choose_profile_menu_round_trip cfg_edge (st_lines ["2"; "efi"] [])
              1%nat "cloud" eq_refl eq_refl) as [Hmenu Hans].
  split; [exact Hmenu | exact (Hans ["efi"] eq_refl)].
Defined.

(** X9. Whatever is typed, a profile [choose_profile] returns is the
    literal ["all"] (all-in-one on) or one of the configured names
    (all-in-one off); with all-in-one off and no profile configured it
    cannot succeed. *)
Theorem choose_profile_value (config : Config) (st st' : State) (p : string) :
  choose_profile config st = (Ok p, st') ->
  (all_in_one (usb_images config) = true /\ p = "all")
  \/ (all_in_one (usb_images config) = false
      /\ In p (map name (profiles config))
      /\ profiles config <> []).
Proof.
  intros Hrun.
  destruct (all_in_one (usb_images config)) eqn:Hall.
  - left. split; [reflexivity |].
    revert Hrun. rewrite choose_profile_typed; cbv zeta. unfold bind, log, emit, ret. cbn.
    rewrite Hall. cbn. intros H. injection H as <- _. reflexivity.
  - right. split; [reflexivity |].
    destruct (choose_profile_interactive config st Hall)
      as [prints [_ [_ Hstep]]].
    cbv zeta in Hstep. rewrite Hstep in Hrun. clear Hstep.
    destruct (stdin st) as [| line rest]; [discriminate Hrun |].
    destruct (PyInt.int line) as [k |]; [| discriminate Hrun].
    destruct (Z.ltb_spec k 1) as [Hlo | Hlo]; [discriminate Hrun |].
    destruct (Z.gtb_spec k (Z.of_nat (List.length (profiles config))))
      as [Hhi | Hhi]; [discriminate Hrun |].
    cbn [orb] in Hrun.
    destruct (getitem_in_range (map name (profiles config)) (k - 1))
      as [q [Hget Hnth]]; [rewrite length_map; lia |].
    rewrite Hget in Hrun. injection Hrun as <- _.
    split; [eapply nth_error_In; exact Hnth |].
    intros Hnil. rewrite Hnil in Hhi. cbn in Hhi. lia.
Qed.

Lemma choose_profile_value_witness :
  choose_profile cfg_edge (st_lines ["1"] [])
  = (Ok "edge", snd (choose_profile cfg_edge (st_lines ["1"] [])))
  /\ In "edge" (map name (profiles cfg_edge)).
Proof.
  split; [reflexivity |].
  destruct (choose_profile_value cfg_edge (st_lines ["1"] []) _ "edge" eq_refl)
    as [[H _] | [_ [H _]]]; [discriminate H | exact H].
Defined.

(** ** [choose_bios] *)

(** Everything [choose_bios] does. *)
Lemma choose_bios_cases (config : Config) (st : State) :
  let usb_config := usb_images config in
  let log1 := Ev_log DEBUG "Choosing BIOS based on configuration file ('%s')" in
  let ask :=
    Ev_input "Which bios type image do you want write to USB? ('bios' or 'efi'): " in
  choose_bios config st
  = if negb (build usb_config) then
      (Raise (AppException CONFIG_ERROR Build_parameter_false), logged st [log1])
    else if bios usb_config && efi usb_config then
      match stdin st with
      | [] => (Raise EOFError, logged st [log1; ask])
      | bios_type :: rest =>
          (if negb (in_bios_efi bios_type)
           then Raise (AppException ARGUMENT_ERROR (Wrong_bios_type bios_type))
           else Ok bios_type,
           mkState rest (events st ++ [log1; ask]) (child st))
      end
    else if bios usb_config then (Ok "bios", logged st [log1])
    else if efi usb_config then (Ok "efi", logged st [log1])
    else (Raise (AppException CONFIG_ERROR Bios_type_not_recognized),
          logged st [log1]).
Proof.
  rewrite choose_bios_typed; cbv zeta. unfold input, bind, log, emit, raise, ret, logged.
  cbn [stdin events child].
  destruct (build (usb_images config)); cbn [negb]; [| reflexivity].
  destruct (bios (usb_images config)), (efi (usb_images config));
    cbn [andb]; try reflexivity.
  cbn [stdin events child].
  destruct (stdin st) as [| line rest]; cbn [stdin events child];
    rewrite <- app_assoc; [reflexivity |].
  destruct (in_bios_efi line); reflexivity.
Qed.

(** X10. [choose_bios] asks a question exactly when [build], [bios] and
    [efi] are all true, then once, taking one line if there is one; in every
    other configuration it decides without showing a prompt or reading
    input. *)
Theorem choose_bios_prompt (config : Config) (st : State) :
  let usb_config := usb_images config in
  let log1 := Ev_log DEBUG "Choosing BIOS based on configuration file ('%s')" in
  let ask :=
    Ev_input "Which bios type image do you want write to USB? ('bios' or 'efi'): " in
  (build usb_config && bios usb_config && efi usb_config = true ->
   events (snd (choose_bios config st)) = (events st ++ [log1; ask])%list
   /\ stdin (snd (choose_bios config st)) = tl (stdin st))
  /\ (build usb_config && bios usb_config && efi usb_config = false ->
      events (snd (choose_bios config st)) = (events st ++ [log1])%list
      /\ stdin (snd (choose_bios config st)) = stdin st).
Proof.
  cbv zeta. rewrite (choose_bios_cases config st). cbv zeta.
  destruct (build (usb_images config)), (bios (usb_images config)),
    (efi (usb_images config)); cbn [negb andb];
    (split; [intros H; try discriminate H | intros H; try discriminate H]);
    try (split; reflexivity).
  destruct (stdin st) eqn:E; cbn [fst snd logged stdin events];
    rewrite ?E; split; reflexivity.
Qed.

(** X11. With [build], [bios] and [efi] all true, the answer is compared
    verbatim with the two literals: a line that is neither ["bios"] nor
    ["efi"] (other case, surrounding blanks) is consumed and rejected with
    an [ARGUMENT_ERROR] that carries it. *)
Theorem choose_bios_rejects (config : Config) (st : State)
    (line : string) (rest : list string) :
  build (usb_images config) = true ->
  bios (usb_images config) = true ->
  efi (usb_images config) = true ->
  stdin st = line :: rest ->
  line <> "bios" ->
  line <> "efi" ->
  fst (choose_bios config st)
  = Raise (AppException ARGUMENT_ERROR (Wrong_bios_type line))
  /\ stdin (snd (choose_bios config st)) = rest.
Proof.
  intros Hb Hbios Hefi Hin Hn1 Hn2.
  rewrite (choose_bios_cases config st). cbv zeta.
  rewrite Hb, Hbios, Hefi, Hin. cbn [negb andb fst snd stdin].
  assert (Hno : in_bios_efi line = false).
  { unfold in_bios_efi. apply orb_false_iff.
    split; apply String.eqb_neq; assumption. }
  rewrite Hno. split; reflexivity.
Qed.

Lemma choose_bios_rejects_witness :
  stdin (st_lines ["EFI"; "efi"] []) = "EFI" :: ["efi"]
  /\ fst (choose_bios cfg_edge (st_lines ["EFI"; "efi"] []))
     = Raise (AppException ARGUMENT_ERROR (Wrong_bios_type "EFI"))
  /\ stdin (snd (choose_bios cfg_edge (st_lines ["EFI"; "efi"] []))) = ["efi"].
Proof.
  split; [reflexivity |].
  apply (choose_bios_rejects cfg_edge (st_lines ["EFI"; "efi"] []) "EFI" ["efi"]
           eq_refl eq_refl eq_refl eq_refl);
    discriminate.
Defined.

(** X12. [choose_bios] returns [b] exactly when [build] is true and either
    one of [bios], [efi] is true alone and [b] is its name, or both are
    true and [b], one of the two names, is the next line of input. *)
Theorem choose_bios_ok_iff (config : Config) (st : State) (b : string) :
  let usb_config := usb_images config in
  fst (choose_bios config st) = Ok b <->
  build usb_config = true
  /\ ((bios usb_config = true /\ efi usb_config = false /\ b = "bios")
      \/ (bios usb_config = false /\ efi usb_config = true /\ b = "efi")
      \/ (bios usb_config = true /\ efi usb_config = true
          /\ (b = "bios" \/ b = "efi")
          /\ exists rest, stdin st = b :: rest)).
Proof.
  cbv zeta. rewrite (choose_bios_cases config st). cbv zeta.
  destruct (build (usb_images config)), (bios (usb_images config)),
    (efi (usb_images config)); cbn [negb andb fst].
  2: { split.
       - intros H. injection H as <-. split; [reflexivity | left; auto].
       - intros [_ [[_ [_ ->]] | [[H _] | [_ [H _]]]]];
           [reflexivity | discriminate H | discriminate H]. }
  2: { split.
       - intros H. injection H as <-. split; [reflexivity | right; left; auto].
       - intros [_ [[H _] | [[_ [_ ->]] | [H _]]]];
           [discriminate H | reflexivity | discriminate H]. }
  2: { split; [discriminate |].
       intros [_ [[H _] | [[_ [H _]] | [H _]]]]; discriminate H. }
  2-5: split; [discriminate | intros [H _]; discriminate H].
  destruct (stdin st) as [| line rest]; cbn [fst].
  - split; [discriminate |].
    intros [_ [[_ [H _]] | [[H _] | [_ [_ [_ [r H]]]]]]]; discriminate H.
  - destruct (in_bios_efi line) eqn:E; cbn [negb].
    + split.
      * intros H. injection H as <-. split; [reflexivity |].
        right. right. repeat (split; [reflexivity |]).
        split; [apply in_bios_efi_spec; exact E | exists rest; reflexivity].
      * intros [_ [[_ [H _]] | [[H _] | [_ [_ [_ [r H]]]]]]];
          try discriminate H.
        injection H as <- _. reflexivity.
    + split; [discriminate |].
      intros [_ [[_ [H _]] | [[H _] | [_ [_ [Hb [r H]]]]]]];
        try discriminate H.
      injection H as <- _.
      unfold in_bios_efi in E. apply orb_false_iff in E.
      destruct E as [E1 E2]. apply String.eqb_neq in E1, E2.
      destruct Hb; contradiction.
Qed.

(** ** [generate_command] *)

(** X13. [generate_command] never changes the state.  It returns a command
    exactly when the artifact exists, and otherwise fails with a
    [RUNTIME_ERROR] that names the path it looked for. *)
Theorem generate_command_iff (env : Env) (config : Config)
    (dev_path : pathlib.Path) (profile bios : string) (st : State) :
  let artifact := image_path config profile bios in
  snd (generate_command env config dev_path profile bios st) = st
  /\ ((exists cmd, fst (generate_command env config dev_path profile bios st) = Ok cmd)
      <-> path_exists env (pathlib.str artifact) = true)
  /\ (fst (generate_command env config dev_path profile bios st)
      = Raise (AppException RUNTIME_ERROR (Installation_image_not_found artifact))
      <-> path_exists env (pathlib.str artifact) = false).
Proof.
  cbv zeta. rewrite generate_command_typed; cbv zeta. unfold image_path, raise, ret.
  destruct (path_exists env _); cbn.
  - split; [reflexivity | split].
    + split; [reflexivity | intros _; eexists; reflexivity].
    + split; discriminate.
  - split; [reflexivity | split].
    + split; [intros [cmd H]; discriminate H | discriminate].
    + split; reflexivity.
Qed.

Lemma of_str_absolute (t : string) :
  pathlib.root (pathlib.of_str (String "/" t)) <> "".
Proof.
  unfold pathlib.of_str, pathlib.splitroot.
  destruct (Nat.eqb _ 2); cbn; discriminate.
Qed.

(** X14. [usb_images.output_path] does not confine the image: when the
    profile name starts with a slash, the artifact path is the path the
    name itself spells, whatever the output path is, so any two
    configurations yield the same command. *)
Theorem generate_command_absolute_profile (env : Env) (config config' : Config)
    (dev_path : pathlib.Path) (t bios : string) (st : State) :
  image_path config (String "/" t) bios
  = pathlib.of_str (String "/" t ++ "-" ++ bios ++ ".img")
  /\ generate_command env config dev_path (String "/" t) bios st
     = generate_command env config' dev_path (String "/" t) bios st.
Proof.
  assert (Himg : forall c,
            image_path c (String "/" t) bios
            = pathlib.of_str (String "/" t ++ "-" ++ bios ++ ".img")).
  { intros c. unfold image_path, pathlib.truediv.
    cbn [append].
    match goal with
    | |- context [String.eqb (pathlib.root (pathlib.of_str (String "/" ?x))) ""] =>
        pose proof (of_str_absolute x) as Habs;
        apply String.eqb_neq in Habs; rewrite Habs
    end.
    reflexivity. }
  split; [apply Himg |].
  rewrite !generate_command_typed; cbv zeta. fold (image_path config (String "/" t) bios).
  fold (image_path config' (String "/" t) bios).
  rewrite !Himg. reflexivity.
Qed.

(** ** [run_flash_usb_script]: how the child ends *)

(** Polls that find the child running change nothing when there is no
    pipe to read. *)
Lemma poll_loop_None_skip (n : nat) (ticks : list Tick) (evs : list Event) :
  poll_loop None (repeat Poll_None n ++ ticks)%list evs = poll_loop None ticks evs.
Proof. induction n as [| n IH]; [reflexivity | exact IH]. Qed.

(** Without a pipe the loop adds no effect, and it ends in one of three
    ways. *)
Lemma poll_loop_None_result (ticks : list Tick) (evs : list Event) :
  exists r t,
    poll_loop None ticks evs = (r, t, evs)
    /\ (r = Pending \/ (exists rc, r = Ok rc) \/ r = Raise KeyboardInterrupt).
Proof.
  induction ticks as [| tick ticks IH].
  - exists Pending, []. split; [reflexivity | left; reflexivity].
  - destruct tick as [| rc |]; cbn [poll_loop].
    + exact IH.
    + exists (Ok rc), ticks. split; [reflexivity | right; left; eauto].
    + exists (Raise KeyboardInterrupt), ticks.
      split; [reflexivity | right; right; reflexivity].
Qed.

(** [run_flash_usb_script] once the working directory was found and the
    shell was started, in terms of what the polling loop reports. *)
Lemma run_flash_usb_script_spawned (env : Env) (config : Config) (cmd : Cmd)
    (st : State) (p : Z) :
  let workdir := pathlib.of_str (dest_dir (esp config)) in
  let evs0 := (events st ++ [Ev_log DEBUG "Running command: %s";
                             Ev_Popen (command_line cmd) (pathlib.str workdir)])%list in
  path_exists env (pathlib.str workdir) = true ->
  spawn env (command_line cmd) (pathlib.str workdir) = Some p ->
  run_flash_usb_script env config cmd st
  = match poll_loop None (child st) evs0 with
    | (Pending, t, evs) => (Pending, mkState (stdin st) evs t)
    | (Killed sig, t, evs) => (Killed sig, mkState (stdin st) evs t)
    | (Ok rc, t, evs) =>
        (if negb (rc =? 0)
         then Raise (RuntimeError (Running_ESP_script_failed workdir))
         else Ok tt,
         mkState (stdin st) (evs ++ [Ev_wait p]) t)
    | (Raise KeyboardInterrupt, t, evs) =>
        match getpgid env p with
        | Some pgid =>
            if pgid =? getpgrp env then
              (Killed SIGTERM,
               mkState (stdin st) (evs ++ [Ev_killpg pgid SIGTERM]) t)
            else
              (Raise (RuntimeError "Interrupted by user"),
               mkState (stdin st) (evs ++ [Ev_killpg pgid SIGTERM; Ev_wait p]) t)
        | None =>
            (Raise ProcessLookupError, mkState (stdin st) (evs ++ [Ev_wait p]) t)
        end
    | (Raise e, t, evs) => (Raise e, mkState (stdin st) (evs ++ [Ev_wait p]) t)
    end.
Proof.
  intros workdir evs0 Hex Hspawn. subst workdir evs0.
  rewrite run_flash_usb_script_typed; cbv zeta. fold (command_line cmd). rewrite Hex.
  unfold bind, log, Popen, emit, with_proc, except_KeyboardInterrupt,
    wait_child, killpg_of, raise, ret, bind.
  cbn. rewrite Hspawn. cbn. rewrite <- app_assoc. cbn [app].
  destruct (poll_loop None (child st) _) as [[r t] evs].
  destruct r as [rc | e | | sig]; cbn.
  - destruct (negb (rc =? 0)); reflexivity.
  - destruct e; cbn; try reflexivity.
    destruct (getpgid env p) as [pgid |]; cbn; [| reflexivity].
    destruct (pgid =? getpgrp env); cbn; [| rewrite <- app_assoc]; reflexivity.
  - reflexivity.
  - reflexivity.
Qed.

(** X15. Once the child is spawned and seen to exit, its status decides:
    status 0 gives success, any other status the [RuntimeError] that points
    to [builder.log] in the working directory.  Either way the effects are
    the log record, the spawn and the closing wait; no signal is sent. *)
Theorem run_flash_usb_script_exit_status (env : Env) (config : Config)
    (cmd : Cmd) (st : State) (p rc : Z) (n : nat) (rest : list Tick) :
  let workdir := pathlib.of_str (dest_dir (esp config)) in
  path_exists env (pathlib.str workdir) = true ->
  spawn env (command_line cmd) (pathlib.str workdir) = Some p ->
  child st = (repeat Poll_None n ++ Poll_exit rc :: rest)%list ->
  run_flash_usb_script env config cmd st
  = (if rc =? 0 then Ok tt
     else Raise (RuntimeError (Running_ESP_script_failed workdir)),
     mkState (stdin st)
       (events st ++ [Ev_log DEBUG "Running command: %s";
                      Ev_Popen (command_line cmd) (pathlib.str workdir);
                      Ev_wait p])
       rest).
Proof.
  intros workdir Hex Hspawn Hchild. subst workdir.
  rewrite (run_flash_usb_script_spawned env config cmd st p Hex Hspawn).
  rewrite Hchild, poll_loop_None_skip. cbn [poll_loop].
  rewrite <- app_assoc. cbn [app].
  destruct (rc =? 0); reflexivity.
Qed.

Lemma run_flash_usb_script_exit_status_witness :
  path_exists (env_edge Opened) "esp" = true
  /\ run_flash_usb_script (env_edge Opened) cfg_edge
       (Cmd_list ["./flashusb.sh"; "-d"; "/dev/sdb"])
       (st_lines [] [Poll_None; Poll_exit 3; Poll_None])
     = (Raise (RuntimeError
                 "Running ESP script failed. Inspect output and logs in esp/builder.log"),
        mkState []
          [Ev_log DEBUG "Running command: %s";
           Ev_Popen "./flashusb.sh -d /dev/sdb" "esp";
           Ev_wait 4242]
          [Poll_None]).
Proof.
  split; [reflexivity |].
  exact (run_flash_usb_script_exit_status (env_edge Opened) cfg_edge
           (Cmd_list ["./flashusb.sh"; "-d"; "/dev/sdb"])
           (st_lines [] [Poll_None; Poll_exit 3; Poll_None])
           4242 3 1%nat [Poll_None] eq_refl eq_refl eq_refl).
Defined.

(** X16. The supervisor has no timeout of its own: as long as every poll
    finds the child running, it neither returns nor raises, sends no signal
    and does not close the handle. *)
Theorem run_flash_usb_script_no_timeout (env : Env) (config : Config)
    (cmd : Cmd) (st : State) (p : Z) (n : nat) :
  let workdir := pathlib.of_str (dest_dir (esp config)) in
  path_exists env (pathlib.str workdir) = true ->
  spawn env (command_line cmd) (pathlib.str workdir) = Some p ->
  child st = repeat Poll_None n ->
  run_flash_usb_script env config cmd st
  = (Pending,
     mkState (stdin st)
       (events st ++ [Ev_log DEBUG "Running command: %s";
                      Ev_Popen (command_line cmd) (pathlib.str workdir)])
       []).
Proof.
  intros workdir Hex Hspawn Hchild. subst workdir.
  rewrite (run_flash_usb_script_spawned env config cmd st p Hex Hspawn).
  rewrite Hchild, <- (app_nil_r (repeat Poll_None n)), poll_loop_None_skip.
  reflexivity.
Qed.

Lemma run_flash_usb_script_no_timeout_witness :
  path_exists (env_edge Opened) "esp" = true
  /\ fst (run_flash_usb_script (env_edge Opened) cfg_edge
            (Cmd_str "./flashusb.sh -d /dev/sdb")
            (st_lines [] [Poll_None; Poll_None; Poll_None]))
     = Pending.
Proof.
  split; [reflexivity |].
  rewrite (run_flash_usb_script_no_timeout (env_edge Opened) cfg_edge
             (Cmd_str "./flashusb.sh -d /dev/sdb")
             (st_lines [] [Poll_None; Poll_None; Poll_None])
             4242 3%nat eq_refl eq_refl eq_refl).
  reflexivity.
Defined.

(** X17. An interrupt that arrives when the process table no longer knows
    the child ends in [ProcessLookupError]: no signal is sent, and the
    outcome is neither the interrupted-by-user error nor the
    child-execution failure. *)
Theorem run_flash_usb_script_interrupt_child_gone (env : Env) (config : Config)
    (cmd : Cmd) (st : State) (p : Z) (n : nat) (rest : list Tick) :
  let workdir := pathlib.of_str (dest_dir (esp config)) in
  path_exists env (pathlib.str workdir) = true ->
  spawn env (command_line cmd) (pathlib.str workdir) = Some p ->
  getpgid env p = None ->
  child st = (repeat Poll_None n ++ SIGINT :: rest)%list ->
  run_flash_usb_script env config cmd st
  = (Raise ProcessLookupError,
     mkState (stdin st)
       (events st ++ [Ev_log DEBUG "Running command: %s";
                      Ev_Popen (command_line cmd) (pathlib.str workdir);
                      Ev_wait p])
       rest).
Proof.
  intros workdir Hex Hspawn Hpg Hchild. subst workdir.
  rewrite (run_flash_usb_script_spawned env config cmd st p Hex Hspawn).
  rewrite Hchild, poll_loop_None_skip. cbn [poll_loop]. rewrite Hpg.
  rewrite <- app_assoc. reflexivity.
Qed.

Lemma run_flash_usb_script_interrupt_child_gone_witness :
  getpgid env_child_gone 4242 = None
  /\ fst (run_flash_usb_script env_child_gone cfg_edge
            (Cmd_str "./flashusb.sh -d /dev/sdb")
            (st_lines [] [Poll_None; SIGINT]))
     = Raise ProcessLookupError.
Proof.
  split; [reflexivity |].
  rewrite (run_flash_usb_script_interrupt_child_gone env_child_gone cfg_edge
             (Cmd_str "./flashusb.sh -d /dev/sdb")
             (st_lines [] [Poll_None; SIGINT])
             4242 1%nat [] eq_refl eq_refl eq_refl eq_refl).
  reflexivity.
Defined.

(** X18. What [run_flash_usb_script] does to the outside.  It never reads
    standard input and never prints: the handle has no pipe, so no line of
    the child is echoed.  The only signal it sends is [SIGTERM], to the
    process group [os.getpgid] reports for the child it spawned, right after
    the log record and the spawn.  When that group is the script's own, the
    signal ends the script there: nothing is raised and the handle is not
    closed.  The interrupted-by-user error is raised only after [SIGTERM]
    went to another group; and a run that returns, or that reports the
    failure of the child, has sent no signal: its effects are the log
    record, the spawn and the closing wait. *)
Theorem run_flash_usb_script_effects (env : Env) (config : Config) (cmd : Cmd)
    (st : State) :
  let r := run_flash_usb_script env config cmd st in
  let workdir := pathlib.of_str (dest_dir (esp config)) in
  let log1 := Ev_log DEBUG "Running command: %s" in
  let popen := Ev_Popen (command_line cmd) (pathlib.str workdir) in
  stdin (snd r) = stdin st
  /\ exists evs,
       events (snd r) = (events st ++ evs)%list
       /\ (forall text, ~ In (Ev_print text) evs)
       /\ (forall pgid sig,
             In (Ev_killpg pgid sig) evs ->
             sig = SIGTERM
             /\ (exists p,
                   spawn env (command_line cmd) (pathlib.str workdir) = Some p
                   /\ getpgid env p = Some pgid)
             /\ exists tail,
                  evs = ([log1; popen; Ev_killpg pgid SIGTERM] ++ tail)%list
                  /\ (pgid = getpgrp env -> fst r = Killed SIGTERM /\ tail = []))
       /\ (InterruptedByUser (fst r) ->
             exists pgid,
               pgid <> getpgrp env /\ In (Ev_killpg pgid SIGTERM) evs)
       /\ (fst r = Ok tt \/ ChildExecutionFailed (fst r) ->
             exists p, evs = [log1; popen; Ev_wait p]).
Proof.
  cbv zeta.
  destruct (path_exists env (pathlib.str (pathlib.of_str (dest_dir (esp config)))))
    eqn:Hex.
  - destruct (spawn env (command_line cmd)
                (pathlib.str (pathlib.of_str (dest_dir (esp config))))) as [p |]
      eqn:Hspawn.
    + rewrite (run_flash_usb_script_spawned env config cmd st p Hex Hspawn).
      destruct (poll_loop_None_result (child st)
                  (events st ++ [Ev_log DEBUG "Running command: %s";
                                 Ev_Popen (command_line cmd)
                                   (pathlib.str (pathlib.of_str (dest_dir (esp config))))])%list)
        as [r [t [Hloop Hr]]].
      rewrite Hloop.
      destruct Hr as [-> | [[rc ->] | ->]].
      * (* still polling *)
        split; [reflexivity |]. eexists. split; [reflexivity |].
        cbn [fst]. split; [| split; [| split]].
        -- intros text [H | [H | []]]; discriminate H.
        -- intros pgid sig [H | [H | []]]; discriminate H.
        -- intros H. discriminate H.
        -- intros [H | [w H]]; discriminate H.
      * (* the child exited *)
        split; [reflexivity |].
        exists [Ev_log DEBUG "Running command: %s";
                Ev_Popen (command_line cmd)
                  (pathlib.str (pathlib.of_str (dest_dir (esp config))));
                Ev_wait p].
        cbn [fst snd events]. rewrite <- app_assoc. cbn [app].
        split; [reflexivity |]. split; [| split; [| split]].
        -- intros text [H | [H | [H | []]]]; discriminate H.
        -- intros pgid sig [H | [H | [H | []]]]; discriminate H.
        -- intros H. destruct (negb (rc =? 0)); discriminate H.
        -- intros _. exists p. reflexivity.
      * (* the interrupt *)
        destruct (getpgid env p) as [g |] eqn:Hpg.
        -- destruct (Z.eqb_spec g (getpgrp env)) as [Heq | Hne].
           ++ (* its own group *)
              split; [reflexivity |].
              exists [Ev_log DEBUG "Running command: %s";
                      Ev_Popen (command_line cmd)
                        (pathlib.str (pathlib.of_str (dest_dir (esp config))));
                      Ev_killpg g SIGTERM].
              cbn [fst snd events]. rewrite <- app_assoc. cbn [app].
              split; [reflexivity |]. split; [| split; [| split]].
              ** intros text [H | [H | [H | []]]]; discriminate H.
              ** intros pgid sig [H | [H | [H | []]]]; try discriminate H.
                 injection H as <-. destruct sig.
                 split; [reflexivity | split; [exists p; auto |]].
                 exists []. repeat split.
              ** intros H. discriminate H.
              ** intros [H | [w H]]; discriminate H.
           ++ (* another group *)
              split; [reflexivity |].
              exists [Ev_log DEBUG "Running command: %s";
                      Ev_Popen (command_line cmd)
                        (pathlib.str (pathlib.of_str (dest_dir (esp config))));
                      Ev_killpg g SIGTERM; Ev_wait p].
              cbn [fst snd events]. rewrite <- app_assoc. cbn [app].
              split; [reflexivity |]. split; [| split; [| split]].
              ** intros text [H | [H | [H | [H | []]]]]; discriminate H.
              ** intros pgid sig [H | [H | [H | [H | []]]]]; try discriminate H.
                 injection H as <-. destruct sig.
                 split; [reflexivity | split; [exists p; auto |]].
                 exists [Ev_wait p]. split; [reflexivity |].
                 intros Heq. contradiction.
              ** intros _. exists g. split; [exact Hne |]. right. right. left.
                 reflexivity.
              ** intros [H | [w H]]; discriminate H.
        -- (* the child is gone *)
           split; [reflexivity |].
           exists [Ev_log DEBUG "Running command: %s";
                   Ev_Popen (command_line cmd)
                     (pathlib.str (pathlib.of_str (dest_dir (esp config))));
                   Ev_wait p].
           cbn [fst snd events]. rewrite <- app_assoc. cbn [app].
           split; [reflexivity |]. split; [| split; [| split]].
           ** intros text [H | [H | [H | []]]]; discriminate H.
           ** intros pgid sig [H | [H | [H | []]]]; discriminate H.
           ** intros H. discriminate H.
           ** intros [H | [w H]]; discriminate H.
    + (* the shell could not be started *)
      rewrite run_flash_usb_script_typed; cbv zeta.
      fold (command_line cmd). rewrite Hex.
      unfold bind, log, Popen, emit, raise. cbn. rewrite Hspawn. cbn.
      split; [reflexivity |].
      exists [Ev_log DEBUG "Running command: %s";
              Ev_Popen (command_line cmd)
                (pathlib.str (pathlib.of_str (dest_dir (esp config))))].
      rewrite <- app_assoc. cbn [app].
      split; [reflexivity |]. split; [| split; [| split]].
      * intros text [H | [H | []]]; discriminate H.
      * intros pgid sig [H | [H | []]]; discriminate H.
      * intros H. discriminate H.
      * intros [H | [w H]]; discriminate H.
  - (* no working directory *)
    rewrite run_flash_usb_script_typed; cbv zeta.
    fold (command_line cmd). rewrite Hex. cbn.
    split; [reflexivity |].
    exists []. rewrite app_nil_r.
    split; [reflexivity |]. split; [| split; [| split]].
    + intros text [].
    + intros pgid sig [].
    + intros H. discriminate H.
    + intros [H | [w H]]; discriminate H.
Qed.

(** ** [main] as a whole *)

Lemma bind_ok_inv {A B} (m : M A) (k : A -> M B) (st st' : State) (b : B) :
  bind m k st = (Ok b, st') ->
  exists a s1, m st = (Ok a, s1) /\ k a s1 = (Ok b, st').
Proof.
  unfold bind. destruct (m st) as [[a | e | | sig] s1]; try discriminate.
  intros H. exists a, s1. split; [reflexivity | exact H].
Qed.

Lemma bind_raise_inv {A B} (m : M A) (k : A -> M B) (st st' : State) (e : exn) :
  bind m k st = (Raise e, st') ->
  m st = (Raise e, st')
  \/ exists a s1, m st = (Ok a, s1) /\ k a s1 = (Raise e, st').
Proof.
  unfold bind. destruct (m st) as [[a | e' | | sig] s1]; try discriminate.
  - intros H. right. exists a, s1. split; [reflexivity | exact H].
  - intros H. left. injection H as -> ->. reflexivity.
Qed.

(** X6. An empty [--url] is no URL: the run of [main] is the run without
    the option, checks, prompts and command included. *)
Theorem main_empty_url (env : Env) (args : Args) (st : State) :
  image_url args = Some "" ->
  main env args st
  = main env (mkArgs (dev_path args) None (config_file args) (debug args)) st.
Proof.
  intros Hurl. unfold main, check_preconditions.
  cbn [dev_path image_url config_file debug]. rewrite Hurl. reflexivity.
Qed.

Lemma main_empty_url_witness :
  image_url (args_url "") = Some ""
  /\ fst (main (env_edge Opened) (args_url "")
            (st_lines ["1"; "efi"] [Poll_exit 0]))
     = fst (main (env_edge Opened) (mkArgs (Some "/dev/sdb") None "config.yml" false)
              (st_lines ["1"; "efi"] [Poll_exit 0])).
Proof.
  split; [reflexivity |].
  rewrite (main_empty_url (env_edge Opened) (args_url "")
             (st_lines ["1"; "efi"] [Poll_exit 0]) eq_refl).
  reflexivity.
Defined.

(** ** Documents that are not well typed

    On any document a function of the script either stops at a subscript,
    with [KeyError] or [TypeError], or runs as it does on the typed view of
    the document. *)

Lemma names_view (entries : list yaml.Profile) (st : State) :
  (fst (names entries st) = Raise KeyError
   \/ fst (names entries st) = Raise TypeError)
  \/ names entries st
     = (Ok (map (fun p => yaml.value "" (yaml.name p)) entries), st).
Proof.
  induction entries as [| [n] more IH]; [right; reflexivity |].
  cbn [names map yaml.name].
  destruct n as [s | |]; cbn [subscript yaml.value];
    [| left; left; reflexivity | left; right; reflexivity].
  rewrite bind_ret_l. unfold bind.
  destruct IH as [[H | H] | H].
  - left. left. destruct (names more st) as [r s1]. cbn [fst] in *.
    subst r. reflexivity.
  - left. right. destruct (names more st) as [r s1]. cbn [fst] in *.
    subst r. reflexivity.
  - right. rewrite H. reflexivity.
Qed.

Lemma choose_profile_view (config : yaml.Document) (st : State) :
  (fst (choose_profile config st) = Raise KeyError
   \/ fst (choose_profile config st) = Raise TypeError)
  \/ choose_profile config st = choose_profile (view config) st.
Proof.
  rewrite choose_profile_typed. cbv zeta.
  remember (choose_profile config st) as r eqn:Hr.
  unfold choose_profile, log in Hr |- *.
  destruct config as [usb entries e].
  rewrite bind_emit in Hr |- *. cbn [yaml.usb_images yaml.profiles] in Hr.
  set (s1 := mkState _ _ _) in *.
  destruct usb as [usb_config | |]; cbn [subscript] in Hr;
    [| subst r; left; left; reflexivity | subst r; left; right; reflexivity].
  rewrite bind_ret_l in Hr.
  destruct entries as [entries | |]; cbn [subscript] in Hr;
    [| subst r; left; left; reflexivity | subst r; left; right; reflexivity].
  rewrite bind_ret_l in Hr. unfold bind at 1 in Hr.
  destruct (names_view entries s1) as [[H | H] | H].
  1: destruct (names entries s1) as [r1 s2]; cbn [fst] in H; subst r1 r;
    left; left; reflexivity.
  1: destruct (names entries s1) as [r1 s2]; cbn [fst] in H; subst r1 r;
    left; right; reflexivity.
  rewrite H in Hr. clear H.
  destruct usb_config as [a b bi ef o].
  destruct a as [a | |]; cbn [subscript yaml.all_in_one] in Hr;
    [| subst r; left; left; reflexivity | subst r; left; right; reflexivity].
  right. rewrite bind_ret_l in Hr. subst r.
  unfold view. cbn [yaml.value yaml.usb_images yaml.profiles yaml.all_in_one
                    usb_images profiles all_in_one].
  rewrite map_map. cbn [name]. reflexivity.
Qed.

Lemma choose_bios_view (config : yaml.Document) (st : State) :
  (fst (choose_bios config st) = Raise KeyError
   \/ fst (choose_bios config st) = Raise TypeError)
  \/ choose_bios config st = choose_bios (view config) st.
Proof.
  rewrite choose_bios_typed. cbv zeta.
  remember (choose_bios config st) as r eqn:Hr.
  unfold choose_bios, and_, log in Hr |- *.
  destruct config as [usb entries e].
  rewrite bind_emit in Hr |- *. cbn [yaml.usb_images] in Hr.
  set (s1 := mkState _ _ _) in *.
  destruct usb as [[a b bi ef o] | |]; cbn [subscript] in Hr;
    [| subst r; left; left; reflexivity | subst r; left; right; reflexivity].
  rewrite bind_ret_l in Hr. cbn [yaml.build yaml.bios yaml.efi] in Hr.
  unfold view. cbn [yaml.value yaml.usb_images yaml.build yaml.bios yaml.efi
                    usb_images build bios efi].
  destruct b as [[|] | |]; cbn [subscript yaml.value] in Hr |- *;
    [| subst r; right; reflexivity
     | subst r; left; left; reflexivity | subst r; left; right; reflexivity].
  rewrite bind_ret_l in Hr. cbn [negb] in Hr |- *.
  destruct bi as [[|] | |]; cbn [subscript yaml.value] in Hr |- *;
    [| | subst r; left; left; reflexivity | subst r; left; right; reflexivity].
  - rewrite !bind_ret_l in Hr.
    destruct ef as [[|] | |]; cbn [subscript yaml.value andb] in Hr |- *;
      subst r;
      [right; reflexivity | right; reflexivity
       | left; left; reflexivity | left; right; reflexivity].
  - rewrite !bind_ret_l in Hr.
    destruct ef as [[|] | |]; cbn [subscript yaml.value andb] in Hr |- *;
      subst r;
      [right; reflexivity | right; reflexivity
       | left; left; reflexivity | left; right; reflexivity].
Qed.

Lemma generate_command_view (env : Env) (config : yaml.Document)
    (dev : pathlib.Path) (profile b : string) (st : State) :
  (fst (generate_command env config dev profile b st) = Raise KeyError
   \/ fst (generate_command env config dev profile b st) = Raise TypeError)
  \/ generate_command env config dev profile b st
     = generate_command env (view config) dev profile b st.
Proof.
  rewrite generate_command_typed. cbv zeta.
  remember (generate_command env config dev profile b st) as r eqn:Hr.
  unfold generate_command in Hr.
  destruct config as [usb entries e].
  destruct usb as [[a bu bi ef o] | |]; cbn [subscript yaml.usb_images] in Hr;
    [| subst r; left; left; reflexivity | subst r; left; right; reflexivity].
  rewrite bind_ret_l in Hr. cbn [yaml.output_path] in Hr.
  destruct o as [o | |]; cbn [subscript] in Hr;
    [| subst r; left; left; reflexivity | subst r; left; right; reflexivity].
  right. subst r. reflexivity.
Qed.

Lemma run_flash_usb_script_view (env : Env) (config : yaml.Document)
    (cmd : Cmd) (st : State) :
  (fst (run_flash_usb_script env config cmd st) = Raise KeyError
   \/ fst (run_flash_usb_script env config cmd st) = Raise TypeError)
  \/ run_flash_usb_script env config cmd st
     = run_flash_usb_script env (view config) cmd st.
Proof.
  rewrite run_flash_usb_script_typed. cbv zeta.
  remember (run_flash_usb_script env config cmd st) as r eqn:Hr.
  unfold run_flash_usb_script in Hr.
  destruct config as [usb entries e].
  destruct e as [[d] | |]; cbn [subscript yaml.esp] in Hr;
    [| subst r; left; left; reflexivity | subst r; left; right; reflexivity].
  rewrite bind_ret_l in Hr. cbn [yaml.dest_dir] in Hr.
  destruct d as [d | |]; cbn [subscript] in Hr;
    [| subst r; left; left; reflexivity | subst r; left; right; reflexivity].
  right. subst r. reflexivity.
Qed.

(** A run that did not stop at a subscript is a run on the typed view. *)
Ltac to_view H step :=
  let Hv := fresh "Hv" in
  destruct step as [[Hv | Hv] | Hv];
  [rewrite H in Hv; discriminate Hv
  | rewrite H in Hv; discriminate Hv
  | rewrite Hv in H; clear Hv].

(** What the steps of [main] have done when they return. *)
Lemma choose_profile_ok_inv (config : Config) (st st' : State) (p : string) :
  choose_profile config st = (Ok p, st') ->
  if all_in_one (usb_images config) then p = "all"
  else exists k, nth_error (map name (profiles config)) k = Some p.
Proof.
  intros Hrun.
  destruct (all_in_one (usb_images config)) eqn:Hall.
  - revert Hrun. rewrite choose_profile_typed; cbv zeta. unfold bind, log, emit, ret. cbn.
    rewrite Hall. cbn. intros H. injection H as <- _. reflexivity.
  - destruct (choose_profile_interactive config st Hall)
      as [prints [_ [_ Hstep]]].
    cbv zeta in Hstep. rewrite Hstep in Hrun. clear Hstep.
    destruct (stdin st) as [| line rest]; [discriminate Hrun |].
    destruct (PyInt.int line) as [k |]; [| discriminate Hrun].
    destruct (Z.ltb_spec k 1) as [Hlo | Hlo]; [discriminate Hrun |].
    destruct (Z.gtb_spec k (Z.of_nat (List.length (profiles config))))
      as [Hhi | Hhi]; [discriminate Hrun |].
    cbn [orb] in Hrun.
    destruct (getitem_in_range (map name (profiles config)) (k - 1))
      as [q [Hget Hnth]]; [rewrite length_map; lia |].
    rewrite Hget in Hrun. injection Hrun as <- _.
    exists (Z.to_nat (k - 1)). exact Hnth.
Qed.

Lemma choose_bios_ok_inv (config : Config) (st st' : State) (b : string) :
  choose_bios config st = (Ok b, st') -> b = "bios" \/ b = "efi".
Proof.
  rewrite (choose_bios_cases config st). cbv zeta.
  destruct (build (usb_images config)); cbn [negb]; [| discriminate].
  destruct (bios (usb_images config)), (efi (usb_images config)); cbn [andb];
    try discriminate.
  - destruct (stdin st) as [| line rest]; [discriminate |].
    destruct (in_bios_efi line) eqn:E; cbn [negb]; [| discriminate].
    intros H. injection H as <- _. apply in_bios_efi_spec. exact E.
  - intros H. injection H as <- _. left. reflexivity.
  - intros H. injection H as <- _. right. reflexivity.
Qed.

Lemma generate_command_ok_inv (env : Env) (config : Config)
    (dev : pathlib.Path) (profile b : string) (st st' : State)
    (cmd : list string) :
  generate_command env config dev profile b st = (Ok cmd, st') ->
  path_exists env (pathlib.str (image_path config profile b)) = true
  /\ cmd = ["./flashusb.sh"; "-d"; pathlib.str dev;
            "-i"; "../" ++ pathlib.str (image_path config profile b);
            "-b"; b].
Proof.
  rewrite generate_command_typed; cbv zeta. unfold raise, ret. fold (image_path config profile b).
  destruct (path_exists env _); cbn [negb]; [| discriminate].
  intros H. injection H as <- _. split; reflexivity.
Qed.

Lemma get_config_ok_inv (env : Env) (file : string) (st st' : State)
    (cfg : yaml.Document) :
  get_config env file st = (Ok cfg, st') ->
  exists raw,
    read_text env (pathlib.str (pathlib.of_str file)) = Text raw
    /\ safe_load env raw = Some cfg.
Proof.
  unfold get_config, bind, log, emit, raise, ret.
  destruct (read_text env _) as [raw | | | |] eqn:Er; try discriminate.
  destruct (safe_load env raw) as [c |] eqn:El; [| discriminate].
  intros H. injection H as <- _. exists raw. split; [reflexivity | exact El].
Qed.

Lemma run_flash_usb_script_ok_inv (env : Env) (config : Config) (cmd : Cmd)
    (st st' : State) :
  run_flash_usb_script env config cmd st = (Ok tt, st') ->
  let workdir := pathlib.str (pathlib.of_str (dest_dir (esp config))) in
  exists p,
    spawn env (command_line cmd) workdir = Some p
    /\ events st'
       = (events st ++ [Ev_log DEBUG "Running command: %s";
                        Ev_Popen (command_line cmd) workdir;
                        Ev_wait p])%list.
Proof.
  intros Hrun workdir. subst workdir.
  destruct (path_exists env (pathlib.str (pathlib.of_str (dest_dir (esp config)))))
    eqn:Hex.
  2: { rewrite run_flash_usb_script_typed in Hrun; cbv zeta in Hrun. rewrite Hex in Hrun.
       discriminate Hrun. }
  destruct (spawn env (command_line cmd)
              (pathlib.str (pathlib.of_str (dest_dir (esp config))))) as [p |]
    eqn:Hspawn.
  2: { rewrite run_flash_usb_script_typed in Hrun; cbv zeta in Hrun. fold (command_line cmd) in Hrun.
       rewrite Hex in Hrun. unfold bind, log, Popen, emit, raise in Hrun.
       cbn in Hrun. rewrite Hspawn in Hrun. discriminate Hrun. }
  rewrite (run_flash_usb_script_spawned env config cmd st p Hex Hspawn) in Hrun.
  destruct (poll_loop_None_result (child st)
              (events st ++ [Ev_log DEBUG "Running command: %s";
                             Ev_Popen (command_line cmd)
                               (pathlib.str (pathlib.of_str (dest_dir (esp config))))])%list)
    as [r [t [Hloop Hr]]].
  rewrite Hloop in Hrun.
  destruct Hr as [-> | [[rc ->] | ->]]; [discriminate Hrun | |].
  - exists p. split; [reflexivity |].
    destruct (negb (rc =? 0)); [discriminate Hrun |].
    injection Hrun as <-. cbn [events]. rewrite <- app_assoc. reflexivity.
  - destruct (getpgid env p) as [g |]; [| discriminate Hrun].
    destruct (g =? getpgrp env); discriminate Hrun.
Qed.

(** The profile and BIOS questions followed by the command builder, as
    [main] chains them. *)
Lemma profile_mode_command (env : Env) (cfg : yaml.Document)
    (dev : pathlib.Path) (st st' : State) (cmd : list string) :
  (profile <- choose_profile cfg ;;
   bios <- choose_bios cfg ;;
   generate_command env cfg dev profile bios) st = (Ok cmd, st') ->
  exists profile b,
    cmd = ["./flashusb.sh"; "-d"; pathlib.str dev;
           "-i"; "../" ++ pathlib.str (image_path (view cfg) profile b);
           "-b"; b]
    /\ path_exists env (pathlib.str (image_path (view cfg) profile b)) = true
    /\ (b = "bios" \/ b = "efi")
    /\ (profile = "all" \/ In profile (map name (profiles (view cfg)))).
Proof.
  intros Hcmd.
  apply bind_ok_inv in Hcmd. destruct Hcmd as [profile [s1 [Hprof Hcmd]]].
  apply bind_ok_inv in Hcmd. destruct Hcmd as [b [s2 [Hbios Hcmd]]].
  to_view Hprof (choose_profile_view cfg st).
  to_view Hbios (choose_bios_view cfg s1).
  to_view Hcmd (generate_command_view env cfg dev profile b s2).
  exists profile, b.
  destruct (generate_command_ok_inv env (view cfg) dev profile b s2 st' cmd Hcmd)
    as [Hex ->].
  split; [reflexivity | split; [exact Hex | split]].
  - exact (choose_bios_ok_inv (view cfg) s1 s2 b Hbios).
  - pose proof (choose_profile_ok_inv (view cfg) st s1 profile Hprof) as Hp.
    destruct (all_in_one (usb_images (view cfg))); [left; exact Hp |].
    destruct Hp as [k Hk]. right. eapply nth_error_In. exact Hk.
Qed.

(** X19. What a successful run was.  If [main] returns, it returns
    [NO_ERROR]; the preconditions held; the configuration was read from the
    file and parsed; and the last effects are the spawn of one command in
    the working directory of that configuration and the wait that closes
    it.  The command is the direct-URL form when a URL was given; otherwise
    it flashes [../{output_path}/{profile}-{bios}.img], a file that exists,
    for a BIOS type that is ["bios"] or ["efi"] and a profile that is
    ["all"] or a configured name.  The entries of the document are read
    through its typed view: a run that returns has found every entry it
    subscripted. *)
Theorem main_success (env : Env) (args : Args) (st st' : State) (c : Codes) :
  main env args st = (Ok c, st') ->
  c = NO_ERROR
  /\ fst (check_preconditions env args st) = Ok tt
  /\ exists d raw cfg cmd p evs,
       dev_path args = Some d
       /\ read_text env (pathlib.str (pathlib.of_str (config_file args))) = Text raw
       /\ safe_load env raw = Some cfg
       /\ events st'
          = (evs ++ [Ev_log DEBUG "Running command: %s";
                     Ev_Popen (PyStr.join " " cmd)
                       (pathlib.str (pathlib.of_str (dest_dir (esp (view cfg)))));
                     Ev_wait p])%list
       /\ spawn env (PyStr.join " " cmd)
            (pathlib.str (pathlib.of_str (dest_dir (esp (view cfg))))) = Some p
       /\ ((exists url,
              image_url args = Some url /\ url <> ""
              /\ cmd = ["./flashusb.sh"; "-d"; pathlib.str (pathlib.of_str d);
                        "-u"; url])
           \/ ((image_url args = None \/ image_url args = Some "")
               /\ exists profile b,
                    cmd = ["./flashusb.sh"; "-d"; pathlib.str (pathlib.of_str d);
                           "-i";
                           "../" ++ pathlib.str (image_path (view cfg) profile b);
                           "-b"; b]
                    /\ path_exists env
                         (pathlib.str (image_path (view cfg) profile b)) = true
                    /\ (b = "bios" \/ b = "efi")
                    /\ (profile = "all"
                        \/ In profile (map name (profiles (view cfg)))))).
Proof.
  intros Hmain. unfold main in Hmain.
  apply bind_ok_inv in Hmain. destruct Hmain as [[] [s1 [Hcheck Hmain]]].
  apply bind_ok_inv in Hmain. destruct Hmain as [[] [s2 [_ Hmain]]].
  apply bind_ok_inv in Hmain. destruct Hmain as [cfg [s3 [Hcfg Hmain]]].
  destruct (dev_path args) as [d |] eqn:Hdev; [| discriminate Hmain].
  cbv zeta in Hmain.
  apply bind_ok_inv in Hmain. destruct Hmain as [cmd [s4 [Hcmd Hmain]]].
  apply bind_ok_inv in Hmain. destruct Hmain as [[] [s5 [Hrun Hret]]].
  injection Hret as <- <-.
  split; [reflexivity | split; [rewrite Hcheck; reflexivity |]].
  destruct (get_config_ok_inv env (config_file args) s2 s3 cfg Hcfg)
    as [raw [Hread Hload]].
  to_view Hrun (run_flash_usb_script_view env cfg (Cmd_list cmd) s4).
  destruct (run_flash_usb_script_ok_inv env (view cfg) (Cmd_list cmd) s4 s5 Hrun)
    as [p [Hspawn Hev]].
  cbn [command_line] in Hspawn, Hev.
  exists d, raw, cfg, cmd, p, (events s4).
  repeat (split; [first [reflexivity | assumption] |]).
  (* the command *)
  destruct (image_url args) as [[| ch t] |] eqn:Hurl.
  2: { left. exists (String ch t). injection Hcmd as <- _.
       repeat split; [discriminate]. }
  all: right; split; [auto |];
    exact (profile_mode_command env cfg (pathlib.of_str d) s3 s4 cmd Hcmd).
Qed.

Lemma main_success_witness :
  main (env_edge Opened) (mkArgs (Some "/dev/sdb") None "config.yml" false)
    (st_lines ["1"; "efi"] [Poll_None; Poll_exit 0])
  = (Ok NO_ERROR,
     snd (main (env_edge Opened) (mkArgs (Some "/dev/sdb") None "config.yml" false)
            (st_lines ["1"; "efi"] [Poll_None; Poll_exit 0])))
  /\ fst (check_preconditions (env_edge Opened)
            (mkArgs (Some "/dev/sdb") None "config.yml" false)
            (st_lines ["1"; "efi"] [Poll_None; Poll_exit 0]))
     = Ok tt.
Proof.
  assert (Hrun :
    main (env_edge Opened) (mkArgs (Some "/dev/sdb") None "config.yml" false)
      (st_lines ["1"; "efi"] [Poll_None; Poll_exit 0])
    = (Ok NO_ERROR,
       snd (main (env_edge Opened)
              (mkArgs (Some "/dev/sdb") None "config.yml" false)
              (st_lines ["1"; "efi"] [Poll_None; Poll_exit 0]))))
    by (vm_compute; reflexivity).
  split; [exact Hrun |].
  exact (proj1 (proj2 (main_success _ _ _ _ _ Hrun))).
Defined.

(** ** What [main] can raise *)

Lemma raises_bind {A B} (Q : exn -> Prop) (m : M A) (k : A -> M B) :
  raises Q m -> (forall a, raises Q (k a)) -> raises Q (bind m k).
Proof.
  intros Hm Hk st e st' H. apply bind_raise_inv in H.
  destruct H as [H | [a [s1 [_ H]]]]; [exact (Hm _ _ _ H) | exact (Hk a _ _ _ H)].
Qed.

Lemma raises_bind_never {A B} (Q : exn -> Prop) (m : M A) (k : A -> M B) :
  raises Q m ->
  (forall st a st', m st <> (Ok a, st')) ->
  raises Q (bind m k).
Proof.
  intros Hm Hnever st e st' H. apply bind_raise_inv in H.
  destruct H as [H | [a [s1 [H _]]]]; [exact (Hm _ _ _ H) |].
  exfalso. exact (Hnever _ _ _ H).
Qed.

Lemma raises_ret {A} (Q : exn -> Prop) (a : A) : raises Q (ret a).
Proof. intros st e st' H. discriminate H. Qed.

Lemma raises_emit (Q : exn -> Prop) (ev : Event) : raises Q (emit ev).
Proof. intros st e st' H. discriminate H. Qed.

Lemma raises_raise {A} (Q : exn -> Prop) (e : exn) : Q e -> raises Q (@raise A e).
Proof. intros He st e' st' H. injection H as <- _. exact He. Qed.

Lemma raises_check_preconditions (env : Env) (args : Args) :
  raises (main_failure env args) (check_preconditions env args).
Proof.
  intros st e st' H.
  destruct (check_preconditions_gate env args)
    as [Huid | [[Huid Hdev] | [[Huid [d [Hdev Hex]]] | [Huid [d [Hdev Hex]]]]]].
  - rewrite (check_preconditions_not_root env args st Huid) in H.
    injection H as <- _. left. auto.
  - rewrite (check_preconditions_no_device env args st Huid Hdev) in H.
    injection H as <- _. right. left. auto.
  - rewrite (check_preconditions_device_missing env args st d Huid Hdev Hex) in H.
    injection H as <- _. right. right. exists d. auto.
  - destruct (image_url_cases args) as [Hno | [u [Hurl Hne]]].
    + rewrite (check_preconditions_no_url env args st d Huid Hdev Hex Hno) in H.
      discriminate H.
    + destruct (check_preconditions_url_cases env args st d u
                  Huid Hdev Hex Hurl Hne)
        as [[_ Hr] | [parsed [_ [[_ Hr] | [[_ [_ Hr]] | [[_ [_ [_ [_ Hr]]]]
                                                     | [_ [_ [_ Hr]]]]]]]]];
        rewrite Hr in H.
      * injection H as <- _. exact I.
      * injection H as <- _. left. eauto.
      * injection H as <- _. right. left. eauto.
      * injection H as <- _. right. right. left. eauto.
      * destruct (urlopen env _); try discriminate H; injection H as <- _;
          try exact I; right; right; right; left; eauto.
Qed.

Lemma raises_get_config (env : Env) (args : Args) (file : string) :
  raises (main_failure env args) (get_config env file).
Proof.
  intros st e st'. unfold get_config, bind, log, emit, raise, ret.
  destruct (read_text env _) as [raw | | | |] eqn:Er.
  - destruct (safe_load env raw); [discriminate |].
    intros H. injection H as <- _. left. reflexivity.
  - intros H. injection H as <- _. do 4 right. left. eauto.
  - intros H. injection H as <- _. do 4 right. left. eauto.
  - intros H. injection H as <- _. exact I.
  - intros H. injection H as <- _. exact I.
Qed.

(** A subscript that raises gives no [AppException]. *)
Ltac raises_on_view H step :=
  let Hv := fresh "Hv" in
  destruct step as [[Hv | Hv] | Hv];
  [rewrite H in Hv; injection Hv as ->; exact I
  | rewrite H in Hv; injection Hv as ->; exact I
  | rewrite Hv in H; clear Hv].

Lemma raises_choose_profile (env : Env) (args : Args) (document : yaml.Document) :
  raises (main_failure env args) (choose_profile document).
Proof.
  intros st e st' H.
  raises_on_view H (choose_profile_view document st).
  remember (view document) as config eqn:Hconfig. clear Hconfig.
  destruct (all_in_one (usb_images config)) eqn:Hall.
  - revert H. rewrite choose_profile_typed; cbv zeta. unfold bind, log, emit, ret. cbn.
    rewrite Hall. cbn. discriminate.
  - destruct (choose_profile_interactive config st Hall)
      as [prints [_ [_ Hstep]]].
    cbv zeta in Hstep. rewrite Hstep in H. clear Hstep.
    destruct (stdin st) as [| line rest]; [injection H as <- _; exact I |].
    destruct (PyInt.int line) as [k |];
      [| injection H as <- _; do 5 right; left; eauto].
    destruct (Z.ltb_spec k 1) as [Hlo | Hlo];
      [injection H as <- _; do 6 right; left; eauto |].
    destruct (Z.gtb_spec k (Z.of_nat (List.length (profiles config))))
      as [Hhi | Hhi]; [injection H as <- _; do 6 right; left; eauto |].
    cbn [orb] in H.
    destruct (getitem_in_range (map name (profiles config)) (k - 1))
      as [q [Hget _]]; [rewrite length_map; lia |].
    rewrite Hget in H. discriminate H.
Qed.

Lemma raises_choose_bios (env : Env) (args : Args) (document : yaml.Document) :
  raises (main_failure env args) (choose_bios document).
Proof.
  intros st e st' H.
  raises_on_view H (choose_bios_view document st).
  remember (view document) as config eqn:Hconfig. clear Hconfig.
  revert H. rewrite (choose_bios_cases config st). cbv zeta.
  destruct (build (usb_images config)); cbn [negb].
  2: { intros H. injection H as <- _. right. left. reflexivity. }
  destruct (bios (usb_images config)), (efi (usb_images config)); cbn [andb];
    try discriminate.
  - destruct (stdin st) as [| line rest].
    + intros H. injection H as <- _. exact I.
    + destruct (in_bios_efi line); cbn [negb]; [discriminate |].
      intros H. injection H as <- _. do 7 right. eauto.
  - intros H. injection H as <- _. right. right. left. reflexivity.
Qed.

Lemma raises_generate_command (env : Env) (args : Args)
    (document : yaml.Document) (dev : pathlib.Path) (profile b : string) :
  raises (main_failure env args) (generate_command env document dev profile b).
Proof.
  intros st e st' H.
  raises_on_view H (generate_command_view env document dev profile b st).
  remember (view document) as config eqn:Hconfig. clear Hconfig.
  revert H. rewrite generate_command_typed; cbv zeta. unfold raise, ret.
  destruct (path_exists env _) eqn:Hex; cbn [negb]; [discriminate |].
  intros H. injection H as <- _. eexists. split; [reflexivity | exact Hex].
Qed.

Lemma raises_run_flash_usb_script (env : Env) (args : Args)
    (document : yaml.Document) (cmd : Cmd) :
  raises (main_failure env args) (run_flash_usb_script env document cmd).
Proof.
  intros st e st' H.
  raises_on_view H (run_flash_usb_script_view env document cmd st).
  remember (view document) as config eqn:Hconfig. clear Hconfig.
  destruct (path_exists env (pathlib.str (pathlib.of_str (dest_dir (esp config)))))
    eqn:Hex.
  2: { rewrite run_flash_usb_script_typed in H; cbv zeta in H.
       rewrite Hex in H. cbn in H.
       injection H as <- _. do 3 right. eexists. eexists.
       split; [reflexivity | exact Hex]. }
  destruct (spawn env (command_line cmd)
              (pathlib.str (pathlib.of_str (dest_dir (esp config))))) as [p |]
    eqn:Hspawn.
  2: { rewrite run_flash_usb_script_typed in H; cbv zeta in H.
       fold (command_line cmd) in H.
       rewrite Hex in H. unfold bind, log, Popen, emit, raise in H.
       cbn in H. rewrite Hspawn in H. cbn in H. injection H as <- _. exact I. }
  rewrite (run_flash_usb_script_spawned env config cmd st p Hex Hspawn) in H.
  destruct (poll_loop_None_result (child st)
              (events st ++ [Ev_log DEBUG "Running command: %s";
                             Ev_Popen (command_line cmd)
                               (pathlib.str (pathlib.of_str (dest_dir (esp config))))])%list)
    as [r [t [Hloop Hr]]].
  rewrite Hloop in H.
  destruct Hr as [-> | [[rc ->] | ->]]; [discriminate H | |].
  - destruct (negb (rc =? 0)); [| discriminate H].
    injection H as <- _. exact I.
  - destruct (getpgid env p) as [g |]; [| injection H as <- _; exact I].
    destruct (g =? getpgrp env); [discriminate H |].
    injection H as <- _. exact I.
Qed.

Lemma raises_main (env : Env) (args : Args) :
  raises (main_failure env args) (main env args).
Proof.
  unfold main.
  destruct (dev_path args) as [d |] eqn:Hdev.
  - apply raises_bind; [apply raises_check_preconditions | intros _].
    apply raises_bind; [apply raises_emit | intros _].
    apply raises_bind; [apply raises_get_config | intros cfg].
    cbv zeta.
    apply raises_bind.
    + destruct (image_url args) as [[| c t] |]; try apply raises_ret.
      all: apply raises_bind; [apply raises_choose_profile | intros profile];
        apply raises_bind; [apply raises_choose_bios | intros b];
        apply raises_generate_command.
    + intros cmd.
      apply raises_bind; [apply raises_run_flash_usb_script | intros _].
      apply raises_ret.
  - (* without a device path the checks never pass *)
    apply raises_bind_never; [apply raises_check_preconditions |].
    intros st a st' H.
    destruct (Z.eq_dec (getuid env) 0) as [Huid | Huid].
    + rewrite (check_preconditions_no_device env args st Huid Hdev) in H.
      discriminate H.
    + rewrite (check_preconditions_not_root env args st Huid) in H.
      discriminate H.
Qed.

(** X20. The [AppException]s [main] lets out, and what each one means.
    None carries [NO_ERROR].  [MISSING_PREREQUISITE] means the user is not
    root or the device path is absent or does not exist; [RUNTIME_ERROR]
    means the image artifact named in the message does not exist;
    [CONFIG_ERROR] is a configuration that does not parse, a disabled
    build, no BIOS type, or a working directory that does not exist;
    [ARGUMENT_ERROR] is a bad URL, an unreadable configuration file or a
    rejected answer.  This holds for every document the loader may return;
    what else leaves [main] ([KeyError] or [TypeError] from a document that
    lacks an entry, the supervisor's [RuntimeError], exceptions of the
    libraries) is not an [AppException] and is not classified here. *)
Theorem main_raises (env : Env) (args : Args) (st : State)
    (code : Codes) (msg : Msg) :
  fst (main env args st) = Raise (AppException code msg) ->
  main_failure env args (AppException code msg).
Proof.
  intros H. destruct (main env args st) as [r st'] eqn:Hmain.
  cbn [fst] in H. subst r.
  exact (raises_main env args st _ st' Hmain).
Qed.

Lemma main_raises_witness :
  fst (main env_no_workdir (args_url "http://example.com/edge-efi.img")
         (st_lines [] [Poll_exit 0]))
  = Raise (AppException CONFIG_ERROR
             (Workdir_does_not_exist (pathlib.of_str "./esp")
                "./flashusb.sh -d /dev/sdb -u http://example.com/edge-efi.img"))
  /\ path_exists env_no_workdir (pathlib.str (pathlib.of_str "./esp")) = false.
Proof.
  assert (Hrun :
    fst (main env_no_workdir (args_url "http://example.com/edge-efi.img")
           (st_lines [] [Poll_exit 0]))
    = Raise (AppException CONFIG_ERROR
               (Workdir_does_not_exist (pathlib.of_str "./esp")
                  "./flashusb.sh -d /dev/sdb -u http://example.com/edge-efi.img")))
    by (vm_compute; reflexivity).
  split; [exact Hrun |].
  pose proof (main_raises _ _ _ _ _ Hrun) as Hfail. cbn [main_failure] in Hfail.
  destruct Hfail as [H | [H | [H | [w [c [H Hex]]]]]]; try discriminate H.
  injection H as <- _. exact Hex.
Defined.

(** ** [run_main] *)

Lemma main_ok_code (env : Env) (args : Args) (st st' : State) (c : Codes) :
  main env args st = (Ok c, st') -> c = NO_ERROR.
Proof.
  intros Hmain. unfold main in Hmain.
  apply bind_ok_inv in Hmain. destruct Hmain as [[] [s1 [_ Hmain]]].
  apply bind_ok_inv in Hmain. destruct Hmain as [[] [s2 [_ Hmain]]].
  apply bind_ok_inv in Hmain. destruct Hmain as [cfg [s3 [_ Hmain]]].
  destruct (dev_path args) as [d |]; [| discriminate Hmain].
  cbv zeta in Hmain.
  apply bind_ok_inv in Hmain. destruct Hmain as [cmd [s4 [_ Hmain]]].
  apply bind_ok_inv in Hmain. destruct Hmain as [[] [s5 [_ Hret]]].
  injection Hret as <- _. reflexivity.
Qed.

(** X21. How the process ends.  [run_main] exits with [NO_ERROR] exactly
    when [main] returned, and then nothing is logged as an error; it exits
    with another code exactly when [main] raised an [AppException] with
    that code, whose message is logged, with a traceback exactly in debug
    mode.  Whatever else [main] raises is not caught: the supervisor's
    [RuntimeError]s for a failed child and for an interrupted run, and the
    [TypeError] of an empty configuration file, end the process as uncaught
    exceptions, not with an exit code of the table.  A script that a signal
    has ended does not exit by itself at all. *)
Theorem run_main_exit (env : Env) (args : Args) (st : State) :
  match fst (run_main env args st) with
  | SystemExit code reported traceback =>
      (code = NO_ERROR /\ reported = None /\ traceback = false
       /\ fst (main env args st) = Ok NO_ERROR)
      \/ (code <> NO_ERROR /\ traceback = debug args
          /\ exists msg,
               reported = Some msg
               /\ fst (main env args st) = Raise (AppException code msg))
  | Uncaught e =>
      fst (main env args st) = Raise e
      /\ (forall code msg, e <> AppException code msg)
  | Signalled sig => fst (main env args st) = Killed sig
  | Never => fst (main env args st) = Pending
  end
  /\ (forall e,
        fst (main env args st) = Raise e ->
        (forall code msg, e <> AppException code msg) ->
        fst (run_main env args st) = Uncaught e).
Proof.
  unfold run_main.
  destruct (main env args st) as [[c | e | | sig] st'] eqn:Hmain; cbn [fst].
  - split; [| intros e H; discriminate H].
    left. rewrite (main_ok_code env args st st' c Hmain). auto.
  - split.
    + pose proof (raises_main env args st e st' Hmain) as Hfail.
      destruct e as [code msg | | | | | | | | | | | |]; cbn [fst main_failure] in *;
        try (split; [reflexivity | discriminate]).
      right. split; [| split; [reflexivity | exists msg; split; reflexivity]].
      intros ->. exact Hfail.
    + intros e' H Hno. injection H as <-.
      destruct e as [code msg | | | | | | | | | | | |]; try reflexivity.
      exfalso. exact (Hno code msg eq_refl).
  - split; [reflexivity | intros e H; discriminate H].
  - split; [reflexivity | intros e H; discriminate H].
Qed.

Lemma run_main_exit_witness :
  fst (main env_empty_config (args_url "http://example.com/edge-efi.img")
         (st_lines [] [Poll_exit 0]))
  = Raise TypeError
  /\ fst (run_main env_empty_config (args_url "http://example.com/edge-efi.img")
            (st_lines [] [Poll_exit 0]))
     = Uncaught TypeError.
Proof.
  assert (Hrun :
    fst (main env_empty_config (args_url "http://example.com/edge-efi.img")
           (st_lines [] [Poll_exit 0]))
    = Raise TypeError)
    by (vm_compute; reflexivity).
  split; [exact Hrun |].
  exact (proj2 (run_main_exit env_empty_config
                  (args_url "http://example.com/edge-efi.img")
                  (st_lines [] [Poll_exit 0]))
           TypeError Hrun ltac:(intros code msg; discriminate)).
Defined.

(** ** End of input *)

Lemma choose_profile_all_run (config : Config) (st : State) :
  all_in_one (usb_images config) = true ->
  exists st1,
    choose_profile config st = (Ok "all", st1) /\ stdin st1 = stdin st.
Proof.
  intros Hall. rewrite choose_profile_typed; cbv zeta. unfold bind, log, emit, ret. cbn.
  rewrite Hall. cbn. eexists. split; reflexivity.
Qed.

Lemma adds_refl (P : Event -> Prop) (st : State) : adds P st st.
Proof. exists []. rewrite app_nil_r. split; constructor. Qed.

Lemma adds_trans (P : Event -> Prop) (st1 st2 st3 : State) :
  adds P st1 st2 -> adds P st2 st3 -> adds P st1 st3.
Proof.
  intros [evs1 [He1 Hp1]] [evs2 [He2 Hp2]].
  exists (evs1 ++ evs2)%list. split.
  - rewrite He2, He1, app_assoc. reflexivity.
  - apply Forall_app. split; assumption.
Qed.

Lemma adds_events (P : Event -> Prop) (st st' : State) (evs : list Event) :
  events st' = (events st ++ evs)%list -> Forall P evs -> adds P st st'.
Proof. intros He Hp. exists evs. split; assumption. Qed.

Lemma frame_adds (P : Event -> Prop) (st st' : State) :
  frame P st st' -> adds P st st'.
Proof. intros [_ H]. exact H. Qed.

(** The lines of the menu are prints. *)
Lemma menu_lines_are_prints (names : list string) (prints : list Event) :
  List.length prints = List.length names ->
  (forall k p,
     nth_error names k = Some p ->
     nth_error prints k
     = Some (Ev_print (str_of_int (Z.of_nat k + 1) ++ ". " ++ p ++ nl))) ->
  Forall not_Popen prints.
Proof.
  intros Hlen Hnth. apply Forall_forall. intros e Hin.
  apply In_nth_error in Hin. destruct Hin as [k Hk].
  assert (Hlt : (k < List.length names)%nat)
    by (rewrite <- Hlen; apply nth_error_Some; congruence).
  destruct (nth_error names k) as [p |] eqn:E;
    [| apply nth_error_None in E; lia].
  rewrite (Hnth k p E) in Hk. injection Hk as <-.
  intros cmd cwd. discriminate.
Qed.

(** The questions of profile mode, asked at the end of input. *)
Lemma questions_at_end_of_input (env : Env) (cfg : Config) (dev : pathlib.Path)
    (st : State) :
  stdin st = [] ->
  all_in_one (usb_images cfg) = false
  \/ (build (usb_images cfg) = true /\ bios (usb_images cfg) = true
      /\ efi (usb_images cfg) = true) ->
  exists st',
    (profile <- choose_profile cfg ;;
     bios <- choose_bios cfg ;;
     generate_command env cfg dev profile bios) st
    = (Raise EOFError, st')
    /\ adds not_Popen st st'.
Proof.
  intros Hin Hask.
  destruct (all_in_one (usb_images cfg)) eqn:Hall.
  - destruct Hask as [Hask | [Hb [Hbios Hefi]]]; [discriminate Hask |].
    unfold bind at 1.
    assert (Hprof :
      choose_profile cfg st
      = (Ok "all",
         logged st
           [Ev_log DEBUG "Choosing OS profile based on configuration file ('%s')";
            Ev_log INFO "All-in-one image generation set to true in config. Using all-in-one image for specified bios."])).
    { rewrite choose_profile_typed; cbv zeta. unfold bind, log, emit, ret, logged. cbn.
      rewrite Hall. cbn. rewrite <- app_assoc. reflexivity. }
    rewrite Hprof. unfold bind at 1.
    rewrite choose_bios_cases. cbv zeta.
    rewrite Hb, Hbios, Hefi. cbn [negb andb logged stdin]. rewrite Hin.
    eexists. split; [reflexivity |].
    eapply adds_events.
    + unfold logged. cbn [events]. rewrite <- app_assoc. reflexivity.
    + repeat constructor; intros cmd cwd; discriminate.
  - destruct (choose_profile_interactive cfg st Hall)
      as [prints [Hlen [Hnth Hstep]]].
    cbv zeta in Hstep. unfold bind at 1. rewrite Hstep, Hin.
    eexists. split; [reflexivity |].
    eapply adds_events; [reflexivity |].
    repeat (apply Forall_cons; [intros cmd cwd; discriminate |]).
    apply Forall_app. split.
    + apply (menu_lines_are_prints (map name (profiles cfg)));
        [rewrite length_map; exact Hlen | exact Hnth].
    + repeat constructor. intros cmd cwd. discriminate.
Qed.

Lemma main_end_of_input (env : Env) (args : Args) (st : State)
    (raw : string) (cfg : Config) :
  image_url args = None \/ image_url args = Some "" ->
  fst (check_preconditions env args st) = Ok tt ->
  read_text env (pathlib.str (pathlib.of_str (config_file args))) = Text raw ->
  safe_load env raw = Some (typed cfg) ->
  stdin st = [] ->
  all_in_one (usb_images cfg) = false
  \/ (build (usb_images cfg) = true /\ bios (usb_images cfg) = true
      /\ efi (usb_images cfg) = true) ->
  exists st',
    main env args st = (Raise EOFError, st') /\ adds not_Popen st st'.
Proof.
  intros Hurl Hcheck Hread Hload Hin Hask.
  (* the device path is there, since the checks passed *)
  assert (Hdev : exists d, dev_path args = Some d).
  { destruct (check_preconditions_gate env args)
      as [Huid | [[Huid Hdev] | [[Huid [d [Hdev Hex]]] | [_ [d [Hdev _]]]]]].
    - rewrite (check_preconditions_not_root env args st Huid) in Hcheck.
      discriminate Hcheck.
    - rewrite (check_preconditions_no_device env args st Huid Hdev) in Hcheck.
      discriminate Hcheck.
    - rewrite (check_preconditions_device_missing env args st d Huid Hdev Hex)
        in Hcheck.
      discriminate Hcheck.
    - exists d. exact Hdev. }
  destruct Hdev as [d Hdev].
  (* the checks leave standard input alone and spawn nothing *)
  pose proof (keeps_check_preconditions not_Popen env args
                ltac:(intros; intros ? ?; discriminate)
                ltac:(intros; intros ? ?; discriminate) st)
    as Hframe.
  unfold main. unfold bind at 1.
  destruct (check_preconditions env args st) as [r1 s1].
  cbn [fst snd] in Hcheck, Hframe. subst r1.
  pose proof (frame_adds _ _ _ Hframe) as Hadds1. destruct Hframe as [Hstdin1 _].
  unfold bind at 1. cbn [emit].
  unfold bind at 1. unfold get_config.
  rewrite Hread, Hload. unfold bind at 1. cbn [log emit ret].
  rewrite Hdev. cbv zeta.
  set (s3 := mkState _ _ _).
  assert (Hs3 : stdin s3 = []) by (subst s3; cbn; congruence).
  assert (Hadds3 : adds not_Popen s1 s3).
  { eapply adds_events.
    - subst s3. cbn [events]. rewrite <- app_assoc. reflexivity.
    - repeat constructor; intros cmd cwd; discriminate. }
  destruct (questions_at_end_of_input env cfg (pathlib.of_str d) s3 Hs3 Hask)
    as [s4 [Hq Hadds4]].
  assert (Hadds : adds not_Popen st s4)
    by (eapply adds_trans; [exact Hadds1 | eapply adds_trans; eassumption]).
  destruct (image_url args) as [[| c t] |] eqn:Hu.
  2: { destruct Hurl as [Hurl | Hurl]; discriminate Hurl. }
  all: unfold bind at 1; rewrite Hq; exists s4;
    (split; [reflexivity | exact Hadds]).
Qed.

(** X22. A run that has questions to ask but no input to read: in profile
    mode, with the preconditions met and the configuration loaded, if
    standard input is at its end and either all-in-one is off or [build],
    [bios] and [efi] are all on, the prompt raises [EOFError], which
    [run_main] does not catch; no command is spawned. *)
Theorem run_main_end_of_input (env : Env) (args : Args) (st : State)
    (raw : string) (cfg : Config) :
  image_url args = None \/ image_url args = Some "" ->
  fst (check_preconditions env args st) = Ok tt ->
  read_text env (pathlib.str (pathlib.of_str (config_file args))) = Text raw ->
  safe_load env raw = Some (typed cfg) ->
  stdin st = [] ->
  all_in_one (usb_images cfg) = false
  \/ (build (usb_images cfg) = true /\ bios (usb_images cfg) = true
      /\ efi (usb_images cfg) = true) ->
  fst (run_main env args st) = Uncaught EOFError
  /\ adds not_Popen st (snd (run_main env args st)).
Proof.
  intros Hurl Hcheck Hread Hload Hin Hask.
  destruct (main_end_of_input env args st raw cfg
              Hurl Hcheck Hread Hload Hin Hask) as [st' [Hmain Hadds]].
  unfold run_main. rewrite Hmain. cbn [fst snd].
  split; [reflexivity | exact Hadds].
Qed.

Lemma run_main_end_of_input_witness :
  stdin (st_lines [] [Poll_exit 0]) = []
  /\ all_in_one (usb_images cfg_edge) = false
  /\ fst (run_main (env_edge Opened)
            (mkArgs (Some "/dev/sdb") None "config.yml" false)
            (st_lines [] [Poll_exit 0]))
     = Uncaught EOFError.
Proof.
  split; [reflexivity | split; [reflexivity |]].
  exact (proj1 (run_main_end_of_input (env_edge Opened)
                  (mkArgs (Some "/dev/sdb") None "config.yml" false)
                  (st_lines [] [Poll_exit 0]) "" cfg_edge
                  (or_introl eq_refl) eq_refl eq_refl eq_refl eq_refl
                  (or_introl eq_refl))).
Defined.
